(** * Humanoid skateboard pushing task: residual and transition code

    Shallow embedding of [mjpc/tasks/humanoid/skateboard/pushing.cc].

    Conventions of the embedding.
    - [double] / [mjtNum] values are real numbers ([R]): the arithmetic of
      the source is read over the reals, without rounding, NaN or
      infinities.
    - [int] values are integers ([Z]).  Signed overflow is undefined in C++,
      so the embedding describes the executions in which no [int]
      operation overflows.
    - A C array reached through a pointer is a total lookup [Z -> A];
      [p + k] is [shift p k].  Writes are pointwise updates.
    - [mju_error] and a failed [assert] stop the process: [Fatal].  A read
      the language gives no meaning to (a contact outside the active list,
      a [std::string] built from a null pointer) is [Invalid]. *)

From Stdlib Require Import ZArith Reals Lra Lia List String Bool Zfloor.
Import ListNotations.

Local Open Scope string_scope.
Local Open Scope Z_scope.

(** ** Outcomes of a call *)

Inductive outcome (A : Type) : Type :=
| Done (a : A)
| Fatal (msg : string)
| Invalid (what : string).

Arguments Done {A} a.
Arguments Fatal {A} msg.
Arguments Invalid {A} what.

Definition bind {A B : Type} (c : outcome A) (k : A -> outcome B) : outcome B :=
  match c with
  | Done a => k a
  | Fatal msg => Fatal msg
  | Invalid what => Invalid what
  end.

Notation "x <- c ;; k" := (bind c (fun x => k))
  (at level 61, c at next level, right associativity).
Notation "' pat <- c ;; k" := (bind c (fun x => match x with pat => k end))
  (at level 61, pat pattern, c at next level, right associativity).
Notation "c ;;; k" := (bind c (fun _ => k))
  (at level 61, right associativity).

(** [mju_error(msg)] *)
Definition mju_error {A : Type} (msg : string) : outcome A := Fatal msg.

(** [if (cond) mju_error(msg);] *)
Definition error_if (cond : bool) (msg : string) : outcome unit :=
  if cond then mju_error msg else Done tt.

(** [assert(cond);] *)
Definition assert (cond : bool) (msg : string) : outcome unit :=
  if cond then Done tt else Fatal msg.

(** ** Arrays and vectors *)

Definition array (A : Type) : Type := Z -> A.

(** [p[i]] *)
Notation "p .[ i ]" := (p i%Z) (at level 1, only parsing).

(** [p + k] *)
Definition shift {A : Type} (p : array A) (k : Z) : array A :=
  fun i => p (k + i).

(** [p[k] = v] *)
Definition store {A : Type} (p : array A) (k : Z) (v : A) : array A :=
  fun i => if i =? k then v else p i.

Definition in_range (lo n i : Z) : bool := (lo <=? i) && (i <? lo + n).

(** [mju_copy(res + off, vec, n)] : [res[off + i] = vec[i]] for [0 <= i < n] *)
Definition mju_copy (res : array R) (off : Z) (vec : array R) (n : Z) : array R :=
  fun i => if in_range off n i then vec (i - off) else res i.

(** The first [n] cells of an array, as a list. *)
Definition cells (p : array R) (n : nat) : list R :=
  map (fun k => p (Z.of_nat k)) (seq 0 n).

(** A list seen as an array ([std::vector::data()]); cells past the end read 0. *)
Definition data_of (l : list R) : array R :=
  fun i => if i <? 0 then 0%R else nth (Z.to_nat i) l 0%R.

(** ** Interpolation between keyframes *)

(** [std::clamp(v, lo, hi)] *)
Definition clamp (v lo hi : R) : R :=
  if Rlt_dec v lo then lo else if Rlt_dec hi v then hi else v.

Definition ComputeInterpolationValues (index : R) (max_index : Z)
  : Z * Z * R * R :=
  let index_0 := Zfloor (clamp index 0 (IZR max_index)) in
  let index_1 := Z.min (index_0 + 1) max_index in
  let weight_1 := (clamp index 0 (IZR max_index) - IZR index_0)%R in
  let weight_0 := (1 - weight_1)%R in
  (index_0, index_1, weight_0, weight_1).

(** ** Motion library *)

Definition kFps : R := 30.

Definition kMotionLengths : list Z := [1] (* pushing *).

(** [tbl[i]]; a cell outside the table reads 0. *)
Definition table_at (tbl : list Z) (i : Z) : Z :=
  if i <? 0 then 0 else nth (Z.to_nat i) tbl 0.

(** [for (; i < id; i++) start += tbl[i];] with [n] iterations left. *)
Fixpoint start_loop (tbl : list Z) (n : nat) (i start : Z) : Z :=
  match n with
  | O => start
  | S n' => start_loop tbl n' (i + 1) (start + table_at tbl i)
  end.

Definition MotionLength (id : Z) : Z := table_at kMotionLengths id.

Definition MotionStartIndex (id : Z) : Z :=
  start_loop kMotionLengths (Z.to_nat id) 0 0.

Definition valid_motion_id (id : Z) : Prop :=
  0 <= id < Z.of_nat (List.length kMotionLengths).

(** Sum of [f i] for [0 <= i < id]. *)
Definition sum_below (f : Z -> Z) (id : Z) : Z :=
  fold_right Z.add 0 (map (fun k => f (Z.of_nat k)) (seq 0 (Z.to_nat id))).

(** ** Numeric helpers of the MuJoCo utility layer *)

Definition Reqb (a b : R) : bool := if Req_dec_T a b then true else false.
Definition Rleb (a b : R) : bool := if Rle_dec a b then true else false.

(** A [bool] converted to [double]. *)
Definition R_of_bool (b : bool) : R := if b then 1%R else 0%R.

(** Fixed-size local arrays of three numbers. *)
Definition vec3 : Type := (R * R * R)%type.

Definition vx (v : vec3) : R := fst (fst v).
Definition vy (v : vec3) : R := snd (fst v).
Definition vz (v : vec3) : R := snd v.

(** [mju_copy3(local, p)] / [mju_copy(local, p, 3)] *)
Definition mju_copy3 (p : array R) : vec3 := (p.[0], p.[1], p.[2]).

(** [mju_copy3(p + off, v)] *)
Definition mju_store3 (p : array R) (off : Z) (v : vec3) : array R :=
  store (store (store p (off + 0) (vx v)) (off + 1) (vy v)) (off + 2) (vz v).

Definition mju_sub3 (a b : vec3) : vec3 :=
  (vx a - vx b, vy a - vy b, vz a - vz b)%R.

Definition mju_add3 (a b : vec3) : vec3 :=
  (vx a + vx b, vy a + vy b, vz a + vz b)%R.

Definition mju_scl3 (a : vec3) (s : R) : vec3 :=
  (vx a * s, vy a * s, vz a * s)%R.

(** [mju_addToScl3(res, v, s)] : [res += v * s] *)
Definition mju_addToScl3 (res v : vec3) (s : R) : vec3 :=
  (vx res + vx v * s, vy res + vy v * s, vz res + vz v * s)%R.

(** Sum of [f 0 .. f (n-1)]. *)
Fixpoint sum_upto (f : Z -> R) (n : nat) : R :=
  match n with
  | O => 0%R
  | S k => (sum_upto f k + f (Z.of_nat k))%R
  end.

Definition mju_dot (a b : array R) (n : Z) : R :=
  sum_upto (fun i => (a i * b i)%R) (Z.to_nat n).

Definition mju_norm (v : array R) (n : Z) : R := sqrt (mju_dot v v n).

Definition mjMINVAL : R := 1E-15.

(** [mju_normalize(res, n)]: scale to unit length; a vector shorter than
    [mjMINVAL] becomes the first unit vector. *)
Definition mju_normalize (res : array R) (n : Z) : array R :=
  let norm := mju_norm res n in
  if Rlt_dec norm mjMINVAL then
    fun i => if i =? 0 then 1%R else if in_range 1 (n - 1) i then 0%R else res i
  else
    let normInv := (1 / norm)%R in
    fun i => if in_range 0 n i then (res i * normInv)%R else res i.

(** [mju_scl(res, vec, scl, n)] *)
Definition mju_scl (res vec : array R) (scl : R) (n : Z) : array R :=
  fun i => if in_range 0 n i then (vec i * scl)%R else res i.

(** [mju_addTo(res, vec, n)] *)
Definition mju_addTo (res vec : array R) (n : Z) : array R :=
  fun i => if in_range 0 n i then (res i + vec i)%R else res i.

(** [mju_rotVecMatT(res, vec, mat)] : [res = mat^T * vec] *)
Definition mju_rotVecMatT (vec : vec3) (mat : array R) : vec3 :=
  (mat.[0] * vx vec + mat.[3] * vy vec + mat.[6] * vz vec,
   mat.[1] * vx vec + mat.[4] * vy vec + mat.[7] * vz vec,
   mat.[2] * vx vec + mat.[5] * vy vec + mat.[8] * vz vec)%R.

(** [atan2(y, x)] of the C library, over the reals. *)
Definition atan2 (y x : R) : R :=
  if Rlt_dec 0 x then atan (y / x)
  else if Rlt_dec x 0 then
    if Rle_dec 0 y then (atan (y / x) + PI)%R else (atan (y / x) - PI)%R
  else if Rlt_dec 0 y then (PI / 2)%R
  else if Rlt_dec y 0 then (- (PI / 2))%R
  else 0%R.

(** [for (int i = lo; i < hi; i++) body] over a state [S]. *)
Fixpoint for_loop {S : Type} (n : nat) (i : Z) (body : Z -> S -> S) (s : S) : S :=
  match n with
  | O => s
  | S n' => for_loop n' (i + 1) body (body i s)
  end.

Definition for_range {S : Type} (lo hi : Z) (body : Z -> S -> S) (s : S) : S :=
  for_loop (Z.to_nat (hi - lo)) lo body s.

(** [for (const auto &x : l) body] where the body may stop the process. *)
Fixpoint for_each {A S : Type} (l : list A) (body : A -> S -> outcome S) (s : S)
  : outcome S :=
  match l with
  | [] => Done s
  | x :: l' => s' <- body x s ;; for_each l' body s'
  end.

(** ** MuJoCo model and data, as far as the task reads them *)

Inductive mjtObj : Type := mjOBJ_BODY | mjOBJ_XBODY | mjOBJ_GEOM.

Record mjContact : Type := { geom1 : Z; geom2 : Z }.

Record mjModel : Type := {
  nq : Z;
  nv : Z;
  nu : Z;
  nmocap : Z;
  body_mocapid : array Z;
  key_qpos : array R;
  key_qvel : array R;
  key_mpos : array R;
  (** [mj_name2id]: the id of the named object, [-1] when there is none *)
  mj_name2id : mjtObj -> string -> Z;
  (** [mj_id2name]: the name of the object, a null pointer ([None]) when the
      id is out of range or the object has no name *)
  mj_id2name : mjtObj -> Z -> option string;
  (** index of a residual parameter by name, if the model declares it *)
  parameter_index : string -> option Z;
  (** address in [sensordata] of a sensor by name, if the model declares it *)
  sensor_adr : string -> option Z;
  (** total dimension of the user sensors the model declares *)
  sensor_dim : Z
}.

Record mjData : Type := {
  time : R;
  qpos : array R;
  qvel : array R;
  ctrl : array R;
  xpos : array R;
  xmat : array R;
  mocap_pos : array R;
  sensordata : array R;
  ncon : Z;
  contact : array mjContact;
  (** the force and torque the solver holds for an active contact *)
  contact_frc : Z -> array R
}.

Definition set_qpos (d : mjData) (v : array R) : mjData :=
  {| time := time d; qpos := v; qvel := qvel d; ctrl := ctrl d;
     xpos := xpos d; xmat := xmat d; mocap_pos := mocap_pos d;
     sensordata := sensordata d; ncon := ncon d; contact := contact d;
     contact_frc := contact_frc d |}.

Definition set_qvel (d : mjData) (v : array R) : mjData :=
  {| time := time d; qpos := qpos d; qvel := v; ctrl := ctrl d;
     xpos := xpos d; xmat := xmat d; mocap_pos := mocap_pos d;
     sensordata := sensordata d; ncon := ncon d; contact := contact d;
     contact_frc := contact_frc d |}.

Definition set_mocap_pos (d : mjData) (v : array R) : mjData :=
  {| time := time d; qpos := qpos d; qvel := qvel d; ctrl := ctrl d;
     xpos := xpos d; xmat := xmat d; mocap_pos := v;
     sensordata := sensordata d; ncon := ncon d; contact := contact d;
     contact_frc := contact_frc d |}.

(** [data->contact[i]]: only the first [ncon] entries are contacts. *)
Definition contact_at (d : mjData) (i : Z) : outcome mjContact :=
  if in_range 0 (ncon d) i then Done (contact d i)
  else Invalid "contact index outside the active list".

(** [mj_contactForce(model, data, id, result)] of the MuJoCo engine: the
    result is cleared, and the contact is consulted only for a valid id. *)
Definition mj_contactForce (m : mjModel) (d : mjData) (id : Z)
  : outcome (array R) :=
  if (0 <=? id) && (id <? ncon d) then
    contact_at d id ;;; Done (contact_frc d id)
  else Done (fun _ => 0%R).

(** [std::string s = p;] for a [const char *] *)
Definition std_string (p : option string) : outcome string :=
  match p with
  | Some s => Done s
  | None => Invalid "std::string built from a null pointer"
  end.

(** ** Helpers of [mjpc/utilities.h] *)

(** Modelled from the spec: [mjpc::ParameterIndex] is declared in
    [mjpc/utilities.h], whose code is not part of the sources at hand.  A
    parameter is looked up by name and the lookup fails loudly when the name
    is absent. *)
Definition ParameterIndex (m : mjModel) (name : string) : outcome Z :=
  match parameter_index m name with
  | Some i => Done i
  | None => Fatal ("parameter not found: " ++ name)
  end.

(** Modelled from the spec: [mjpc::SensorByName] is declared in
    [mjpc/utilities.h], whose code is not part of the sources at hand.  A
    sensor value is looked up by string key, fatally when the sensor is
    absent. *)
Definition SensorByName (m : mjModel) (d : mjData) (name : string)
  : outcome (array R) :=
  match sensor_adr m name with
  | Some adr => Done (shift (sensordata d) adr)
  | None => Fatal ("sensor not found: " ++ name)
  end.

(** Modelled from the spec: [mjpc::CheckSensorDim] is declared in
    [mjpc/utilities.h], whose code is not part of the sources at hand.  The
    residual length must equal the declared sensor dimensionality; a
    mismatch is a fatal configuration error. *)
Definition CheckSensorDim (m : mjModel) (residual_size : Z) : outcome unit :=
  error_if (negb (residual_size =? sensor_dim m))
           "mismatch between total user-sensor dimension and residual size".

(** [parameters[ParameterIndex(model, name)]] *)
Definition parameter (m : mjModel) (parameters : array R) (name : string)
  : outcome R :=
  i <- ParameterIndex m name ;; Done (parameters i).

(** ** Goal controller *)

(** [left_or_right] is the value of the Bernoulli draw [distr(eng)], which
    the source takes from a freshly seeded generator inside the branch. *)
Definition move_goal (model : mjModel) (d : mjData) (parameters : array R)
    (mode : Z) (left_or_right : bool) : outcome mjData :=
  let goal_body_id := mj_name2id model mjOBJ_XBODY "goal" in
  error_if (goal_body_id <? 0) "body 'goal' not found" ;;;
  let goal_mocapid := body_mocapid model goal_body_id in
  error_if (goal_mocapid <? 0) "mocap 'goal' not found" ;;;
  let goal_position := mju_copy3 (shift (mocap_pos d) (3 * goal_mocapid)) in
  let skateboard_body_id_ := mj_name2id model mjOBJ_XBODY "skateboard" in
  let skateboard_position :=
    mju_copy3 (shift (xpos d) (3 * skateboard_body_id_)) in
  let skateboard_goal_error := mju_sub3 goal_position skateboard_position in
  let skateboard_goal_distance :=
    mju_norm (data_of [vx skateboard_goal_error; vy skateboard_goal_error;
                       vz skateboard_goal_error]) 2 in
  let goal_switch_threshold_m := 0.5%R in
  if Rlt_dec skateboard_goal_distance goal_switch_threshold_m then
    let skateboard_xmat := shift (xmat d) (9 * skateboard_body_id_) in
    let skateboard_heading := data_of [skateboard_xmat.[0]; skateboard_xmat.[3]] in
    let goal_offset_xy := mju_normalize skateboard_heading 2 in
    let goal_move_distance_forward := 8.0%R in
    let goal_move_distance_side := 2.0%R in
    let goal_offset_forward_0 :=
      (goal_offset_xy.[0] * goal_move_distance_forward)%R in
    let goal_offset_forward_1 :=
      (goal_offset_xy.[1] * goal_move_distance_forward)%R in
    let goal_offset_perpendicular_0 :=
      if left_or_right
      then (- goal_offset_xy.[1] * goal_move_distance_side)%R
      else (goal_offset_xy.[1] * goal_move_distance_side)%R in
    let goal_offset_perpendicular_1 :=
      if left_or_right
      then (goal_offset_xy.[0] * goal_move_distance_side)%R
      else (- goal_offset_xy.[0] * goal_move_distance_side)%R in
    let goal_offset : vec3 :=
      ((goal_offset_forward_0 + goal_offset_perpendicular_0)%R,
       (goal_offset_forward_1 + goal_offset_perpendicular_1)%R,
       0.0%R) in
    let new_goal_position : vec3 :=
      ((vx skateboard_position + vx goal_offset)%R,
       (vy skateboard_position + vy goal_offset)%R,
       vz goal_position) in
    Done (set_mocap_pos d
            (mju_store3 (mocap_pos d) (3 * goal_mocapid) new_goal_position))
  else Done d.

(** ** Reference frame synthesizer *)

Local Open Scope R_scope.

(** names for humanoid bodies *)
Definition body_names : list string :=
  ["pelvis"; "head"; "ltoe"; "rtoe"; "lheel"; "rheel";
   "lknee"; "rknee"; "lhand"; "rhand"; "lelbow"; "relbow";
   "lshoulder"; "rshoulder"; "lhip"; "rhip"].

Definition track_body_names : list string :=
  ["pelvis"; "ltoe"; "rtoe"; "lheel"; "rheel"; "lhand";
   "rhand"; "lshoulder"; "rshoulder"; "lhip"; "rhip"].

Definition upper_body_names : list string :=
  ["mocap[pelvis]"; "mocap[lhip]"; "mocap[rhip]"; "mocap[lknee]";
   "mocap[head]"; "mocap[lshoulder]"; "mocap[rshoulder]"].

Definition upper_body_scale_y : list R :=
  [-0.25; -0.5; -0.5; -1; 1.3; 1.3; 1.3].

Definition upper_body_scale_z : list R :=
  [-0.05; 0.05; 0.05; -0.1; -0.15; -0.15; -0.15].

(** compute mocap translations and rotations *)
Definition move_mocap_poses (result : array R) (model : mjModel)
    (data : mjData) (parameters : array R) (mode : Z) : outcome (array R) :=
  let n := (3 * (nmocap model - 1))%Z in
  let modified_mocap_pos : array R := fun _ => 0 in
  let modified_mocap_pos :=
    mju_scl modified_mocap_pos
            (shift (key_mpos model) (3 * nmocap model * mode)) 1 n in
  let skateboard_body_id_ := mj_name2id model mjOBJ_XBODY "skateboard" in
  let skateboard_center :=
    mju_copy3 (shift (xpos data) (3 * skateboard_body_id_)) in
  (* get average center of mpos, move mpos to the position of the board *)
  let '(average_mpos_0, average_mpos_1, modified_mocap_pos) :=
    for_range 0 (nmocap model - 1)
      (fun i '(a0, a1, mp) =>
         let a0 := a0 + mp.[3 * i + 0] in
         let a1 := a1 + mp.[3 * i + 1] in
         let mp := store mp (3 * i + 0) (mp.[3 * i + 0] + vx skateboard_center) in
         let mp := store mp (3 * i + 1) (mp.[3 * i + 1] + vy skateboard_center) in
         let mp := store mp (3 * i + 2)
                         (mp.[3 * i + 2] + (vz skateboard_center - 0.1)) in
         (a0, a1, mp))
      (0, 0, modified_mocap_pos) in
  let average_mpos_0 := average_mpos_0 / IZR (nmocap model - 1) in
  let average_mpos_1 := average_mpos_1 / IZR (nmocap model - 1) in
  let modified_mocap_pos :=
    for_range 0 (nmocap model - 1)
      (fun i mp =>
         let mp := store mp (3 * i + 0) (mp.[3 * i + 0] - average_mpos_0) in
         store mp (3 * i + 1) (mp.[3 * i + 1] - average_mpos_1))
      modified_mocap_pos in
  let modified_mocap_pos :=
    for_range 0 (nmocap model - 1)
      (fun i mp => store mp (3 * i + 0) (mp.[3 * i + 0] - 0.1))
      modified_mocap_pos in
  amplitude_z <- parameter model parameters "Amplitude_z" ;;
  amplitude_y <- parameter model parameters "Amplitude_y" ;;
  frequency_z <- parameter model parameters "Frequency_z" ;;
  frequency_y <- parameter model parameters "Frequency_y" ;;
  phase_z <- parameter model parameters "Phase_z" ;;
  phase_y <- parameter model parameters "Phase_y" ;;
  offset_z <- parameter model parameters "Offset_z" ;;
  offset_y <- parameter model parameters "Offset_y" ;;
  let time_ := time data in
  let mocap_body_id_ltoe := mj_name2id model mjOBJ_BODY "mocap[ltoe]" in
  let mocap_body_id_lheel := mj_name2id model mjOBJ_BODY "mocap[lheel]" in
  let body_mocapid_ltoe := body_mocapid model mocap_body_id_ltoe in
  let body_mocapid_lheel := body_mocapid model mocap_body_id_lheel in
  let left_toe_pos :=
    mju_copy3 (shift (key_mpos model) (3 * body_mocapid_ltoe)) in
  let left_heel_pos :=
    mju_copy3 (shift (key_mpos model) (3 * body_mocapid_lheel)) in
  let left_foot_z_ref :=
    amplitude_z * sin (2 * PI * frequency_z * time_ + phase_z) - offset_z in
  let left_foot_y_toe_ref :=
    amplitude_y * sin (2 * PI * frequency_y * time_ + phase_y)
    + vy left_toe_pos + offset_y in
  let left_toe_new_pos := left_foot_y_toe_ref in
  let modified_mocap_pos :=
    store modified_mocap_pos (3 * body_mocapid_ltoe + 1)
          (modified_mocap_pos.[3 * body_mocapid_ltoe + 1] + left_toe_new_pos) in
  let modified_mocap_pos :=
    store modified_mocap_pos (3 * body_mocapid_lheel + 1)
          (modified_mocap_pos.[3 * body_mocapid_ltoe + 1] - 0.2) in
  let modified_mocap_pos :=
    store modified_mocap_pos (3 * body_mocapid_ltoe + 2)
          (left_foot_z_ref + vz left_toe_pos) in
  let modified_mocap_pos :=
    store modified_mocap_pos (3 * body_mocapid_lheel + 2)
          (left_foot_z_ref + vz left_heel_pos) in
  (* same for pelvis, hip, shoulder, head *)
  let modified_mocap_pos :=
    for_range 0 (Z.of_nat (List.length upper_body_names))
      (fun i mp =>
         let mocap_body_id :=
           mj_name2id model mjOBJ_BODY (nth (Z.to_nat i) upper_body_names "") in
         let body_mocapid := body_mocapid model mocap_body_id in
         let body_pos :=
           mju_copy3 (shift (key_mpos model) (3 * body_mocapid)) in
         let body_y_ref :=
           - nth (Z.to_nat i) upper_body_scale_y 0 * amplitude_y * 0.5
             * sin (2 * PI * frequency_y * time_ + phase_y)
           + vy body_pos + offset_y + 0.2 in
         let body_z_ref :=
           - nth (Z.to_nat i) upper_body_scale_z 0
             * sin (2 * PI * frequency_y * time_ + phase_y) in
         let mp := store mp (3 * body_mocapid + 1)
                         (mp.[3 * body_mocapid + 1] + body_y_ref) in
         store mp (3 * body_mocapid + 2) (mp.[3 * body_mocapid + 2] + body_z_ref))
      modified_mocap_pos in
  let skateboard_xmat := shift (xmat data) (9 * skateboard_body_id_) in
  let skateboard_heading := atan2 skateboard_xmat.[3] skateboard_xmat.[0] in
  let skateboard_heading := skateboard_heading - PI / 2.0 in
  let goal_id := mj_name2id model mjOBJ_XBODY "goal" in
  error_if (goal_id <? 0)%Z "body 'goal' not found" ;;;
  let goal_mocap_id_ := body_mocapid model goal_id in
  error_if (goal_mocap_id_ <? 0)%Z "body 'goal' is not mocap" ;;;
  (* get goal position *)
  let goal_pos := shift (mocap_pos data) (3 * goal_mocap_id_) in
  (* get goal heading from board position *)
  let goal_heading :=
    atan2 (goal_pos.[1] - vy skateboard_center)
          (goal_pos.[0] - vx skateboard_center) - PI / 2.0 in
  (* heading error using the sine function *)
  let heading_error := sin (goal_heading - skateboard_heading) / 3 in
  mocap_tilt <- parameter model parameters "Tilt ratio" ;;
  let tilt_angle :=
    (Rmin 0.5 (Rmax (-0.5) heading_error) * PI / 2.0) * mocap_tilt in
  let modified_mocap_pos :=
    for_range 0 (nmocap model - 1)
      (fun i mp =>
         (* position relative to the board center *)
         let rel_x := mp.[3 * i + 0] - vx skateboard_center in
         let rel_y := mp.[3 * i + 1] - vy skateboard_center in
         (* rotation of tilt_angle around the Y axis *)
         let rotated_z := rel_x * sin tilt_angle + mp.[3 * i + 2] * cos tilt_angle in
         let rel_x := rel_x * cos tilt_angle - mp.[3 * i + 2] * sin tilt_angle in
         (* rotation around the Z axis *)
         let rotated_x :=
           cos skateboard_heading * rel_x - sin skateboard_heading * rel_y in
         let rotated_y :=
           sin skateboard_heading * rel_x + cos skateboard_heading * rel_y in
         let mp := store mp (3 * i + 0) (vx skateboard_center + rotated_x) in
         let mp := store mp (3 * i + 1) (vy skateboard_center + rotated_y) in
         store mp (3 * i + 2) rotated_z)
      modified_mocap_pos in
  Done (mju_copy result 0 modified_mocap_pos n).

(** ** Residual terms *)

(** [v.push_back(x)] *)
Definition push_back (v : list R) (x : R) : list R := app v [x].

Record ResidualFn : Type := {
  parameters_ : array R;
  current_mode_ : Z;
  reference_time_ : R;
  skateboard_xbody_id_ : Z;
  skateboard_body_id_ : Z;
  goal_body_id_ : Z;
  goal_body_mocap_id_ : Z
}.

(** The mocap id of the marker body ["mocap[" + body_name + "]"], with the
    two assertions the source makes each time it resolves one. *)
Definition mocap_index (model : mjModel) (body_name : string) : outcome Z :=
  let mocap_body_name := "mocap[" ++ body_name ++ "]" in
  let mocap_body_id := mj_name2id model mjOBJ_BODY mocap_body_name in
  assert (0 <=? mocap_body_id)%Z "0 <= mocap_body_id" ;;;
  let body_mocapid := body_mocapid model mocap_body_id in
  assert (0 <=? body_mocapid)%Z "0 <= body_mocapid" ;;;
  Done body_mocapid.

(** Humanoid tracking residual. *)
Definition ComputeTrackingResidual (self : ResidualFn) (model : mjModel)
    (data : mjData) : outcome (list R) :=
  let mocap_translated : array R := fun _ => 0 in
  mocap_translated <-
    move_mocap_poses mocap_translated model data (parameters_ self)
                     (current_mode_ self) ;;
  (* get motion start index and trajectory length *)
  let start := MotionStartIndex (current_mode_ self) in
  let length := MotionLength (current_mode_ self) in
  let current_index :=
    (time data - reference_time_ self) * kFps + IZR start in
  let last_key_index := (start + length - 1)%Z in
  let residual_to_return : list R := [] in
  let '(key_index_0, key_index_1, weight_0, weight_1) :=
    ComputeInterpolationValues current_index last_key_index in
  let get_body_mpos := fun body_name : string =>
    body_mocapid <- mocap_index model body_name ;;
    (* current frame *)
    let result :=
      mju_scl3 (mju_copy3 (shift mocap_translated
                  (3 * (nmocap model - 1) * key_index_0 + 3 * body_mocapid)))
               weight_0 in
    (* next frame *)
    Done (mju_addToScl3 result
            (mju_copy3 (shift mocap_translated
               (3 * (nmocap model - 1) * key_index_1 + 3 * body_mocapid)))
            weight_1) in
  let get_body_sensor_pos := fun body_name : string =>
    sensor_pos <- SensorByName model data ("tracking_pos[" ++ body_name ++ "]") ;;
    Done (mju_copy3 sensor_pos) in
  (* compute marker and sensor averages *)
  '(avg_mpos, avg_sensor_pos, num_body) <-
    for_each body_names
      (fun body_name '(avg_mpos, avg_sensor_pos, num_body) =>
         body_mpos <- get_body_mpos body_name ;;
         let avg_mpos := mju_add3 avg_mpos body_mpos in
         body_sensor_pos <- get_body_sensor_pos body_name ;;
         let avg_sensor_pos := mju_add3 avg_sensor_pos body_sensor_pos in
         Done (avg_mpos, avg_sensor_pos, (num_body + 1)%Z))
      ((0, 0, 0), (0, 0, 0), 0%Z) ;;
  let avg_mpos := mju_scl3 avg_mpos (1.0 / IZR num_body) in
  let avg_sensor_pos := mju_scl3 avg_sensor_pos (1.0 / IZR num_body) in
  (* residual for averages *)
  let residual_to_return :=
    push_back residual_to_return (vx avg_mpos - vx avg_sensor_pos) in
  let residual_to_return :=
    push_back residual_to_return (vy avg_mpos - vy avg_sensor_pos) in
  let residual_to_return :=
    push_back residual_to_return (vz avg_mpos - vz avg_sensor_pos) in
  residual_to_return <-
    for_each track_body_names
      (fun body_name residual_to_return =>
         body_mpos <- get_body_mpos body_name ;;
         (* current position *)
         body_sensor_pos <- get_body_sensor_pos body_name ;;
         let body_mpos := mju_sub3 body_mpos avg_mpos in
         let body_sensor_pos := mju_sub3 body_sensor_pos avg_sensor_pos in
         let residual_to_return :=
           push_back residual_to_return (vx body_mpos - vx body_sensor_pos) in
         let residual_to_return :=
           push_back residual_to_return (vy body_mpos - vy body_sensor_pos) in
         Done (push_back residual_to_return
                         (vz body_mpos - vz body_sensor_pos)))
      residual_to_return ;;
  (* velocity *)
  for_each track_body_names
    (fun body_name residual_to_return =>
       let linvel_sensor_name := "tracking_linvel[" ++ body_name ++ "]" in
       body_mocapid <- mocap_index model body_name ;;
       (* finite-difference velocity for the x, y, z components *)
       let fd_velocity := fun i : Z =>
         ((key_mpos model).[3 * nmocap model * key_index_1 + 3 * body_mocapid + i]
          - (key_mpos model).[3 * nmocap model * key_index_0 + 3 * body_mocapid + i])
         * kFps in
       (* current velocity from the sensor *)
       sensor_linvel <- SensorByName model data linvel_sensor_name ;;
       Done (for_range 0 3
               (fun i residual_to_return =>
                  let velocity_residual := fd_velocity i - sensor_linvel i in
                  push_back residual_to_return velocity_residual)
               residual_to_return))
    residual_to_return.

(** COM xy velocity compared to the board's global linear velocity. *)
Definition ComputeComVelXyResidual (self : ResidualFn) (model : mjModel)
    (data : mjData) : outcome (list R) :=
  linear_velocity_global <- SensorByName model data "skateboard_framelinvel" ;;
  com_velocity <- SensorByName model data "torso_subtreelinvel" ;;
  let com_difference_0 := linear_velocity_global.[0] - com_velocity.[0] in
  let com_difference_1 := linear_velocity_global.[1] - com_velocity.[1] in
  Done [com_difference_0; com_difference_1].

(** The contact search [for (int i = 0; i < data->ncon; i++)] with [n]
    iterations left; the state is
    [(left_heel_contact_id, left_toe_contact_id, found)], and the loop is
    left as soon as [found == 2]. *)
Fixpoint foot_contact_loop (model : mjModel) (data : mjData)
    (left_heel_id_ left_toe_id_ floor_id : Z) (n : nat) (i : Z)
    (st : Z * Z * Z) : outcome (Z * Z * Z) :=
  match n with
  | O => Done st
  | S n' =>
    let '(left_heel_contact_id, left_toe_contact_id, found) := st in
    c <- contact_at data i ;;
    name <- std_string (mj_id2name model mjOBJ_XBODY (geom1 c)) ;;
    name2 <- std_string (mj_id2name model mjOBJ_XBODY (geom2 c)) ;;
    let st' :=
      if ((geom1 c =? left_heel_id_) && (geom2 c =? floor_id)
          || (geom2 c =? left_heel_id_) && (geom1 c =? floor_id))%Z%bool
      then (left_heel_contact_id, i, (found + 1)%Z)
      else if ((geom1 c =? left_toe_id_) && (geom2 c =? floor_id)
               || (geom2 c =? left_toe_id_) && (geom1 c =? floor_id))%Z%bool
      then (i, left_toe_contact_id, (found + 1)%Z)
      else st in
    if (snd st' =? 2)%Z then Done st'
    else foot_contact_loop model data left_heel_id_ left_toe_id_ floor_id
                           n' (i + 1)%Z st'
  end.

(** compute left foot contact force *)
Definition ComputeFootContactForceResidual (self : ResidualFn)
    (model : mjModel) (data : mjData) : outcome (list R) :=
  let left_heel_id_ := mj_name2id model mjOBJ_GEOM "foot1_left" in
  let left_toe_id_ := mj_name2id model mjOBJ_GEOM "foot2_left" in
  let floor_id := mj_name2id model mjOBJ_GEOM "floor" in
  '(left_heel_contact_id, left_toe_contact_id, found) <-
    foot_contact_loop model data left_heel_id_ left_toe_id_ floor_id
                      (Z.to_nat (ncon data)) 0%Z ((-1)%Z, (-1)%Z, 0%Z) ;;
  left_toe_contact_force <- mj_contactForce model data left_toe_contact_id ;;
  left_heel_contact_force <- mj_contactForce model data left_heel_contact_id ;;
  let left_foot_contact_force :=
    mju_add3 (mju_copy3 left_toe_contact_force)
             (mju_copy3 left_heel_contact_force) in
  let force_abs_sum :=
    Rabs (vx left_foot_contact_force) + Rabs (vy left_foot_contact_force)
    + Rabs (vz left_foot_contact_force) in
  (* check if the mocap position of the left foot is near z = 0 *)
  let mocap_body_id_ltoe := mj_name2id model mjOBJ_BODY "mocap[ltoe]" in
  let body_mocapid_ltoe := body_mocapid model mocap_body_id_ltoe in
  let should_add_force :=
    R_of_bool (Rleb (mocap_pos data).[3 * body_mocapid_ltoe + 2] 0.05) in
  (* sigmoid mapping the input to a value between 0 and 1 *)
  let left_foot_contact_force_error :=
    (1.0 / (1.0 + exp ((force_abs_sum - 500.0) / 80.0))) * should_add_force in
  Done [left_foot_contact_force_error].

(** Humanoid foot positions residual. *)
Definition ComputeFootPositionsResidual (self : ResidualFn) (model : mjModel)
    (data : mjData) : outcome (list R) :=
  (* right foot on the front plate *)
  humanoid_rtoe_pos_sensor <- SensorByName model data "tracking_pos[rtoe]" ;;
  board_front_plate_pos <- SensorByName model data "track-front-plate" ;;
  (* left foot on the tail *)
  humanoid_ltoe_pos_sensor <- SensorByName model data "tracking_pos[ltoe]" ;;
  board_tail_pos <- SensorByName model data "track-tail" ;;
  Done [humanoid_rtoe_pos_sensor.[0] - board_front_plate_pos.[0];
        humanoid_rtoe_pos_sensor.[1] - board_front_plate_pos.[1];
        humanoid_rtoe_pos_sensor.[2] - board_front_plate_pos.[2];
        humanoid_ltoe_pos_sensor.[0] - board_tail_pos.[0];
        humanoid_ltoe_pos_sensor.[1] - board_tail_pos.[1];
        humanoid_ltoe_pos_sensor.[2] - board_tail_pos.[2]].

(** Skateboard heading residual. *)
Definition ComputeBoardHeadingResidual (self : ResidualFn) (model : mjModel)
    (data : mjData) : list R :=
  let skateboard_heading :=
    data_of [(xmat data).[9 * skateboard_body_id_ self + 0];
             (xmat data).[9 * skateboard_body_id_ self + 3]] in
  let goal_position_0 := (mocap_pos data).[3 * goal_body_mocap_id_ self + 0] in
  let goal_position_1 := (mocap_pos data).[3 * goal_body_mocap_id_ self + 1] in
  let skateboard_position_0 := (xpos data).[3 * skateboard_body_id_ self + 0] in
  let skateboard_position_1 := (xpos data).[3 * skateboard_body_id_ self + 1] in
  let board_to_goal :=
    data_of [goal_position_0 - skateboard_position_0;
             goal_position_1 - skateboard_position_1] in
  let skateboard_heading := mju_normalize skateboard_heading 2 in
  let board_to_goal := mju_normalize board_to_goal 2 in
  [skateboard_heading.[0] - board_to_goal.[0];
   skateboard_heading.[1] - board_to_goal.[1]].

(** Skateboard velocity residual. *)
Definition ComputeBoardVelocityResidual (self : ResidualFn) (model : mjModel)
    (data : mjData) : outcome (list R) :=
  velocity <- parameter model (parameters_ self) "Velocity" ;;
  let skateboard_linear_velocity_target : vec3 := (velocity, 0.0, 0.0) in
  skateboard_framelinvel <- SensorByName model data "skateboard_framelinvel" ;;
  let skateboard_linear_velocity_global : vec3 :=
    (skateboard_framelinvel.[0], skateboard_framelinvel.[1],
     skateboard_framelinvel.[2]) in
  let skateboard_xmat := shift (xmat data) (9 * skateboard_body_id_ self) in
  (* transform the global velocity to local velocity *)
  let skateboard_linear_velocity_local :=
    mju_rotVecMatT skateboard_linear_velocity_global skateboard_xmat in
  (* NOTE: small tolerance added to the longitudinal residual *)
  Done [vx skateboard_linear_velocity_target
          - vx skateboard_linear_velocity_local - 0.03;
        vy skateboard_linear_velocity_target
          - vy skateboard_linear_velocity_local;
        vz skateboard_linear_velocity_target
          - vz skateboard_linear_velocity_global].

(** [v.size()] *)
Definition size (v : list R) : Z := Z.of_nat (List.length v).

Definition Residual (self : ResidualFn) (model : mjModel) (data : mjData)
    (residual : array R) : outcome (array R) :=
  let counter := 0%Z in
  let n_humanoid_joints := (nv model - 6 - 6 - 7)%Z in
  let residual :=
    mju_copy residual counter (shift (qvel data) 6) n_humanoid_joints in
  let counter := (counter + n_humanoid_joints)%Z in
  let residual := mju_copy residual counter (ctrl data) (nu model) in
  let counter := (counter + nu model)%Z in
  tracking_residual <- ComputeTrackingResidual self model data ;;
  let residual :=
    mju_copy residual counter (data_of tracking_residual)
             (size tracking_residual) in
  let counter := (counter + size tracking_residual)%Z in
  foot_positions_residual <- ComputeFootPositionsResidual self model data ;;
  let residual :=
    mju_copy residual counter (data_of foot_positions_residual)
             (size foot_positions_residual) in
  let counter := (counter + size foot_positions_residual)%Z in
  let board_heading_residual := ComputeBoardHeadingResidual self model data in
  let residual :=
    mju_copy residual counter (data_of board_heading_residual)
             (size board_heading_residual) in
  let counter := (counter + size board_heading_residual)%Z in
  board_velocity_residual <- ComputeBoardVelocityResidual self model data ;;
  let residual :=
    mju_copy residual counter (data_of board_velocity_residual)
             (size board_velocity_residual) in
  let counter := (counter + size board_velocity_residual)%Z in
  foot_contact_force_residual <-
    ComputeFootContactForceResidual self model data ;;
  let residual :=
    mju_copy residual counter (data_of foot_contact_force_residual)
             (size foot_contact_force_residual) in
  let counter := (counter + size foot_contact_force_residual)%Z in
  com_vel_xy_residual <- ComputeComVelXyResidual self model data ;;
  let residual :=
    mju_copy residual counter (data_of com_vel_xy_residual)
             (size com_vel_xy_residual) in
  let counter := (counter + size com_vel_xy_residual)%Z in
  CheckSensorDim model counter ;;;
  Done residual.

(** ** Transition controller *)

Record Pushing : Type := {
  mode : Z;
  parameters : array R;
  residual_ : ResidualFn
}.

(** [residual_.current_mode_ = m; residual_.reference_time_ = t;] *)
Definition set_motion (self : Pushing) (m : Z) (t : R) : Pushing :=
  {| mode := mode self;
     parameters := parameters self;
     residual_ :=
       {| parameters_ := parameters_ (residual_ self);
          current_mode_ := m;
          reference_time_ := t;
          skateboard_xbody_id_ := skateboard_xbody_id_ (residual_ self);
          skateboard_body_id_ := skateboard_body_id_ (residual_ self);
          goal_body_id_ := goal_body_id_ (residual_ self);
          goal_body_mocap_id_ := goal_body_mocap_id_ (residual_ self) |} |}.

(** The test of the motion switch. *)
Definition motion_switch (self : Pushing) (d : mjData) : bool :=
  negb (current_mode_ (residual_ self) =? mode self)%Z || Reqb (time d) 0.0.

(** [left_or_right] is the draw [move_goal] makes if it relocates the goal. *)
Definition TransitionLocked (self : Pushing) (model : mjModel) (d : mjData)
    (left_or_right : bool) : outcome (Pushing * mjData) :=
  assert (0 <=? skateboard_body_id_ (residual_ self))%Z
         "residual_.skateboard_body_id_ >= 0" ;;;
  let start := MotionStartIndex (mode self) in
  let length := MotionLength (mode self) in
  (* check for motion switch *)
  let '(self, d) :=
    if motion_switch self d then
      let self := set_motion self (mode self) (time d) in
      (* set initial state *)
      let d := set_qpos d (mju_copy (qpos d) 0
                 (shift (key_qpos model) (nq model * start)) (nq model)) in
      let d := set_qvel d (mju_copy (qvel d) 0
                 (shift (key_qvel model) (nv model * start)) (nv model)) in
      (self, d)
    else (self, d) in
  (* indices *)
  let current_index :=
    (time d - reference_time_ (residual_ self)) * kFps + IZR start in
  let last_key_index := (start + length - 1)%Z in
  let '(key_index_0, key_index_1, weight_0, weight_1) :=
    ComputeInterpolationValues current_index last_key_index in
  let n := (3 * (nmocap model - 1))%Z in
  let mocap_pos_0 : array R := fun _ => 0 in
  let mocap_pos_1 : array R := fun _ => 0 in
  (* compute interpolated frame *)
  let mocap_pos_0 :=
    mju_scl mocap_pos_0 (shift (key_mpos model) (3 * nmocap model * key_index_0))
            weight_0 n in
  let mocap_pos_1 :=
    mju_scl mocap_pos_1 (shift (key_mpos model) (3 * nmocap model * key_index_1))
            weight_1 n in
  let d := set_mocap_pos d (mju_copy (mocap_pos d) 0 mocap_pos_0 n) in
  let d := set_mocap_pos d (mju_addTo (mocap_pos d) mocap_pos_1 n) in
  let mocap_pos_result : array R := fun _ => 0 in
  mocap_pos_result <-
    move_mocap_poses mocap_pos_result model d (parameters self) (mode self) ;;
  let d := set_mocap_pos d (mju_copy (mocap_pos d) 0 mocap_pos_result n) in
  d <- move_goal model d (parameters self) (mode self) left_or_right ;;
  Done (self, d).

Local Close Scope R_scope.

(** ** Notions used to state the properties *)

Local Open Scope R_scope.

(** The mocap slot of the goal marker. *)
Definition goal_mocapid (m : mjModel) : Z :=
  body_mocapid m (mj_name2id m mjOBJ_XBODY "goal").

Definition skateboard_id (m : mjModel) : Z :=
  mj_name2id m mjOBJ_XBODY "skateboard".

Definition goal_position (m : mjModel) (d : mjData) : vec3 :=
  mju_copy3 (shift (mocap_pos d) (3 * goal_mocapid m)).

Definition skateboard_position (m : mjModel) (d : mjData) : vec3 :=
  mju_copy3 (shift (xpos d) (3 * skateboard_id m)).

(** Distance of two points in the (x, y) plane. *)
Definition planar_distance (a b : vec3) : R :=
  sqrt ((vx a - vx b) * (vx a - vx b) + (vy a - vy b) * (vy a - vy b)).

(** The first column of the board's orientation matrix, in the plane. *)
Definition heading_of (m : mjModel) (d : mjData) : R * R :=
  ((xmat d).[9 * skateboard_id m + 0], (xmat d).[9 * skateboard_id m + 3]).

(** The heading scaled to unit length, as [mju_normalize] does it. *)
Definition unit_heading (m : mjModel) (d : mjData) : R * R :=
  let u := mju_normalize (data_of [fst (heading_of m d); snd (heading_of m d)]) 2 in
  (u.[0], u.[1]).

(** The sign the binary draw gives the sideways offset. *)
Definition side_sign (left_or_right : bool) : R :=
  if left_or_right then 1 else -1.

(** A cell of [mocap_pos] that belongs to the goal marker. *)
Definition goal_cell (m : mjModel) (i : Z) : Prop :=
  (3 * goal_mocapid m <= i < 3 * goal_mocapid m + 3)%Z.

(** [d'] differs from [d] at most in the goal marker's cells. *)
Definition only_goal_moved (m : mjModel) (d d' : mjData) : Prop :=
  time d' = time d /\ qpos d' = qpos d /\ qvel d' = qvel d /\
  ctrl d' = ctrl d /\ xpos d' = xpos d /\ xmat d' = xmat d /\
  sensordata d' = sensordata d /\ ncon d' = ncon d /\
  contact d' = contact d /\ contact_frc d' = contact_frc d /\
  forall i : Z, ~ goal_cell m i -> mocap_pos d' i = mocap_pos d i.

Local Close Scope R_scope.

(** ** A small model: a board, one goal, one marker *)

Local Open Scope R_scope.

(** Body 1 is the skateboard, body 2 the goal (mocap slot 1); every other
    name resolves to body 3, a marker in mocap slot 0.  Geom 0 is the floor,
    geoms 1 and 2 the left foot. *)
Definition sample_model : mjModel :=
  {| nq := 26; nv := 25; nu := 2; nmocap := 2;
     body_mocapid := fun b => if (b =? 2)%Z then 1%Z else 0%Z;
     key_qpos := fun _ => 0;
     key_qvel := fun _ => 0;
     key_mpos := fun _ => 0;
     mj_name2id := fun t name =>
       match t with
       | mjOBJ_GEOM =>
         if String.eqb name "floor" then 0%Z
         else if String.eqb name "foot1_left" then 1%Z
         else if String.eqb name "foot2_left" then 2%Z
         else (-1)%Z
       | _ =>
         if String.eqb name "skateboard" then 1%Z
         else if String.eqb name "goal" then 2%Z
         else 3%Z
       end;
     mj_id2name := fun t id =>
       if (id =? 0)%Z then Some "world"
       else if (id =? 1)%Z then Some "skateboard"
       else if (id =? 2)%Z then Some "goal"
       else if (id =? 3)%Z then Some "mocap[pelvis]"
       else None;
     parameter_index := fun _ => Some 0%Z;
     sensor_adr := fun _ => Some 0%Z;
     sensor_dim := 91 |}.

(** The board at the origin facing +x (identity orientation), the goal at
    (0.3, 0, 0), no contact. *)
Definition sample_data : mjData :=
  {| time := 0;
     qpos := fun _ => 0;
     qvel := fun _ => 0;
     ctrl := fun _ => 0;
     xpos := fun _ => 0;
     xmat := fun i => if (i =? 9)%Z || (i =? 13)%Z || (i =? 17)%Z then 1 else 0;
     mocap_pos := fun i => if (i =? 3)%Z then 0.3 else 0;
     sensordata := fun _ => 0;
     ncon := 0;
     contact := fun _ => {| geom1 := 0; geom2 := 0 |};
     contact_frc := fun _ _ => 0 |}.

Local Close Scope R_scope.

(** ** Notions for the residual terms *)

Local Open Scope R_scope.

(** The board velocity residual with the local-frame velocity subtracted on
    all three axes: target [(velocity, 0, 0)], tolerance on the first. *)
Definition board_velocity_all_local (velocity : R) (global : vec3)
    (mat : array R) : list R :=
  let local := mju_rotVecMatT global mat in
  [velocity - vx local - 0.03; 0 - vy local; 0 - vz local].

(** A task object bound to [sample_model]. *)
Definition sample_residual : ResidualFn :=
  {| parameters_ := fun _ => 0;
     current_mode_ := 0;
     reference_time_ := 0;
     skateboard_xbody_id_ := 1;
     skateboard_body_id_ := 1;
     goal_body_id_ := 2;
     goal_body_mocap_id_ := 1 |}.

(** The board pitched by a quarter turn about its y axis (its local z axis
    along the world x axis), moving along the world x axis at unit speed. *)
Definition pitched_data : mjData :=
  {| time := 0;
     qpos := fun _ => 0;
     qvel := fun _ => 0;
     ctrl := fun _ => 0;
     xpos := fun _ => 0;
     xmat := fun i => if (i =? 11)%Z then 1
                      else if (i =? 13)%Z then 1
                      else if (i =? 15)%Z then -1 else 0;
     mocap_pos := fun _ => 0;
     sensordata := fun i => if (i =? 0)%Z then 1 else 0;
     ncon := 0;
     contact := fun _ => {| geom1 := 0; geom2 := 0 |};
     contact_frc := fun _ _ => 0 |}.

(** Every geom id met in the active contact list is the id of a named body. *)
Definition contact_names_resolve (m : mjModel) (d : mjData) : Prop :=
  forall i : Z, (0 <= i < ncon d)%Z ->
    mj_id2name m mjOBJ_XBODY (geom1 (contact d i)) <> None /\
    mj_id2name m mjOBJ_XBODY (geom2 (contact d i)) <> None.

(** Height of the left-toe marker in the pose buffer. *)
Definition ltoe_height (m : mjModel) (d : mjData) : R :=
  (mocap_pos d).[3 * body_mocapid m (mj_name2id m mjOBJ_BODY "mocap[ltoe]") + 2].

(** The force of a contact slot: the solver's force of an active contact, or
    nothing. *)
Definition force_of_slot (d : mjData) (f : array R) : Prop :=
  f = (fun _ => 0) \/ exists k : Z, (0 <= k < ncon d)%Z /\ f = contact_frc d k.

Definition logistic (force_abs_sum : R) : R :=
  1.0 / (1.0 + exp ((force_abs_sum - 500.0) / 80.0)).

(** One active contact, between geoms 5 and 7, away from the left foot and
    the floor. *)
Definition stray_contact_data : mjData :=
  {| time := 0;
     qpos := fun _ => 0;
     qvel := fun _ => 0;
     ctrl := fun _ => 0;
     xpos := fun _ => 0;
     xmat := fun i => if (i =? 9)%Z || (i =? 13)%Z || (i =? 17)%Z then 1 else 0;
     mocap_pos := fun _ => 0;
     sensordata := fun _ => 0;
     ncon := 1;
     contact := fun _ => {| geom1 := 5; geom2 := 7 |};
     contact_frc := fun _ _ => 0 |}.

Local Close Scope R_scope.

(** The contact pairs a left-foot geom ([foot1_left] or [foot2_left]) with
    the floor. *)
Definition left_foot_on_floor (m : mjModel) (c : mjContact) : bool :=
  let left_heel_id_ := mj_name2id m mjOBJ_GEOM "foot1_left" in
  let left_toe_id_ := mj_name2id m mjOBJ_GEOM "foot2_left" in
  let floor_id := mj_name2id m mjOBJ_GEOM "floor" in
  ((geom1 c =? left_heel_id_) && (geom2 c =? floor_id)
   || (geom2 c =? left_heel_id_) && (geom1 c =? floor_id))
  || ((geom1 c =? left_toe_id_) && (geom2 c =? floor_id)
      || (geom2 c =? left_toe_id_) && (geom1 c =? floor_id)).

(** As [sample_data], with one active contact: the left heel geom on the
    floor, carrying a normal force of 100. *)
Definition planted_data : mjData :=
  {| time := 0%R;
     qpos := fun _ => 0%R;
     qvel := fun _ => 0%R;
     ctrl := fun _ => 0%R;
     xpos := fun _ => 0%R;
     xmat := fun i => if (i =? 9) || (i =? 13) || (i =? 17) then 1%R else 0%R;
     mocap_pos := fun i => if i =? 3 then 0.3%R else 0%R;
     sensordata := fun _ => 0%R;
     ncon := 1;
     contact := fun _ => {| geom1 := 1; geom2 := 0 |};
     contact_frc := fun _ k => if k =? 0 then 100%R else 0%R |}.

(** ** Notions for the synthesizer *)

(** Two runs of the synthesizer end alike: both stop with the same message,
    or both write the same [n] marker coordinates. *)
Definition same_markers (n : Z) (o1 o2 : outcome (array R)) : Prop :=
  match o1, o2 with
  | Done a, Done b => forall i : Z, 0 <= i < n -> a i = b i
  | Fatal m1, Fatal m2 => m1 = m2
  | Invalid w1, Invalid w2 => w1 = w2
  | _, _ => False
  end.

(** The planar position of the goal marker in the pose buffer. *)
Definition goal_xy (m : mjModel) (d : mjData) : R * R :=
  ((mocap_pos d).[3 * goal_mocapid m + 0], (mocap_pos d).[3 * goal_mocapid m + 1]).

(** ** What a model must declare for the task *)

Definition synthesizer_parameters : list string :=
  ["Amplitude_z"; "Amplitude_y"; "Frequency_z"; "Frequency_y";
   "Phase_z"; "Phase_y"; "Offset_z"; "Offset_y"; "Tilt ratio"].

Definition residual_sensors : list string :=
  map (fun b => "tracking_pos[" ++ b ++ "]") body_names
  ++ map (fun b => "tracking_linvel[" ++ b ++ "]") track_body_names
  ++ ["skateboard_framelinvel"; "torso_subtreelinvel";
      "track-front-plate"; "track-tail"].

Definition parameters_declared (m : mjModel) (names : list string) : Prop :=
  forall name : string, In name names -> parameter_index m name <> None.

Definition sensors_declared (m : mjModel) (names : list string) : Prop :=
  forall name : string, In name names -> sensor_adr m name <> None.

Definition goal_declared (m : mjModel) : Prop :=
  0 <= mj_name2id m mjOBJ_XBODY "goal" /\ 0 <= goal_mocapid m.

Definition markers_declared (m : mjModel) : Prop :=
  forall b : string, In b body_names ->
    0 <= mj_name2id m mjOBJ_BODY ("mocap[" ++ b ++ "]") /\
    0 <= body_mocapid m (mj_name2id m mjOBJ_BODY ("mocap[" ++ b ++ "]")).

(** A task object bound to [sample_model], in motion 0. *)
Definition sample_task : Pushing :=
  {| mode := 0; parameters := fun _ => 0%R; residual_ := sample_residual |}.

(** ** Task reset *)

(** [residual_.skateboard_xbody_id_ = xb; ...] : the four ids of the
    residual object. *)
Definition set_ids (self : Pushing) (xb b g gm : Z) : Pushing :=
  {| mode := mode self;
     parameters := parameters self;
     residual_ :=
       {| parameters_ := parameters_ (residual_ self);
          current_mode_ := current_mode_ (residual_ self);
          reference_time_ := reference_time_ (residual_ self);
          skateboard_xbody_id_ := xb;
          skateboard_body_id_ := b;
          goal_body_id_ := g;
          goal_body_mocap_id_ := gm |} |}.

Definition ResetLocked (self : Pushing) (model : mjModel) : outcome Pushing :=
  let skateboard_xbody_id_ := mj_name2id model mjOBJ_XBODY "skateboard" in
  error_if (skateboard_xbody_id_ <? 0) "xbody 'skateboard' not found" ;;;
  let skateboard_body_id_ := mj_name2id model mjOBJ_BODY "skateboard" in
  error_if (skateboard_body_id_ <? 0) "body 'skateboard' not found" ;;;
  let goal_body_id_ := mj_name2id model mjOBJ_XBODY "goal" in
  error_if (goal_body_id_ <? 0) "body 'goal' not found" ;;;
  let goal_body_mocap_id_ := body_mocapid model goal_body_id_ in
  error_if (goal_body_mocap_id_ <? 0) "body 'goal' is not mocap" ;;;
  Done (set_ids self skateboard_xbody_id_ skateboard_body_id_ goal_body_id_
                goal_body_mocap_id_).

(** ** Further notions used to state properties *)

(** What a control step never writes. *)
Definition same_surroundings (d d' : mjData) : Prop :=
  time d' = time d /\ ctrl d' = ctrl d /\ xpos d' = xpos d /\
  xmat d' = xmat d /\ sensordata d' = sensordata d /\ ncon d' = ncon d /\
  contact d' = contact d /\ contact_frc d' = contact_frc d.

(** A cell of [mocap_pos] that belongs to a tracked marker. *)
Definition marker_cell (m : mjModel) (i : Z) : Prop :=
  0 <= i < 3 * (nmocap m - 1).

(** The value of a named sensor, component [i]; 0 when the model declares no
    such sensor. *)
Definition sensor_value (m : mjModel) (d : mjData) (name : string) (i : Z) : R :=
  match sensor_adr m name with
  | Some adr => sensordata d (adr + i)
  | None => 0%R
  end.

(** A slot of the contact search: empty, or an active contact between the
    geom [foot] and the geom [floor]. *)
Definition slot_of (d : mjData) (foot floor : Z) (id : Z) : Prop :=
  id = -1 \/
  (0 <= id < ncon d /\
   ((geom1 (contact d id) = foot /\ geom2 (contact d id) = floor) \/
    (geom2 (contact d id) = foot /\ geom1 (contact d id) = floor))).

(** As [sample_data], with two active contacts: contact 0 between geom 3 and
    the floor, contact 1 between the left toe geom and the floor. *)
Definition toe_contact_data : mjData :=
  {| time := 0%R;
     qpos := fun _ => 0%R;
     qvel := fun _ => 0%R;
     ctrl := fun _ => 0%R;
     xpos := fun _ => 0%R;
     xmat := fun i => if (i =? 9) || (i =? 13) || (i =? 17) then 1%R else 0%R;
     mocap_pos := fun i => if i =? 3 then 0.3%R else 0%R;
     sensordata := fun _ => 0%R;
     ncon := 2;
     contact := fun i => if i =? 1 then {| geom1 := 0; geom2 := 2 |}
                         else {| geom1 := 3; geom2 := 0 |};
     contact_frc := fun i k => if (i =? 1) && (k =? 0) then 250%R else 0%R |}.

(** ** The stages of the synthesizer *)

Local Open Scope R_scope.

(** The keyframe of the mode moved to the board: the first loop of
    [move_mocap_poses], with the sums it takes for the averages. *)
Definition anchor_frame (model : mjModel) (mode : Z) (skateboard_center : vec3)
  : R * R * array R :=
  let n := (3 * (nmocap model - 1))%Z in
  let modified_mocap_pos : array R := fun _ => 0 in
  let modified_mocap_pos :=
    mju_scl modified_mocap_pos
            (shift (key_mpos model) (3 * nmocap model * mode)) 1 n in
  for_range 0 (nmocap model - 1)
    (fun i '(a0, a1, mp) =>
       let a0 := a0 + mp.[3 * i + 0] in
       let a1 := a1 + mp.[3 * i + 1] in
       let mp := store mp (3 * i + 0) (mp.[3 * i + 0] + vx skateboard_center) in
       let mp := store mp (3 * i + 1) (mp.[3 * i + 1] + vy skateboard_center) in
       let mp := store mp (3 * i + 2)
                       (mp.[3 * i + 2] + (vz skateboard_center - 0.1)) in
       (a0, a1, mp))
    (0, 0, modified_mocap_pos).

(** The second and third loop: the averages and the fixed x offset are
    subtracted. *)
Definition center_frame (model : mjModel) (average_mpos_0 average_mpos_1 : R)
    (modified_mocap_pos : array R) : array R :=
  let average_mpos_0 := average_mpos_0 / IZR (nmocap model - 1) in
  let average_mpos_1 := average_mpos_1 / IZR (nmocap model - 1) in
  let modified_mocap_pos :=
    for_range 0 (nmocap model - 1)
      (fun i mp =>
         let mp := store mp (3 * i + 0) (mp.[3 * i + 0] - average_mpos_0) in
         store mp (3 * i + 1) (mp.[3 * i + 1] - average_mpos_1))
      modified_mocap_pos in
  for_range 0 (nmocap model - 1)
    (fun i mp => store mp (3 * i + 0) (mp.[3 * i + 0] - 0.1))
    modified_mocap_pos.

(** The foot oscillator and the sway of the upper body. *)
Definition pose_limbs (model : mjModel)
    (amplitude_z amplitude_y frequency_z frequency_y phase_z phase_y
     offset_z offset_y time_ : R) (modified_mocap_pos : array R) : array R :=
  let mocap_body_id_ltoe := mj_name2id model mjOBJ_BODY "mocap[ltoe]" in
  let mocap_body_id_lheel := mj_name2id model mjOBJ_BODY "mocap[lheel]" in
  let body_mocapid_ltoe := body_mocapid model mocap_body_id_ltoe in
  let body_mocapid_lheel := body_mocapid model mocap_body_id_lheel in
  let left_toe_pos :=
    mju_copy3 (shift (key_mpos model) (3 * body_mocapid_ltoe)) in
  let left_heel_pos :=
    mju_copy3 (shift (key_mpos model) (3 * body_mocapid_lheel)) in
  let left_foot_z_ref :=
    amplitude_z * sin (2 * PI * frequency_z * time_ + phase_z) - offset_z in
  let left_foot_y_toe_ref :=
    amplitude_y * sin (2 * PI * frequency_y * time_ + phase_y)
    + vy left_toe_pos + offset_y in
  let left_toe_new_pos := left_foot_y_toe_ref in
  let modified_mocap_pos :=
    store modified_mocap_pos (3 * body_mocapid_ltoe + 1)
          (modified_mocap_pos.[3 * body_mocapid_ltoe + 1] + left_toe_new_pos) in
  let modified_mocap_pos :=
    store modified_mocap_pos (3 * body_mocapid_lheel + 1)
          (modified_mocap_pos.[3 * body_mocapid_ltoe + 1] - 0.2) in
  let modified_mocap_pos :=
    store modified_mocap_pos (3 * body_mocapid_ltoe + 2)
          (left_foot_z_ref + vz left_toe_pos) in
  let modified_mocap_pos :=
    store modified_mocap_pos (3 * body_mocapid_lheel + 2)
          (left_foot_z_ref + vz left_heel_pos) in
  for_range 0 (Z.of_nat (List.length upper_body_names))
    (fun i mp =>
       let mocap_body_id :=
         mj_name2id model mjOBJ_BODY (nth (Z.to_nat i) upper_body_names "") in
       let body_mocapid := body_mocapid model mocap_body_id in
       let body_pos :=
         mju_copy3 (shift (key_mpos model) (3 * body_mocapid)) in
       let body_y_ref :=
         - nth (Z.to_nat i) upper_body_scale_y 0 * amplitude_y * 0.5
           * sin (2 * PI * frequency_y * time_ + phase_y)
         + vy body_pos + offset_y + 0.2 in
       let body_z_ref :=
         - nth (Z.to_nat i) upper_body_scale_z 0
           * sin (2 * PI * frequency_y * time_ + phase_y) in
       let mp := store mp (3 * body_mocapid + 1)
                       (mp.[3 * body_mocapid + 1] + body_y_ref) in
       store mp (3 * body_mocapid + 2) (mp.[3 * body_mocapid + 2] + body_z_ref))
    modified_mocap_pos.

(** The lean angle, from the bearing of the goal and the heading. *)
Definition lean_angle (goal_x goal_y : R) (skateboard_center : vec3)
    (skateboard_heading mocap_tilt : R) : R :=
  let goal_heading :=
    atan2 (goal_y - vy skateboard_center)
          (goal_x - vx skateboard_center) - PI / 2.0 in
  let heading_error := sin (goal_heading - skateboard_heading) / 3 in
  (Rmin 0.5 (Rmax (-0.5) heading_error) * PI / 2.0) * mocap_tilt.

(** The last loop: lean about the y axis, then rotation about the z axis
    through the board center. *)
Definition rotate_frame (model : mjModel) (skateboard_center : vec3)
    (tilt_angle skateboard_heading : R) (modified_mocap_pos : array R)
  : array R :=
  for_range 0 (nmocap model - 1)
    (fun i mp =>
       let rel_x := mp.[3 * i + 0] - vx skateboard_center in
       let rel_y := mp.[3 * i + 1] - vy skateboard_center in
       let rotated_z := rel_x * sin tilt_angle + mp.[3 * i + 2] * cos tilt_angle in
       let rel_x := rel_x * cos tilt_angle - mp.[3 * i + 2] * sin tilt_angle in
       let rotated_x :=
         cos skateboard_heading * rel_x - sin skateboard_heading * rel_y in
       let rotated_y :=
         sin skateboard_heading * rel_x + cos skateboard_heading * rel_y in
       let mp := store mp (3 * i + 0) (vx skateboard_center + rotated_x) in
       let mp := store mp (3 * i + 1) (vy skateboard_center + rotated_y) in
       store mp (3 * i + 2) rotated_z)
    modified_mocap_pos.

(** [move_mocap_poses] written with its stages. *)
Definition move_mocap_poses_staged (result : array R) (model : mjModel)
    (data : mjData) (parameters : array R) (mode : Z) : outcome (array R) :=
  let skateboard_center :=
    mju_copy3 (shift (xpos data) (3 * skateboard_id model)) in
  let '(average_mpos_0, average_mpos_1, modified_mocap_pos) :=
    anchor_frame model mode skateboard_center in
  let modified_mocap_pos :=
    center_frame model average_mpos_0 average_mpos_1 modified_mocap_pos in
  amplitude_z <- parameter model parameters "Amplitude_z" ;;
  amplitude_y <- parameter model parameters "Amplitude_y" ;;
  frequency_z <- parameter model parameters "Frequency_z" ;;
  frequency_y <- parameter model parameters "Frequency_y" ;;
  phase_z <- parameter model parameters "Phase_z" ;;
  phase_y <- parameter model parameters "Phase_y" ;;
  offset_z <- parameter model parameters "Offset_z" ;;
  offset_y <- parameter model parameters "Offset_y" ;;
  let modified_mocap_pos :=
    pose_limbs model amplitude_z amplitude_y frequency_z frequency_y
               phase_z phase_y offset_z offset_y (time data)
               modified_mocap_pos in
  let skateboard_heading :=
    atan2 (snd (heading_of model data)) (fst (heading_of model data))
    - PI / 2.0 in
  error_if (mj_name2id model mjOBJ_XBODY "goal" <? 0)%Z
           "body 'goal' not found" ;;;
  error_if (goal_mocapid model <? 0)%Z "body 'goal' is not mocap" ;;;
  mocap_tilt <- parameter model parameters "Tilt ratio" ;;
  let tilt_angle :=
    lean_angle (fst (goal_xy model data)) (snd (goal_xy model data))
               skateboard_center skateboard_heading mocap_tilt in
  Done (mju_copy result 0
          (rotate_frame model skateboard_center tilt_angle skateboard_heading
                        modified_mocap_pos)
          (3 * (nmocap model - 1))).

(** The planar offset a cell of the frame takes when the board is moved by
    [(dx, dy)]: [dx] for the x cell of a marker, [dy] for its y cell. *)
Definition planar_shift (m : mjModel) (dx dy : R) (i : Z) : R :=
  if in_range 0 (3 * (nmocap m - 1)) i then
    if (i mod 3 =? 0)%Z then dx else if (i mod 3 =? 1)%Z then dy else 0
  else 0.

(** Two frames, the second the first moved by [(dx, dy)] in the plane. *)
Definition shifted_frame (m : mjModel) (dx dy : R) (mp mq : array R) : Prop :=
  forall i : Z, mq i = mp i + planar_shift m dx dy i.

(** A mocap id that is the slot of a tracked marker. *)
Definition marker_slot (m : mjModel) (id : Z) : Prop :=
  (0 <= id < nmocap m - 1)%Z.

(** Two runs of the synthesizer, the second with every marker moved by
    [(dx, dy)] in the plane. *)
Definition shifted_markers (m : mjModel) (dx dy : R)
    (o1 o2 : outcome (array R)) : Prop :=
  match o1, o2 with
  | Done a, Done b =>
    forall q : Z, marker_slot m q ->
      b.[3 * q + 0] = a.[3 * q + 0] + dx /\
      b.[3 * q + 1] = a.[3 * q + 1] + dy /\
      b.[3 * q + 2] = a.[3 * q + 2]
  | Fatal m1, Fatal m2 => m1 = m2
  | Invalid w1, Invalid w2 => w1 = w2
  | _, _ => False
  end.

(** [sample_data] with the board and the goal moved by (2, -1) in the plane. *)
Definition moved_sample_data : mjData :=
  {| time := 0;
     qpos := fun _ => 0;
     qvel := fun _ => 0;
     ctrl := fun _ => 0;
     xpos := fun i => if (i =? 3)%Z then 0 + 2
                      else if (i =? 4)%Z then 0 + -1 else 0;
     xmat := fun i => if (i =? 9)%Z || (i =? 13)%Z || (i =? 17)%Z then 1 else 0;
     mocap_pos := fun i => if (i =? 3)%Z then 0.3 + 2
                           else if (i =? 4)%Z then 0 + -1 else 0;
     sensordata := fun _ => 0;
     ncon := 0;
     contact := fun _ => {| geom1 := 0; geom2 := 0 |};
     contact_frc := fun _ _ => 0 |}.

Local Close Scope R_scope.

(** ** Notions for the interpolation *)

(** The index brought into [[0, max_index]], as the text has it: not below
    0 and not above [max_index]. *)
Definition clamped_index (index : R) (max_index : Z) : R :=
  Rmax 0 (Rmin index (IZR max_index)).

(** ** Notions for the contact search *)

(** The contact pairs the geom [foot1_left] with the floor: the first test
    of the search. *)
Definition heel_geom_on_floor (m : mjModel) (c : mjContact) : bool :=
  let left_heel_id_ := mj_name2id m mjOBJ_GEOM "foot1_left" in
  let floor_id := mj_name2id m mjOBJ_GEOM "floor" in
  (geom1 c =? left_heel_id_) && (geom2 c =? floor_id)
  || (geom2 c =? left_heel_id_) && (geom1 c =? floor_id).


(** [i, i + 1, ..., i + n - 1] *)
Fixpoint range_from (i : Z) (n : nat) : list Z :=
  match n with
  | O => []
  | S n' => i :: range_from (i + 1) n'
  end.

(** Of the contacts [l], the first [quota] that pair a left-foot geom with
    the floor. *)
Definition counted_among (m : mjModel) (d : mjData) (quota : nat)
    (l : list Z) : list Z :=
  firstn quota (filter (fun k => left_foot_on_floor m (contact d k)) l).

(** The contacts that count: of the active contacts, in their order, the
    first two that pair a left-foot geom with the floor. *)
Definition counted_contacts (m : mjModel) (d : mjData) : list Z :=
  counted_among m d 2 (range_from 0 (Z.to_nat (ncon d))).

(** Of the contacts [l], the last one of the geom [foot1_left]
    ([heel = true]) or of another geom ([heel = false]); [none] when there
    is no such contact. *)
Definition last_recorded (m : mjModel) (d : mjData) (heel : bool)
    (l : list Z) (none : Z) : Z :=
  last (filter (fun k => Bool.eqb (heel_geom_on_floor m (contact d k)) heel) l)
       none.

(** The contact whose force counts for [foot1_left] ([heel = true]) or for
    [foot2_left] ([heel = false]): the last one among the counted contacts,
    -1 when there is none. *)
Definition recorded_contact (m : mjModel) (d : mjData) (heel : bool) : Z :=
  last_recorded m d heel (counted_contacts m d) (-1).

(** The solver's force of a recorded contact; no force for -1. *)
Definition recorded_force (d : mjData) (id : Z) : array R :=
  if id =? -1 then (fun _ => 0%R) else contact_frc d id.

(** The left-foot contact force: the forces of the two recorded contacts
    added. *)
Definition left_foot_contact_force (m : mjModel) (d : mjData) : array R :=
  fun k => (recorded_force d (recorded_contact m d true) k
            + recorded_force d (recorded_contact m d false) k)%R.

(** As [sample_data], with three active contacts, all between a left-foot
    geom and the floor: the heel geom with normal force 100, the heel geom
    again with 40, then the toe geom with 7. *)
Definition crowded_data : mjData :=
  {| time := 0%R;
     qpos := fun _ => 0%R;
     qvel := fun _ => 0%R;
     ctrl := fun _ => 0%R;
     xpos := fun _ => 0%R;
     xmat := fun i => if (i =? 9) || (i =? 13) || (i =? 17) then 1%R else 0%R;
     mocap_pos := fun i => if i =? 3 then 0.3%R else 0%R;
     sensordata := fun _ => 0%R;
     ncon := 3;
     contact := fun i => if i =? 2 then {| geom1 := 2; geom2 := 0 |}
                         else {| geom1 := 0; geom2 := 1 |};
     contact_frc := fun i k =>
       if k =? 0 then
         if i =? 0 then 100%R else if i =? 1 then 40%R else 7%R
       else 0%R |}.

(** ** Where the unchecked indexing stays in bounds *)



(** * Properties *)

(** ** Interpolation *)

Lemma clamp_bounds (v lo hi : R) : (lo <= hi -> lo <= clamp v lo hi <= hi)%R.
Proof.
  intros Hle. unfold clamp.
  destruct (Rlt_dec v lo); [lra|].
  destruct (Rlt_dec hi v); lra.
Qed.

Lemma clamp_below (v lo hi : R) : (lo <= hi -> v <= lo -> clamp v lo hi = lo)%R.
Proof.
  intros Hle Hv. unfold clamp.
  destruct (Rlt_dec v lo); [reflexivity|].
  destruct (Rlt_dec hi v); lra.
Qed.

Lemma clamp_above (v lo hi : R) : (lo <= hi -> hi <= v -> clamp v lo hi = hi)%R.
Proof.
  intros Hle Hv. unfold clamp.
  destruct (Rlt_dec v lo); [lra|].
  destruct (Rlt_dec hi v); lra.
Qed.

(** [std::clamp] with bounds in order is the clamped index. *)
Lemma clamp_clamped_index (index : R) (max_index : Z) :
  0 <= max_index ->
  clamp index 0 (IZR max_index) = clamped_index index max_index.
Proof.
  intros Hmax. assert (Hhi : (0 <= IZR max_index)%R) by (apply IZR_le; lia).
  unfold clamp, clamped_index, Rmax, Rmin.
  destruct (Rlt_dec index 0); destruct (Rlt_dec (IZR max_index) index);
    destruct (Rle_dec index (IZR max_index));
    try destruct (Rle_dec 0 index); try destruct (Rle_dec 0 (IZR max_index));
    lra.
Qed.

(** C2. For a real [index] and [max_index >= 0] the weights add up to 1 and
    lie in [0, 1]; [index <= 0] gives [weight_0 = 1]; [index >= max_index]
    gives [index_0 = index_1 = max_index] and [weight_1 = 0]; and
    [0 <= index_0 <= index_1 <= max_index].  The index is clamped to
    [[0, max_index]] and then split: [index_0] is the integer part of the
    clamped index, [weight_1] its fractional part, and [index_1] is the next
    frame, [index_0 + 1], unless [index_0] is the last frame. *)
Theorem ComputeInterpolationValues_spec (index : R) (max_index : Z) :
  0 <= max_index ->
  let '(index_0, index_1, weight_0, weight_1) :=
    ComputeInterpolationValues index max_index in
  (weight_0 + weight_1 = 1)%R /\
  (0 <= weight_0 <= 1)%R /\ (0 <= weight_1 <= 1)%R /\
  (index <= 0 -> weight_0 = 1)%R /\
  ((IZR max_index <= index)%R ->
   index_0 = max_index /\ index_1 = max_index /\ weight_1 = 0%R) /\
  0 <= index_0 /\ index_0 <= index_1 /\ index_1 <= max_index /\
  (IZR index_0 <= clamped_index index max_index < IZR index_0 + 1)%R /\
  weight_1 = (clamped_index index max_index - IZR index_0)%R /\
  (index_0 < max_index -> index_1 = index_0 + 1) /\
  (index_0 = max_index -> index_1 = max_index).
Proof.
  intros Hmax. unfold ComputeInterpolationValues.
  assert (Hhi : (0 <= IZR max_index)%R) by (apply IZR_le; lia).
  pose proof (clamp_clamped_index index max_index Hmax) as Hclamp.
  set (c := clamp index 0 (IZR max_index)) in *.
  assert (Hc : (0 <= c <= IZR max_index)%R) by (apply clamp_bounds; exact Hhi).
  pose proof (Zfloor_bound c) as Hfl.
  assert (H0 : 0 <= Zfloor c) by (apply Zfloor_lub; simpl; lra).
  assert (H1 : Zfloor c <= max_index).
  { rewrite <- (ZfloorZ max_index). apply Zfloor_le. lra. }
  rewrite <- Hclamp.
  repeat split; try lra; try lia.
  - intros Hneg. subst c. rewrite clamp_below by lra.
    rewrite ZfloorZ. simpl. lra.
  - subst c. rewrite clamp_above by lra. apply ZfloorZ.
  - subst c. rewrite clamp_above by lra. rewrite ZfloorZ. lia.
  - subst c. rewrite clamp_above by lra. rewrite ZfloorZ. lra.
Qed.

Lemma ComputeInterpolationValues_spec_witness :
  0 <= 3 /\
  let '(index_0, index_1, weight_0, weight_1) :=
    ComputeInterpolationValues (5 / 2) 3 in
  (weight_0 + weight_1 = 1)%R /\
  (0 <= weight_0 <= 1)%R /\ (0 <= weight_1 <= 1)%R /\
  (5 / 2 <= 0 -> weight_0 = 1)%R /\
  ((IZR 3 <= 5 / 2)%R ->
   index_0 = 3 /\ index_1 = 3 /\ weight_1 = 0%R) /\
  0 <= index_0 /\ index_0 <= index_1 /\ index_1 <= 3 /\
  (IZR index_0 <= clamped_index (5 / 2) 3 < IZR index_0 + 1)%R /\
  weight_1 = (clamped_index (5 / 2) 3 - IZR index_0)%R /\
  (index_0 < 3 -> index_1 = index_0 + 1) /\
  (index_0 = 3 -> index_1 = 3).
Proof.
  split; [lia | apply (ComputeInterpolationValues_spec (5 / 2) 3); lia].
Defined.

(** ** Motion library *)

Lemma start_loop_sum (tbl : list Z) (n : nat) (i start : Z) :
  start_loop tbl n i start =
  start + fold_right Z.add 0
            (map (fun k => table_at tbl (i + Z.of_nat k)) (seq 0 n)).
Proof.
  revert i start. induction n as [|n IH]; intros i start.
  - simpl. lia.
  - cbn [start_loop]. rewrite IH.
    cbn [seq map fold_right]. rewrite <- seq_shift, map_map.
    replace (i + Z.of_nat 0) with i by lia.
    rewrite Z.add_assoc. f_equal. f_equal.
    apply map_ext. intros k. f_equal. lia.
Qed.

(** The loop computes the prefix sum for every table and every id. *)
Lemma start_loop_prefix_sum (tbl : list Z) (id : Z) :
  start_loop tbl (Z.to_nat id) 0 0 = sum_below (table_at tbl) id.
Proof.
  rewrite start_loop_sum. unfold sum_below. simpl. reflexivity.
Qed.

(** C9. For a valid motion id, [MotionStartIndex id] is the sum of
    [MotionLength i] over [i < id], and [MotionStartIndex 0 = 0]. *)
Theorem MotionStartIndex_prefix_sum (id : Z) :
  valid_motion_id id ->
  MotionStartIndex id = sum_below MotionLength id /\ MotionStartIndex 0 = 0.
Proof.
  intros _. split; [|reflexivity].
  unfold MotionStartIndex, MotionLength. apply start_loop_prefix_sum.
Qed.

Lemma MotionStartIndex_prefix_sum_witness :
  valid_motion_id 0 /\
  MotionStartIndex 0 = sum_below MotionLength 0 /\ MotionStartIndex 0 = 0.
Proof.
  assert (H : valid_motion_id 0) by (unfold valid_motion_id; simpl; lia).
  split; [exact H | apply (MotionStartIndex_prefix_sum 0 H)].
Defined.

(** ** Goal controller *)

Lemma store_same {A : Type} (p : array A) (k : Z) (v : A) : store p k v k = v.
Proof. unfold store. rewrite Z.eqb_refl. reflexivity. Qed.

Lemma store_other {A : Type} (p : array A) (k i : Z) (v : A) :
  i <> k -> store p k v i = p i.
Proof. intros H. unfold store. destruct (Z.eqb_spec i k); [contradiction|reflexivity]. Qed.

Lemma mju_copy3_store3 (p : array R) (off : Z) (v : vec3) :
  mju_copy3 (shift (mju_store3 p off v) off) = v.
Proof.
  destruct v as [[a b] c]. unfold mju_copy3, shift, mju_store3, vx, vy, vz. simpl.
  rewrite store_other by lia. rewrite store_other by lia. rewrite store_same.
  rewrite store_other by lia. rewrite store_same. rewrite store_same.
  reflexivity.
Qed.

Lemma mju_store3_other (p : array R) (off i : Z) (v : vec3) :
  ~ (off <= i < off + 3) -> mju_store3 p off v i = p i.
Proof.
  intros H. unfold mju_store3. repeat rewrite store_other by lia. reflexivity.
Qed.

Lemma mju_norm_plane (a b c : R) :
  mju_norm (data_of [a; b; c]) 2 = sqrt (a * a + b * b).
Proof.
  unfold mju_norm, mju_dot. change (Z.to_nat 2) with 2%nat.
  unfold sum_upto, data_of. simpl. f_equal. ring.
Qed.

Lemma mju_norm_pair (a b : R) :
  mju_norm (data_of [a; b]) 2 = sqrt (a * a + b * b).
Proof.
  unfold mju_norm, mju_dot. change (Z.to_nat 2) with 2%nat.
  unfold sum_upto, data_of. simpl. f_equal. ring.
Qed.

Lemma mjMINVAL_pos : (0 < mjMINVAL)%R.
Proof. unfold mjMINVAL. lra. Qed.

(** [mju_normalize] always leaves a vector of length one in the plane. *)
Lemma mju_normalize_unit (a b : R) :
  let u := mju_normalize (data_of [a; b]) 2 in
  (u.[0] * u.[0] + u.[1] * u.[1] = 1)%R.
Proof.
  unfold mju_normalize. rewrite mju_norm_pair.
  set (norm := sqrt (a * a + b * b)).
  destruct (Rlt_dec norm mjMINVAL) as [Hsmall | Hbig]; simpl.
  - ring.
  - unfold data_of. simpl.
    assert (Hpos : (0 < norm)%R) by (pose proof mjMINVAL_pos; lra).
    assert (Hsq : (norm * norm = a * a + b * b)%R).
    { unfold norm. apply sqrt_sqrt. nra. }
    replace (a * (1 / norm) * (a * (1 / norm)) + b * (1 / norm) * (b * (1 / norm)))%R
      with ((a * a + b * b) / (norm * norm))%R by (field; lra).
    rewrite <- Hsq. field. lra.
Qed.

Lemma unit_heading_unit (m : mjModel) (d : mjData) :
  (fst (unit_heading m d) * fst (unit_heading m d)
   + snd (unit_heading m d) * snd (unit_heading m d) = 1)%R.
Proof. unfold unit_heading. simpl. apply mju_normalize_unit. Qed.

Lemma half_lt_sqrt68 : (0.5 < sqrt (8.0 * 8.0 + 2.0 * 2.0))%R.
Proof.
  destruct (Rlt_dec 0.5 (sqrt (8.0 * 8.0 + 2.0 * 2.0))) as [H | H]; [exact H|].
  exfalso.
  assert (H0 : (0 <= sqrt (8.0 * 8.0 + 2.0 * 2.0))%R) by apply sqrt_pos.
  assert (H1 : (sqrt (8.0 * 8.0 + 2.0 * 2.0) * sqrt (8.0 * 8.0 + 2.0 * 2.0)
                = 8.0 * 8.0 + 2.0 * 2.0)%R) by (apply sqrt_sqrt; lra).
  nra.
Qed.

(** The code's test is the planar distance test. *)
Lemma move_goal_distance (m : mjModel) (d : mjData) :
  mju_norm (data_of
    [vx (mju_sub3 (goal_position m d) (skateboard_position m d));
     vy (mju_sub3 (goal_position m d) (skateboard_position m d));
     vz (mju_sub3 (goal_position m d) (skateboard_position m d))]) 2
  = planar_distance (goal_position m d) (skateboard_position m d).
Proof. rewrite mju_norm_plane. reflexivity. Qed.

Lemma move_goal_runs (m : mjModel) (d : mjData) (p : array R) (md : Z)
    (left_or_right : bool) :
  0 <= mj_name2id m mjOBJ_XBODY "goal" ->
  0 <= goal_mocapid m ->
  move_goal m d p md left_or_right =
  if Rlt_dec (planar_distance (goal_position m d) (skateboard_position m d)) 0.5
  then
    let u := unit_heading m d in
    Done (set_mocap_pos d
            (mju_store3 (mocap_pos d) (3 * goal_mocapid m)
               ((vx (skateboard_position m d)
                 + (fst u * 8.0
                    + (if left_or_right then - snd u * 2.0 else snd u * 2.0)))%R,
                (vy (skateboard_position m d)
                 + (snd u * 8.0
                    + (if left_or_right then fst u * 2.0 else - fst u * 2.0)))%R,
                vz (goal_position m d))))
  else Done d.
Proof.
  intros Hg Hm. unfold move_goal.
  unfold goal_mocapid in Hm.
  replace (mj_name2id m mjOBJ_XBODY "goal" <? 0) with false by (symmetry; apply Z.ltb_ge; exact Hg).
  replace (body_mocapid m (mj_name2id m mjOBJ_XBODY "goal") <? 0) with false
    by (symmetry; apply Z.ltb_ge; exact Hm).
  cbn [error_if bind].
  rewrite <- (move_goal_distance m d).
  reflexivity.
Qed.

Lemma planar_distance_relocated (sx sy u0 u1 s z z' : R) :
  (u0 * u0 + u1 * u1 = 1)%R -> (s * s = 1)%R ->
  planar_distance
    ((sx + 8.0 * u0 + s * (2.0 * - u1))%R, (sy + 8.0 * u1 + s * (2.0 * u0))%R, z)
    (sx, sy, z')
  = sqrt (8.0 * 8.0 + 2.0 * 2.0).
Proof.
  intros Hu Hs. unfold planar_distance, vx, vy. simpl fst. simpl snd.
  f_equal.
  replace (8.0 * 8.0 + 2.0 * 2.0)%R
    with ((8.0 * 8.0) * (u0 * u0 + u1 * u1)
          + (2.0 * 2.0) * (s * s) * (u0 * u0 + u1 * u1))%R
    by (rewrite Hu, Hs; ring).
  ring.
Qed.

Lemma side_sign_square (b : bool) : (side_sign b * side_sign b = 1)%R.
Proof. destruct b; unfold side_sign; ring. Qed.

(** C3. [move_goal] moves the goal exactly when the planar distance between
    goal and skateboard is below 0.5; the new goal is the skateboard
    position plus 8.0 times the unit heading plus or minus (by the binary
    draw) 2.0 times its perpendicular, it keeps the old z coordinate, and
    for both draws it lies at planar distance sqrt(8.0^2 + 2.0^2) from the
    skateboard. *)
Theorem move_goal_relocates (m : mjModel) (d : mjData) (p : array R) (md : Z)
    (left_or_right : bool) :
  0 <= mj_name2id m mjOBJ_XBODY "goal" ->
  0 <= goal_mocapid m ->
  exists d' : mjData,
    move_goal m d p md left_or_right = Done d' /\
    (goal_position m d' <> goal_position m d <->
     (planar_distance (goal_position m d) (skateboard_position m d) < 0.5)%R) /\
    ((planar_distance (goal_position m d) (skateboard_position m d) < 0.5)%R ->
     let u := unit_heading m d in
     (fst u * fst u + snd u * snd u = 1)%R /\
     vx (goal_position m d') =
       (vx (skateboard_position m d) + 8.0 * fst u
        + side_sign left_or_right * (2.0 * - snd u))%R /\
     vy (goal_position m d') =
       (vy (skateboard_position m d) + 8.0 * snd u
        + side_sign left_or_right * (2.0 * fst u))%R /\
     vz (goal_position m d') = vz (goal_position m d) /\
     planar_distance (goal_position m d') (skateboard_position m d')
       = sqrt (8.0 * 8.0 + 2.0 * 2.0)) /\
    (~ (planar_distance (goal_position m d) (skateboard_position m d) < 0.5)%R ->
     d' = d).
Proof.
  intros Hg Hm. rewrite (move_goal_runs m d p md left_or_right Hg Hm).
  pose proof (unit_heading_unit m d) as Hunit.
  destruct (Rlt_dec (planar_distance (goal_position m d)
                                     (skateboard_position m d)) 0.5)
    as [Hnear | Hfar].
  - cbv zeta. eexists. split; [reflexivity|].
    set (u := unit_heading m d) in *.
    set (sk := skateboard_position m d) in *.
    set (new_goal :=
           ((vx sk + (fst u * 8.0
                      + (if left_or_right then - snd u * 2.0 else snd u * 2.0)))%R,
            (vy sk + (snd u * 8.0
                      + (if left_or_right then fst u * 2.0 else - fst u * 2.0)))%R,
            vz (goal_position m d))).
    assert (Hnew : goal_position m
                     (set_mocap_pos d
                        (mju_store3 (mocap_pos d) (3 * goal_mocapid m) new_goal))
                   = new_goal).
    { unfold goal_position at 1. cbn [mocap_pos set_mocap_pos].
      apply mju_copy3_store3. }
    assert (Hsk : skateboard_position m
                    (set_mocap_pos d
                       (mju_store3 (mocap_pos d) (3 * goal_mocapid m) new_goal))
                  = sk) by reflexivity.
    assert (Hx : vx new_goal =
                 (vx sk + 8.0 * fst u + side_sign left_or_right * (2.0 * - snd u))%R).
    { unfold new_goal, vx, side_sign. cbn [fst snd].
      destruct left_or_right; ring. }
    assert (Hy : vy new_goal =
                 (vy sk + 8.0 * snd u + side_sign left_or_right * (2.0 * fst u))%R).
    { unfold new_goal, vy, side_sign. cbn [fst snd].
      destruct left_or_right; ring. }
    assert (Hdist : planar_distance new_goal sk = sqrt (8.0 * 8.0 + 2.0 * 2.0)).
    { destruct sk as [[sx sy] sz] eqn:Esk.
      rewrite <- (planar_distance_relocated sx sy (fst u) (snd u)
                    (side_sign left_or_right) (vz (goal_position m d)) sz Hunit
                    (side_sign_square left_or_right)).
      unfold planar_distance. rewrite Hx, Hy. reflexivity. }
    rewrite Hnew, Hsk.
    split; [|split].
    + split; [intros _; exact Hnear|].
      intros _ Heq. rewrite Heq in Hdist.
      fold sk in Hnear. rewrite Hdist in Hnear.
      pose proof half_lt_sqrt68. lra.
    + intros _. cbv zeta.
      repeat split; try assumption. 
    + intros Hcontra. contradiction.
  - exists d. split; [reflexivity|]. split; [|split].
    + split; [intros Hne; exfalso; apply Hne; reflexivity | intros H; contradiction].
    + intros H; contradiction.
    + intros _. reflexivity.
Qed.

Lemma move_goal_relocates_witness :
  0 <= mj_name2id sample_model mjOBJ_XBODY "goal" /\
  0 <= goal_mocapid sample_model /\
  exists d' : mjData,
    move_goal sample_model sample_data (fun _ => 0%R) 0 true = Done d'.
Proof.
  assert (Hg : 0 <= mj_name2id sample_model mjOBJ_XBODY "goal")
    by (vm_compute; discriminate).
  assert (Hm : 0 <= goal_mocapid sample_model) by (vm_compute; discriminate).
  split; [exact Hg | split; [exact Hm|]].
  destruct (move_goal_relocates sample_model sample_data (fun _ => 0%R) 0 true
              Hg Hm) as [d' [Hrun _]].
  exists d'. exact Hrun.
Defined.

(** C10. A call to [move_goal] changes at most the three [mocap_pos] cells of
    the goal marker; every other cell and every other field of the data is
    as before, whether or not the goal is relocated.  A call that stops on
    a missing goal has changed nothing. *)
Theorem move_goal_frame (m : mjModel) (d : mjData) (p : array R) (md : Z)
    (left_or_right : bool) :
  match move_goal m d p md left_or_right with
  | Done d' => only_goal_moved m d d'
  | Fatal _ => mj_name2id m mjOBJ_XBODY "goal" < 0 \/ goal_mocapid m < 0
  | Invalid _ => False
  end.
Proof.
  destruct (Z.ltb_spec (mj_name2id m mjOBJ_XBODY "goal") 0) as [Hg | Hg].
  { unfold move_goal.
    replace (mj_name2id m mjOBJ_XBODY "goal" <? 0) with true
      by (symmetry; apply Z.ltb_lt; exact Hg).
    cbn [error_if mju_error bind]. left. exact Hg. }
  destruct (Z.ltb_spec (goal_mocapid m) 0) as [Hm | Hm].
  { unfold move_goal.
    replace (mj_name2id m mjOBJ_XBODY "goal" <? 0) with false
      by (symmetry; apply Z.ltb_ge; exact Hg).
    unfold goal_mocapid in Hm.
    replace (body_mocapid m (mj_name2id m mjOBJ_XBODY "goal") <? 0) with true
      by (symmetry; apply Z.ltb_lt; exact Hm).
    cbn [error_if mju_error bind]. right. exact Hm. }
  rewrite (move_goal_runs m d p md left_or_right Hg Hm).
  destruct (Rlt_dec _ _) as [Hnear | Hfar].
  - cbv zeta. unfold only_goal_moved. cbn [time qpos qvel ctrl xpos xmat
      sensordata ncon contact contact_frc mocap_pos set_mocap_pos].
    repeat (split; [reflexivity|]).
    intros i Hi. apply mju_store3_other. exact Hi.
  - unfold only_goal_moved. repeat (split; [reflexivity|]). intros; reflexivity.
Qed.

(** ** Board velocity residual *)

(** C5 (as the code has it). The board velocity residual is the target
    [(Velocity, 0, 0)] minus the board-frame velocity on the longitudinal and
    lateral axes, with the tolerance 0.03 subtracted from the longitudinal
    component only; on the vertical axis it is the target 0 minus the
    world-frame vertical velocity of the sensor. *)
Theorem ComputeBoardVelocityResidual_value (self : ResidualFn) (m : mjModel)
    (d : mjData) (i adr : Z) :
  parameter_index m "Velocity" = Some i ->
  sensor_adr m "skateboard_framelinvel" = Some adr ->
  let velocity := parameters_ self i in
  let global := mju_copy3 (shift (sensordata d) adr) in
  let local :=
    mju_rotVecMatT global (shift (xmat d) (9 * skateboard_body_id_ self)) in
  ComputeBoardVelocityResidual self m d =
  Done [(velocity - vx local - 0.03)%R; (0.0 - vy local)%R; (0.0 - vz global)%R].
Proof.
  intros Hp Hs. unfold ComputeBoardVelocityResidual, parameter, ParameterIndex,
    SensorByName. rewrite Hp, Hs. reflexivity.
Qed.

Lemma ComputeBoardVelocityResidual_value_witness :
  parameter_index sample_model "Velocity" = Some 0 /\
  sensor_adr sample_model "skateboard_framelinvel" = Some 0 /\
  exists r : list R,
    ComputeBoardVelocityResidual sample_residual sample_model pitched_data
    = Done r.
Proof.
  split; [reflexivity | split; [reflexivity|]].
  eexists.
  apply (ComputeBoardVelocityResidual_value sample_residual sample_model
           pitched_data 0 0); reflexivity.
Defined.

(** On the pitched board the vertical component is 0 (the sensor's world z
    velocity), not -1 (the board-frame z velocity). *)
Lemma ComputeBoardVelocityResidual_counterexample :
  ComputeBoardVelocityResidual sample_residual sample_model pitched_data
  <> Done (board_velocity_all_local
             (parameters_ sample_residual 0)
             (mju_copy3 (shift (sensordata pitched_data) 0))
             (shift (xmat pitched_data) (9 * skateboard_body_id_ sample_residual))).
Proof.
  unfold ComputeBoardVelocityResidual, parameter, ParameterIndex, SensorByName.
  cbn [sample_model parameter_index sensor_adr bind].
  unfold board_velocity_all_local.
  intros Heq.
  apply (f_equal (fun o => match o with Done l => nth 2 l 0%R | _ => 0%R end))
    in Heq.
  revert Heq.
  unfold mju_rotVecMatT, mju_copy3, shift, vx, vy, vz, pitched_data,
    sample_residual.
  cbn. lra.
Qed.

(** ** Foot contact force residual *)

Lemma contact_at_active (d : mjData) (i : Z) :
  0 <= i < ncon d -> contact_at d i = Done (contact d i).
Proof.
  intros H. unfold contact_at, in_range.
  replace (0 <=? i) with true by (symmetry; apply Z.leb_le; lia).
  replace (i <? 0 + ncon d) with true by (symmetry; apply Z.ltb_lt; lia).
  reflexivity.
Qed.

(** [mj_contactForce] returns for every id, the sentinel -1 included, and
    reads a contact only inside the active list. *)
Lemma mj_contactForce_slot (m : mjModel) (d : mjData) (id : Z) :
  exists f : array R, mj_contactForce m d id = Done f /\ force_of_slot d f.
Proof.
  unfold mj_contactForce.
  destruct ((0 <=? id) && (id <? ncon d)) eqn:Hvalid.
  - apply andb_true_iff in Hvalid. destruct Hvalid as [H0 H1].
    apply Z.leb_le in H0. apply Z.ltb_lt in H1.
    rewrite contact_at_active by lia. cbn [bind].
    exists (contact_frc d id). split; [reflexivity|].
    right. exists id. split; [lia | reflexivity].
  - exists (fun _ => 0%R). split; [reflexivity | left; reflexivity].
Qed.

Lemma mj_contactForce_sentinel (m : mjModel) (d : mjData) :
  mj_contactForce m d (-1) = Done (fun _ => 0%R).
Proof. reflexivity. Qed.

Lemma std_string_named (p : option string) :
  p <> None -> exists s : string, std_string p = Done s.
Proof.
  destruct p as [s|]; [intros _; exists s; reflexivity | intros H; contradiction].
Qed.

(** With every name resolved the contact search runs to its end. *)
Lemma foot_contact_loop_done (m : mjModel) (d : mjData) (heel toe floor : Z) :
  contact_names_resolve m d ->
  forall (n : nat) (i : Z) (st : Z * Z * Z),
    (forall k : Z, i <= k < i + Z.of_nat n -> 0 <= k < ncon d) ->
    exists st' : Z * Z * Z,
      foot_contact_loop m d heel toe floor n i st = Done st'.
Proof.
  intros Hnames. induction n as [|n IH]; intros i st Hn.
  - exists st. reflexivity.
  - destruct st as [[h t] f]. cbn [foot_contact_loop].
    assert (Hi : 0 <= i < ncon d) by (apply Hn; lia).
    rewrite contact_at_active by lia. cbn [bind].
    destruct (Hnames i ltac:(lia)) as [H1 H2].
    destruct (std_string_named _ H1) as [s1 E1].
    destruct (std_string_named _ H2) as [s2 E2].
    rewrite E1, E2. cbn [bind].
    match goal with |- context [if (snd ?x =? 2) then _ else _] =>
      destruct (snd x =? 2); [exists x; reflexivity|] end.
    apply IH. intros k Hk. apply Hn. lia.
Qed.













(** In [crowded_data] the search is left after the two heel contacts: the
    second replaces the first and the toe contact is not reached, so the
    left-foot contact force is the force of contact 1 alone. *)
Lemma crowded_contacts :
  counted_contacts sample_model crowded_data = [0; 1] /\
  recorded_contact sample_model crowded_data true = 1 /\
  recorded_contact sample_model crowded_data false = -1 /\
  (left_foot_contact_force sample_model crowded_data).[0] = (40 + 0)%R.
Proof. repeat split; reflexivity. Qed.

(** Without a left-foot contact the search leaves both slots at -1. *)
Lemma foot_contact_loop_no_left_foot (m : mjModel) (d : mjData) :
  contact_names_resolve m d ->
  forall (n : nat) (i : Z) (st : Z * Z * Z),
    (forall k : Z, i <= k < i + Z.of_nat n ->
       0 <= k < ncon d /\ left_foot_on_floor m (contact d k) = false) ->
    snd st <> 2 ->
    foot_contact_loop m d (mj_name2id m mjOBJ_GEOM "foot1_left")
      (mj_name2id m mjOBJ_GEOM "foot2_left") (mj_name2id m mjOBJ_GEOM "floor")
      n i st = Done st.
Proof.
  intros Hnames. induction n as [|n IH]; intros i st Hn Hfound.
  - reflexivity.
  - destruct st as [[h t] f]. cbn [foot_contact_loop].
    destruct (Hn i ltac:(lia)) as [Hi Hnone].
    rewrite contact_at_active by lia. cbn [bind].
    destruct (Hnames i ltac:(lia)) as [H1 H2].
    destruct (std_string_named _ H1) as [s1 E1].
    destruct (std_string_named _ H2) as [s2 E2].
    rewrite E1, E2. cbn [bind].
    unfold left_foot_on_floor in Hnone. cbv zeta in Hnone.
    apply orb_false_iff in Hnone. destruct Hnone as [Hheel Htoe].
    rewrite Hheel, Htoe.
    replace (snd (h, t, f) =? 2) with false
      by (symmetry; apply Z.eqb_neq; exact Hfound).
    apply IH; [intros k Hk; apply Hn; lia | exact Hfound].
Qed.

(** The zero-contact case: with no left-foot contact in the list both
    sentinels reach [mj_contactForce], no contact is read for them, the force
    is zero and the residual is the logistic value at 0, gated by the
    marker height. *)
Lemma ComputeFootContactForceResidual_zero_contact (self : ResidualFn)
    (m : mjModel) (d : mjData) :
  contact_names_resolve m d ->
  (forall k : Z, 0 <= k < ncon d -> left_foot_on_floor m (contact d k) = false) ->
  ComputeFootContactForceResidual self m d =
  Done [(logistic 0 * R_of_bool (Rleb (ltoe_height m d) 0.05))%R].
Proof.
  intros Hnames Hnone. unfold ComputeFootContactForceResidual.
  rewrite (foot_contact_loop_no_left_foot m d Hnames).
  - cbn [bind]. rewrite mj_contactForce_sentinel. cbn [bind].
    unfold mju_add3, mju_copy3, vx, vy, vz. cbn [fst snd].
    fold (ltoe_height m d). unfold logistic.
    replace (0 + 0)%R with 0%R by ring. rewrite Rabs_R0.
    replace (0 + 0 + 0)%R with 0%R by ring. reflexivity.
  - intros k Hk. split; [lia | apply Hnone; lia].
  - cbn. lia.
Qed.

(** C6 (failing input). With one active contact between geoms 5 and 7,
    neither a left-foot geom nor the floor, and no body named under these
    ids, the contact search builds a [std::string] from the null pointer
    [mj_id2name] returns: the call does not complete. *)
Theorem ComputeFootContactForceResidual_null_name :
  ncon stray_contact_data = 1 /\
  left_foot_on_floor sample_model (contact stray_contact_data 0) = false /\
  ComputeFootContactForceResidual sample_residual sample_model
    stray_contact_data
  = Invalid "std::string built from a null pointer".
Proof.
  split; [reflexivity | split; reflexivity].
Qed.

(** ** Reference frame synthesizer *)

Lemma mju_copy_inside (res vec : array R) (n i : Z) :
  0 <= i < n -> mju_copy res 0 vec n i = vec i.
Proof.
  intros H. unfold mju_copy, in_range.
  replace (0 <=? i) with true by (symmetry; apply Z.leb_le; lia).
  replace (i <? 0 + n) with true by (symmetry; apply Z.ltb_lt; lia).
  cbn [andb]. f_equal. lia.
Qed.

(** C7. Two calls of [move_mocap_poses] on the same model, parameters and
    mode, and on data with the same time, the same skateboard position and
    heading and the same goal position, write the same marker positions,
    whatever the output buffers held and whatever else the data hold: the
    synthesizer reads nothing else and draws no random number. *)
Theorem move_mocap_poses_deterministic (m : mjModel) (p : array R) (md : Z)
    (d1 d2 : mjData) (result1 result2 : array R) :
  time d1 = time d2 ->
  skateboard_position m d1 = skateboard_position m d2 ->
  heading_of m d1 = heading_of m d2 ->
  goal_xy m d1 = goal_xy m d2 ->
  same_markers (3 * (nmocap m - 1))
    (move_mocap_poses result1 m d1 p md)
    (move_mocap_poses result2 m d2 p md).
Proof.
  intros Htime Hpos Hhead Hgoal.
  pose proof (f_equal vx Hpos) as Hx. pose proof (f_equal vy Hpos) as Hy.
  pose proof (f_equal vz Hpos) as Hz.
  pose proof (f_equal fst Hhead) as Hh0. pose proof (f_equal snd Hhead) as Hh3.
  pose proof (f_equal fst Hgoal) as Hg0. pose proof (f_equal snd Hgoal) as Hg1.
  unfold skateboard_position, skateboard_id, mju_copy3, shift, vx, vy, vz
    in Hx, Hy, Hz.
  unfold heading_of, skateboard_id in Hh0, Hh3.
  unfold goal_xy, goal_mocapid in Hg0, Hg1.
  cbn [fst snd] in Hx, Hy, Hz, Hh0, Hh3, Hg0, Hg1.
  unfold move_mocap_poses, mju_copy3, shift.
  rewrite Htime, Hx, Hy, Hz, Hh0, Hh3, Hg0, Hg1.
  match goal with
  | |- context [for_range ?lo ?hi ?body (?a0, ?a1, ?mp)] =>
    destruct (for_range lo hi body (a0, a1, mp)) as [[avg0 avg1] centered]
  end.
  repeat match goal with
  | |- context [parameter ?mm ?pp ?name] =>
    destruct (parameter mm pp name); cbn [bind same_markers]; try reflexivity
  | |- context [error_if ?c ?msg] =>
    destruct c; cbn [error_if mju_error bind same_markers]; try reflexivity
  end.
  intros i Hi. rewrite !mju_copy_inside by exact Hi. reflexivity.
Qed.

Lemma move_mocap_poses_deterministic_witness :
  time sample_data = time planted_data /\
  skateboard_position sample_model sample_data
    = skateboard_position sample_model planted_data /\
  heading_of sample_model sample_data = heading_of sample_model planted_data /\
  goal_xy sample_model sample_data = goal_xy sample_model planted_data /\
  same_markers (3 * (nmocap sample_model - 1))
    (move_mocap_poses (fun _ => 0%R) sample_model sample_data (fun _ => 0%R) 0)
    (move_mocap_poses (fun _ => 1%R) sample_model planted_data (fun _ => 0%R) 0).
Proof.
  repeat (split; [reflexivity|]).
  apply (move_mocap_poses_deterministic sample_model (fun _ => 0%R) 0
           sample_data planted_data (fun _ => 0%R) (fun _ => 1%R));
    reflexivity.
Defined.

Lemma parameter_done (m : mjModel) (p : array R) (name : string) :
  parameter_index m name <> None ->
  exists v : R, parameter m p name = Done v.
Proof.
  intros H. unfold parameter, ParameterIndex.
  destruct (parameter_index m name) as [i|]; [|contradiction].
  exists (p i). reflexivity.
Qed.

Ltac in_list := cbn [In]; repeat (try (left; reflexivity); right).

Ltac resolve_parameter H :=
  match goal with
  | |- context [parameter ?m ?p ?name] =>
    let v := fresh "v" in
    let E := fresh "E" in
    destruct (parameter_done m p name (H name ltac:(in_list))) as [v E];
    rewrite E; cbn [bind]
  end.

(** With its parameters and the goal declared the synthesizer completes. *)
Lemma move_mocap_poses_done (result : array R) (m : mjModel) (d : mjData)
    (p : array R) (md : Z) :
  parameters_declared m synthesizer_parameters ->
  goal_declared m ->
  exists out : array R, move_mocap_poses result m d p md = Done out.
Proof.
  intros Hp [Hg Hm]. unfold goal_mocapid in Hm. unfold move_mocap_poses.
  match goal with
  | |- context [for_range ?lo ?hi ?body (?a0, ?a1, ?mp)] =>
    destruct (for_range lo hi body (a0, a1, mp)) as [[avg0 avg1] centered]
  end.
  do 8 resolve_parameter Hp.
  replace (mj_name2id m mjOBJ_XBODY "goal" <? 0) with false
    by (symmetry; apply Z.ltb_ge; exact Hg).
  replace (body_mocapid m (mj_name2id m mjOBJ_XBODY "goal") <? 0) with false
    by (symmetry; apply Z.ltb_ge; exact Hm).
  cbn [error_if bind].
  resolve_parameter Hp.
  eexists. reflexivity.
Qed.

Lemma move_goal_done (m : mjModel) (d : mjData) (p : array R) (md : Z)
    (left_or_right : bool) :
  goal_declared m ->
  exists d' : mjData,
    move_goal m d p md left_or_right = Done d' /\ only_goal_moved m d d'.
Proof.
  intros [Hg Hm]. rewrite (move_goal_runs m d p md left_or_right Hg Hm).
  destruct (Rlt_dec _ _) as [Hnear | Hfar].
  - cbv zeta. eexists. split; [reflexivity|].
    unfold only_goal_moved. cbn [time qpos qvel ctrl xpos xmat
      sensordata ncon contact contact_frc mocap_pos set_mocap_pos].
    repeat (split; [reflexivity|]).
    intros i Hi. apply mju_store3_other. exact Hi.
  - exists d. split; [reflexivity|].
    unfold only_goal_moved. repeat (split; [reflexivity|]). intros; reflexivity.
Qed.

(** ** Transition controller *)

Lemma motion_switch_iff (self : Pushing) (d : mjData) :
  motion_switch self d = true <->
  current_mode_ (residual_ self) <> mode self \/ time d = 0%R.
Proof.
  unfold motion_switch, Reqb. rewrite orb_true_iff, negb_true_iff, Z.eqb_neq.
  replace 0.0%R with 0%R by lra.
  destruct (Req_dec_T (time d) 0) as [Hz | Hnz].
  - split; intros _; right; [exact Hz | reflexivity].
  - split; intros [H | H]; try (left; exact H); [discriminate | contradiction].
Qed.

(** C8. One call of [TransitionLocked] stores the requested mode, takes the
    current time as reference time and overwrites [qpos] and [qvel] with the
    starting keyframe of the mode exactly when the requested mode differs
    from the stored one or the time is 0; otherwise the stored mode, the
    reference time, [qpos] and [qvel] are as before. *)
Theorem TransitionLocked_switch (self : Pushing) (m : mjModel) (d : mjData)
    (left_or_right : bool) :
  0 <= skateboard_body_id_ (residual_ self) ->
  parameters_declared m synthesizer_parameters ->
  goal_declared m ->
  exists (self' : Pushing) (d' : mjData),
    TransitionLocked self m d left_or_right = Done (self', d') /\
    (motion_switch self d = true <->
     current_mode_ (residual_ self) <> mode self \/ time d = 0%R) /\
    (motion_switch self d = true ->
     current_mode_ (residual_ self') = mode self /\
     reference_time_ (residual_ self') = time d /\
     (forall i : Z, 0 <= i < nq m ->
        qpos d' i = key_qpos m (nq m * MotionStartIndex (mode self) + i)) /\
     (forall i : Z, 0 <= i < nv m ->
        qvel d' i = key_qvel m (nv m * MotionStartIndex (mode self) + i))) /\
    (motion_switch self d = false ->
     self' = self /\ qpos d' = qpos d /\ qvel d' = qvel d) /\
    time d' = time d.
Proof.
  intros Hboard Hparams Hgoal. unfold TransitionLocked.
  replace (0 <=? skateboard_body_id_ (residual_ self)) with true
    by (symmetry; apply Z.leb_le; exact Hboard).
  cbn [assert bind].
  pose proof (motion_switch_iff self d) as Hiff.
  destruct (motion_switch self d) eqn:Hswitch.
  - unfold ComputeInterpolationValues. cbv zeta. cbv iota.
    match goal with
    | |- context [move_mocap_poses ?r ?mm ?dd ?pp ?md] =>
      destruct (move_mocap_poses_done r mm dd pp md Hparams Hgoal) as [out Hout];
      rewrite Hout; cbn [bind]
    end.
    match goal with
    | |- context [move_goal ?mm ?dd ?pp ?md ?lr] =>
      destruct (move_goal_done mm dd pp md lr Hgoal) as [d' [Hrun Hframe]];
      rewrite Hrun; cbn [bind]
    end.
    destruct Hframe as [Ht [Hq [Hv _]]].
    eexists. exists d'. split; [reflexivity|].
    split; [exact Hiff|].
    split; [|split; [intros Hcontra; discriminate|]].
    + intros _. cbn [residual_ set_motion current_mode_ reference_time_].
      split; [reflexivity|]. split; [reflexivity|].
      rewrite Hq, Hv.
      cbn [qpos qvel set_qpos set_qvel set_mocap_pos].
      split; intros i Hi; rewrite mju_copy_inside by exact Hi; reflexivity.
    + rewrite Ht. reflexivity.
  - unfold ComputeInterpolationValues. cbv zeta. cbv iota.
    match goal with
    | |- context [move_mocap_poses ?r ?mm ?dd ?pp ?md] =>
      destruct (move_mocap_poses_done r mm dd pp md Hparams Hgoal) as [out Hout];
      rewrite Hout; cbn [bind]
    end.
    match goal with
    | |- context [move_goal ?mm ?dd ?pp ?md ?lr] =>
      destruct (move_goal_done mm dd pp md lr Hgoal) as [d' [Hrun Hframe]];
      rewrite Hrun; cbn [bind]
    end.
    destruct Hframe as [Ht [Hq [Hv _]]].
    exists self, d'. split; [reflexivity|].
    split; [exact Hiff|].
    split; [intros Hcontra; discriminate|].
    split.
    + intros _. split; [reflexivity|]. rewrite Hq, Hv. split; reflexivity.
    + rewrite Ht. reflexivity.
Qed.

Lemma sample_parameters_declared (names : list string) :
  parameters_declared sample_model names.
Proof. intros name _. discriminate. Qed.

Lemma sample_goal_declared : goal_declared sample_model.
Proof. split; vm_compute; discriminate. Qed.

Lemma TransitionLocked_switch_witness :
  0 <= skateboard_body_id_ (residual_ sample_task) /\
  parameters_declared sample_model synthesizer_parameters /\
  goal_declared sample_model /\
  exists (self' : Pushing) (d' : mjData),
    TransitionLocked sample_task sample_model sample_data true
    = Done (self', d') /\
    time d' = time sample_data.
Proof.
  assert (Hboard : 0 <= skateboard_body_id_ (residual_ sample_task))
    by (vm_compute; discriminate).
  split; [exact Hboard|].
  split; [apply sample_parameters_declared|].
  split; [exact sample_goal_declared|].
  destruct (TransitionLocked_switch sample_task sample_model sample_data true
              Hboard (sample_parameters_declared synthesizer_parameters)
              sample_goal_declared)
    as [self' [d' [Hrun [_ [_ [_ Htime]]]]]].
  exists self', d'. split; [exact Hrun | exact Htime].
Defined.

(** ** Residual *)

(** A loop over a list completes, and keeps an invariant indexed by the
    number of elements done, when each step does. *)
Lemma for_each_invariant {A S : Type} (I : nat -> S -> Prop) (l : list A)
    (body : A -> S -> outcome S) :
  (forall (k : nat) (x : A) (s : S),
     In x l -> I k s -> exists s' : S, body x s = Done s' /\ I (Datatypes.S k) s') ->
  forall (k : nat) (s : S),
    I k s ->
    exists s' : S, for_each l body s = Done s' /\ I (k + List.length l)%nat s'.
Proof.
  induction l as [|x l IH]; intros Hstep k s Hs.
  - exists s. split; [reflexivity|]. rewrite Nat.add_0_r. exact Hs.
  - destruct (Hstep k x s (or_introl eq_refl) Hs) as [s1 [E1 H1]].
    cbn [for_each]. rewrite E1. cbn [bind].
    destruct (IH (fun k y s Hy => Hstep k y s (or_intror Hy)) (Datatypes.S k) s1 H1)
      as [s' [E' H']].
    exists s'. split; [exact E'|].
    cbn [List.length]. rewrite Nat.add_succ_r. exact H'.
Qed.

Lemma push_back_length (v : list R) (x : R) :
  List.length (push_back v x) = Datatypes.S (List.length v).
Proof. unfold push_back. rewrite length_app. cbn. lia. Qed.

Lemma track_body_names_incl (b : string) :
  In b track_body_names -> In b body_names.
Proof.
  intros H. cbn [In track_body_names] in H.
  repeat (destruct H as [H | H]; [subst b; unfold body_names; in_list|]).
  contradiction.
Qed.

Lemma SensorByName_done (m : mjModel) (d : mjData) (name : string) :
  sensor_adr m name <> None ->
  exists s : array R, SensorByName m d name = Done s.
Proof.
  intros H. unfold SensorByName.
  destruct (sensor_adr m name) as [adr|]; [|contradiction].
  eexists. reflexivity.
Qed.

Lemma tracking_pos_sensor (b : string) :
  In b body_names -> In ("tracking_pos[" ++ b ++ "]") residual_sensors.
Proof.
  intros H. unfold residual_sensors. apply in_or_app. left.
  apply (in_map (fun b => "tracking_pos[" ++ b ++ "]")). exact H.
Qed.

Lemma tracking_linvel_sensor (b : string) :
  In b track_body_names -> In ("tracking_linvel[" ++ b ++ "]") residual_sensors.
Proof.
  intros H. unfold residual_sensors. apply in_or_app. right.
  apply in_or_app. left.
  apply (in_map (fun b => "tracking_linvel[" ++ b ++ "]")). exact H.
Qed.

Ltac resolve_sensor H :=
  match goal with
  | |- context [SensorByName ?m ?d ?name] =>
    let s := fresh "s" in
    let E := fresh "E" in
    destruct (SensorByName_done m d name (H name ltac:(in_list))) as [s E];
    rewrite E; cbn [bind]
  end.

(** *** The residual terms on a model that declares what they read *)

Section DeclaredModel.

Variables (self : ResidualFn) (m : mjModel) (d : mjData).

Hypothesis Hparams : parameters_declared m synthesizer_parameters.
Hypothesis Hvelocity : parameters_declared m ["Velocity"].
Hypothesis Hgoal : goal_declared m.
Hypothesis Hmarkers : markers_declared m.
Hypothesis Hsensors : sensors_declared m residual_sensors.
Hypothesis Hnames : contact_names_resolve m d.

Lemma mocap_index_done (b : string) :
  In b body_names -> exists id : Z, mocap_index m b = Done id.
Proof.
  intros Hb. destruct (Hmarkers b Hb) as [H1 H2]. unfold mocap_index.
  replace (0 <=? mj_name2id m mjOBJ_BODY ("mocap[" ++ b ++ "]")) with true
    by (symmetry; apply Z.leb_le; exact H1).
  cbn [assert bind].
  replace (0 <=? body_mocapid m (mj_name2id m mjOBJ_BODY ("mocap[" ++ b ++ "]")))
    with true by (symmetry; apply Z.leb_le; exact H2).
  cbn [assert bind]. eexists. reflexivity.
Qed.

(** Every sensor the residual reads, with the list of names spelled out. *)
Lemma sensors_listed :
  forall name : string,
    In name
       ltac:(let l := eval cbv [residual_sensors body_names track_body_names
                                map app] in residual_sensors in exact l) ->
    sensor_adr m name <> None.
Proof. exact Hsensors. Qed.

(** The tracking residual has 3 + 11 * 3 + 11 * 3 entries. *)
Lemma ComputeTrackingResidual_done :
  exists v : list R,
    ComputeTrackingResidual self m d = Done v /\ List.length v = 69%nat.
Proof.
  unfold ComputeTrackingResidual.
  match goal with
  | |- context [move_mocap_poses ?r ?mm ?dd ?pp ?md] =>
    destruct (move_mocap_poses_done r mm dd pp md Hparams Hgoal)
      as [translated Ht];
    rewrite Ht; cbn [bind]
  end.
  destruct (ComputeInterpolationValues _ _) as [[[k0 k1] w0] w1].
  (* marker and sensor averages *)
  match goal with
  | |- context [for_each body_names ?body ?init] =>
    destruct (for_each_invariant (fun _ _ => True) body_names body) with
      (k := 0%nat) (s := init) as [[[am asp] nb] [Eavg _]]
  end.
  { intros k b [[a1 a2] n] Hb _.
    destruct (mocap_index_done b Hb) as [id Eid]. rewrite Eid. cbn [bind].
    destruct (SensorByName_done m d _ (Hsensors _ (tracking_pos_sensor b Hb)))
      as [sp Esp].
    rewrite Esp. cbn [bind]. eexists. split; [reflexivity | exact I]. }
  { exact I. }
  rewrite Eavg. cbn [bind].
  (* positions of the track bodies *)
  match goal with
  | |- context [for_each track_body_names ?body ?init] =>
    destruct (for_each_invariant
                (fun k r => List.length r = (3 + 3 * k)%nat)
                track_body_names body) with
      (k := 0%nat) (s := init) as [positions [Epos Hpos]]
  end.
  { intros k b r Hb Hr.
    pose proof (track_body_names_incl b Hb) as Hb'.
    destruct (mocap_index_done b Hb') as [id Eid]. rewrite Eid. cbn [bind].
    destruct (SensorByName_done m d _ (Hsensors _ (tracking_pos_sensor b Hb')))
      as [sp Esp].
    rewrite Esp. cbn [bind]. eexists. split; [reflexivity|].
    rewrite !push_back_length, Hr. lia. }
  { rewrite !push_back_length. reflexivity. }
  rewrite Epos. cbn [bind].
  (* velocities of the track bodies *)
  match goal with
  | |- context [for_each track_body_names ?body positions] =>
    destruct (for_each_invariant
                (fun k r => List.length r = (36 + 3 * k)%nat)
                track_body_names body) with
      (k := 0%nat) (s := positions) as [v [Evel Hvel]]
  end.
  { intros k b r Hb Hr.
    pose proof (track_body_names_incl b Hb) as Hb'.
    destruct (mocap_index_done b Hb') as [id Eid]. rewrite Eid. cbn [bind].
    destruct (SensorByName_done m d _ (Hsensors _ (tracking_linvel_sensor b Hb)))
      as [sv Esv].
    rewrite Esv. cbn [bind]. eexists. split; [reflexivity|].
    unfold for_range. change (Z.to_nat (3 - 0)) with 3%nat. cbn [for_loop].
    rewrite !push_back_length, Hr. lia. }
  { rewrite Hpos. reflexivity. }
  exists v. split; [exact Evel|]. rewrite Hvel. reflexivity.
Qed.

Lemma ComputeFootPositionsResidual_done :
  exists v : list R,
    ComputeFootPositionsResidual self m d = Done v /\ List.length v = 6%nat.
Proof.
  unfold ComputeFootPositionsResidual.
  do 4 resolve_sensor sensors_listed.
  eexists. split; reflexivity.
Qed.

Lemma ComputeBoardHeadingResidual_length :
  List.length (ComputeBoardHeadingResidual self m d) = 2%nat.
Proof. reflexivity. Qed.

Lemma ComputeBoardVelocityResidual_done :
  exists v : list R,
    ComputeBoardVelocityResidual self m d = Done v /\ List.length v = 3%nat.
Proof.
  unfold ComputeBoardVelocityResidual.
  resolve_parameter Hvelocity. resolve_sensor sensors_listed.
  eexists. split; reflexivity.
Qed.

Lemma ComputeFootContactForceResidual_done :
  exists v : list R,
    ComputeFootContactForceResidual self m d = Done v /\ List.length v = 1%nat.
Proof.
  unfold ComputeFootContactForceResidual.
  destruct (foot_contact_loop_done m d
              (mj_name2id m mjOBJ_GEOM "foot1_left")
              (mj_name2id m mjOBJ_GEOM "foot2_left")
              (mj_name2id m mjOBJ_GEOM "floor") Hnames
              (Z.to_nat (ncon d)) 0 (-1, -1, 0) ltac:(intros; lia))
    as [[[h t] f] Hloop].
  rewrite Hloop. cbn [bind].
  destruct (mj_contactForce_slot m d t) as [ft [Et _]].
  destruct (mj_contactForce_slot m d h) as [fh [Eh _]].
  rewrite Et, Eh. cbn [bind].
  eexists. split; reflexivity.
Qed.

Lemma ComputeComVelXyResidual_done :
  exists v : list R,
    ComputeComVelXyResidual self m d = Done v /\ List.length v = 2%nat.
Proof.
  unfold ComputeComVelXyResidual.
  do 2 resolve_sensor sensors_listed.
  eexists. split; reflexivity.
Qed.

End DeclaredModel.

(** *** Writing blocks one after the other *)

Lemma cells_ext (p q : array R) (n : nat) :
  (forall k : nat, (k < n)%nat -> p (Z.of_nat k) = q (Z.of_nat k)) ->
  cells p n = cells q n.
Proof.
  intros H. unfold cells. apply map_ext_in. intros k Hk.
  apply in_seq in Hk. apply H. lia.
Qed.

Lemma cells_snoc (p : array R) (n : nat) :
  cells p (S n) = (cells p n ++ [p (Z.of_nat n)])%list.
Proof. unfold cells. rewrite seq_S, map_app. reflexivity. Qed.

Lemma cells_app (p : array R) (a b : nat) :
  cells p (a + b) = (cells p a ++ cells (shift p (Z.of_nat a)) b)%list.
Proof.
  induction b as [|b IH].
  - rewrite Nat.add_0_r. cbn [cells seq map]. rewrite app_nil_r. reflexivity.
  - rewrite Nat.add_succ_r, !cells_snoc, IH, <- app_assoc.
    do 3 f_equal. unfold shift. f_equal. lia.
Qed.

Lemma cells_length (p : array R) (n : nat) : List.length (cells p n) = n.
Proof. unfold cells. rewrite length_map, length_seq. reflexivity. Qed.

Lemma cells_data_of (v : list R) : cells (data_of v) (List.length v) = v.
Proof.
  induction v as [|x v IH]; [reflexivity|].
  change (List.length (x :: v)) with (1 + List.length v)%nat.
  rewrite cells_app. cbn [cells seq map app].
  f_equal. transitivity (cells (data_of v) (List.length v)); [|exact IH].
  apply cells_ext. intros k _.
  unfold shift, data_of.
  replace (Z.of_nat 1 + Z.of_nat k <? 0) with false
    by (symmetry; apply Z.ltb_ge; lia).
  replace (Z.of_nat k <? 0) with false by (symmetry; apply Z.ltb_ge; lia).
  replace (Z.to_nat (Z.of_nat 1 + Z.of_nat k)) with (S k) by lia.
  rewrite Nat2Z.id. reflexivity.
Qed.

Lemma cells_data_of_size (v : list R) :
  cells (data_of v) (Z.to_nat (size v)) = v.
Proof. unfold size. rewrite Nat2Z.id. apply cells_data_of. Qed.

Lemma mju_copy_outside (res vec : array R) (off n i : Z) :
  ~ (off <= i < off + n) -> mju_copy res off vec n i = res i.
Proof.
  intros H. unfold mju_copy, in_range.
  destruct (Z.leb_spec off i); destruct (Z.ltb_spec i (off + n));
    cbn [andb]; try reflexivity.
  exfalso. apply H. lia.
Qed.

Lemma mju_copy_block (res vec : array R) (off n i : Z) :
  off <= i < off + n -> mju_copy res off vec n i = vec (i - off).
Proof.
  intros H. unfold mju_copy, in_range.
  replace (off <=? i) with true by (symmetry; apply Z.leb_le; lia).
  replace (i <? off + n) with true by (symmetry; apply Z.ltb_lt; lia).
  reflexivity.
Qed.

(** A block written at the end of what has been written extends it. *)
Lemma write_block (res vec : array R) (off n : Z) (pre : list R) :
  0 <= off -> 0 <= n ->
  cells res (Z.to_nat off) = pre ->
  cells (mju_copy res off vec n) (Z.to_nat (off + n))
  = (pre ++ cells vec (Z.to_nat n))%list.
Proof.
  intros Hoff Hn Hpre.
  rewrite Z2Nat.inj_add by lia. rewrite cells_app. f_equal.
  - rewrite <- Hpre. apply cells_ext. intros k Hk.
    apply mju_copy_outside. lia.
  - apply cells_ext. intros k Hk. unfold shift.
    rewrite mju_copy_block by lia. f_equal. lia.
Qed.

Ltac write_step :=
  match goal with
  | |- cells (mju_copy ?res ?off ?vec ?n) (Z.to_nat ?t) = (?pre ++ ?blk)%list =>
    transitivity (pre ++ cells vec (Z.to_nat n))%list;
    [ replace (Z.to_nat t) with (Z.to_nat (off + n)) by (f_equal; lia);
      apply write_block; [lia | lia |]
    | f_equal;
      first [ reflexivity | apply cells_data_of_size | f_equal; lia ] ]
  end.

(** C1. One call of [Residual] writes, in this order, the humanoid joint
    velocities ([nv - 19] entries), the control ([nu] entries), the tracking
    residual (69), the foot placement residual (6), the board heading
    residual (2), the board velocity residual (3), the foot contact-force
    residual (1) and the planar center-of-mass velocity residual (2), and
    nothing else; the number of entries, [(nv - 19) + nu + 83], depends on
    the model only, and the call is fatal when it differs from the sensor
    dimension the model declares. *)
Theorem Residual_layout (self : ResidualFn) (m : mjModel) (d : mjData)
    (residual : array R) :
  19 <= nv m ->
  0 <= nu m ->
  parameters_declared m ("Velocity" :: synthesizer_parameters) ->
  goal_declared m ->
  markers_declared m ->
  sensors_declared m residual_sensors ->
  contact_names_resolve m d ->
  exists tracking foot_positions board_velocity foot_force com_vel : list R,
    (ComputeTrackingResidual self m d = Done tracking /\
     List.length tracking = (3 + 11 * 3 + 11 * 3)%nat) /\
    (ComputeFootPositionsResidual self m d = Done foot_positions /\
     List.length foot_positions = 6%nat) /\
    List.length (ComputeBoardHeadingResidual self m d) = 2%nat /\
    (ComputeBoardVelocityResidual self m d = Done board_velocity /\
     List.length board_velocity = 3%nat) /\
    (ComputeFootContactForceResidual self m d = Done foot_force /\
     List.length foot_force = 1%nat) /\
    (ComputeComVelXyResidual self m d = Done com_vel /\
     List.length com_vel = 2%nat) /\
    let total := (nv m - 19) + nu m + 83 in
    (sensor_dim m = total ->
     exists residual' : array R,
       Residual self m d residual = Done residual' /\
       cells residual' (Z.to_nat total)
       = (cells (shift (qvel d) 6) (Z.to_nat (nv m - 19))
          ++ cells (ctrl d) (Z.to_nat (nu m))
          ++ tracking
          ++ foot_positions
          ++ ComputeBoardHeadingResidual self m d
          ++ board_velocity
          ++ foot_force
          ++ com_vel)%list /\
       forall i : Z, ~ (0 <= i < total) -> residual' i = residual i) /\
    (sensor_dim m <> total ->
     exists msg : string, Residual self m d residual = Fatal msg).
Proof.
  intros Hnv Hnu Hp Hg Hm Hs Hc.
  assert (Hp1 : parameters_declared m synthesizer_parameters)
    by (intros name Hin; apply Hp; right; exact Hin).
  assert (Hp2 : parameters_declared m ["Velocity"]).
  { intros name [Hin | []]. apply Hp. left. exact Hin. }
  destruct (ComputeTrackingResidual_done self m d Hp1 Hg Hm Hs)
    as [tracking [Etr Ltr]].
  destruct (ComputeFootPositionsResidual_done self m d Hs) as [foot [Efp Lfp]].
  pose proof (ComputeBoardHeadingResidual_length self m d) as Lbh.
  destruct (ComputeBoardVelocityResidual_done self m d Hp2 Hs)
    as [velocity [Ebv Lbv]].
  destruct (ComputeFootContactForceResidual_done self m d Hc)
    as [force [Efc Lfc]].
  destruct (ComputeComVelXyResidual_done self m d Hs) as [com [Ecv Lcv]].
  exists tracking, foot, velocity, force, com.
  repeat (split; [first [assumption | split; assumption]|]).
  cbv zeta.
  unfold Residual. rewrite Etr, Efp, Ebv, Efc, Ecv. cbn [bind].
  set (heading := ComputeBoardHeadingResidual self m d) in *.
  assert (Str : size tracking = 69) by (unfold size; rewrite Ltr; reflexivity).
  assert (Sfp : size foot = 6) by (unfold size; rewrite Lfp; reflexivity).
  assert (Sbh : size heading = 2) by (unfold size; rewrite Lbh; reflexivity).
  assert (Sbv : size velocity = 3) by (unfold size; rewrite Lbv; reflexivity).
  assert (Sfc : size force = 1) by (unfold size; rewrite Lfc; reflexivity).
  assert (Scv : size com = 2) by (unfold size; rewrite Lcv; reflexivity).
  unfold CheckSensorDim.
  split.
  - intros Hdim.
    match goal with
    | |- context [error_if (negb (?c =? sensor_dim m)) ?msg] =>
      replace (c =? sensor_dim m) with true by (symmetry; apply Z.eqb_eq; lia)
    end.
    cbn [negb error_if bind]. eexists. split; [reflexivity|]. split.
    + rewrite !app_assoc.
      do 7 write_step.
      match goal with
      | |- cells (mju_copy ?res ?off ?vec ?n) (Z.to_nat ?t) = ?blk =>
        change blk with ([] ++ blk)%list
      end.
      write_step. reflexivity.
    + intros i Hi. rewrite !mju_copy_outside by lia. reflexivity.
  - intros Hdim.
    match goal with
    | |- context [error_if (negb (?c =? sensor_dim m)) ?msg] =>
      replace (c =? sensor_dim m) with false by (symmetry; apply Z.eqb_neq; lia)
    end.
    cbn [negb error_if mju_error bind]. eexists. reflexivity.
Qed.

Lemma sample_markers_declared : markers_declared sample_model.
Proof.
  intros b _. cbn [sample_model mj_name2id body_mocapid].
  destruct (String.eqb ("mocap[" ++ b ++ "]") "skateboard");
    [cbn; lia|].
  destruct (String.eqb ("mocap[" ++ b ++ "]") "goal"); cbn; lia.
Qed.

Lemma sample_sensors_declared (names : list string) :
  sensors_declared sample_model names.
Proof. intros name _. discriminate. Qed.

Lemma planted_names_resolve : contact_names_resolve sample_model planted_data.
Proof. intros i _. cbn. split; discriminate. Qed.

Lemma Residual_layout_witness :
  19 <= nv sample_model /\
  0 <= nu sample_model /\
  parameters_declared sample_model ("Velocity" :: synthesizer_parameters) /\
  goal_declared sample_model /\
  markers_declared sample_model /\
  sensors_declared sample_model residual_sensors /\
  contact_names_resolve sample_model planted_data /\
  exists residual' : array R,
    Residual sample_residual sample_model planted_data (fun _ => 0%R)
    = Done residual'.
Proof.
  assert (Hnv : 19 <= nv sample_model) by (vm_compute; discriminate).
  assert (Hnu : 0 <= nu sample_model) by (vm_compute; discriminate).
  repeat (split; [first [ exact Hnv | exact Hnu
                        | apply sample_parameters_declared
                        | exact sample_goal_declared
                        | exact sample_markers_declared
                        | apply sample_sensors_declared
                        | exact planted_names_resolve ]|]).
  destruct (Residual_layout sample_residual sample_model planted_data
              (fun _ => 0%R) Hnv Hnu
              (sample_parameters_declared ("Velocity" :: synthesizer_parameters))
              sample_goal_declared sample_markers_declared
              (sample_sensors_declared residual_sensors)
              planted_names_resolve)
    as [tr [fp [bv [fc [cv [_ [_ [_ [_ [_ [_ [Hok _]]]]]]]]]]]].
  destruct (Hok eq_refl) as [residual' [Hrun _]].
  exists residual'. exact Hrun.
Defined.

(** ** Scenarios *)

(** Motion 0 has a single frame: whatever the time, both keyframe indices
    are the start index and the weights are 1 and 0. *)
Lemma single_frame_interpolation (index : R) :
  ComputeInterpolationValues index (MotionStartIndex 0 + MotionLength 0 - 1)
  = (MotionStartIndex 0, MotionStartIndex 0, 1%R, 0%R).
Proof.
  change (MotionStartIndex 0 + MotionLength 0 - 1) with 0.
  change (MotionStartIndex 0) with 0.
  unfold ComputeInterpolationValues.
  assert (Hc : clamp index 0 (IZR 0) = 0%R).
  { pose proof (clamp_bounds index 0 (IZR 0) ltac:(simpl; lra)) as H.
    simpl in H. lra. }
  rewrite Hc. replace 0%R with (IZR 0) at 1 2 by reflexivity.
  rewrite ZfloorZ. cbn [Z.min Z.add Z.compare Pos.compare].
  replace (1 - (0 - 0))%R with 1%R by lra.
  replace (0 - 0)%R with 0%R by lra. reflexivity.
Qed.

Lemma sample_distance :
  planar_distance (goal_position sample_model sample_data)
                  (skateboard_position sample_model sample_data) = 0.3%R.
Proof.
  unfold planar_distance, goal_position, skateboard_position, mju_copy3, shift,
    vx, vy. cbn.
  replace ((0.3 - 0) * (0.3 - 0) + (0 - 0) * (0 - 0))%R with (0.3 * 0.3)%R
    by lra.
  apply sqrt_square. lra.
Qed.

Lemma sample_unit_heading : unit_heading sample_model sample_data = (1%R, 0%R).
Proof.
  unfold unit_heading, heading_of, mju_normalize. cbn [fst snd].
  rewrite mju_norm_pair.
  cbn [sample_model sample_data xmat mj_name2id skateboard_id].
  unfold skateboard_id. cbn.
  replace (1 * 1 + 0 * 0)%R with 1%R by lra. rewrite sqrt_1.
  destruct (Rlt_dec 1 mjMINVAL) as [H | H].
  - unfold mjMINVAL in H. lra.
  - unfold data_of. cbn. rewrite Pos2Nat.inj_1. f_equal; lra.
Qed.

(** The board at the origin facing +x and the goal at (0.3, 0, 0): the goal
    is moved to (8.0, 2.0, 0) on one draw and to (8.0, -2.0, 0) on the
    other. *)
Lemma sample_relocation (left_or_right : bool) :
  exists d' : mjData,
    move_goal sample_model sample_data (fun _ => 0%R) 0 left_or_right = Done d' /\
    goal_position sample_model d'
    = (8.0%R, if left_or_right then 2.0%R else (- 2.0)%R, 0%R).
Proof.
  destruct sample_goal_declared as [Hg Hm].
  rewrite (move_goal_runs sample_model sample_data (fun _ => 0%R) 0
             left_or_right Hg Hm).
  rewrite sample_distance, sample_unit_heading.
  destruct (Rlt_dec 0.3 0.5) as [_ | H]; [|lra].
  cbv zeta. eexists. split; [reflexivity|].
  unfold goal_position at 1. cbn [mocap_pos set_mocap_pos].
  rewrite mju_copy3_store3.
  unfold skateboard_position, goal_position, mju_copy3, shift, vx, vy, vz.
  cbn. destruct left_or_right; f_equal; try f_equal; lra.
Qed.

(** * Further properties of the code *)

(** ** Interpolation *)

(** X1. For [max_index >= 0] the two keyframe indices are equal or adjacent,
    they are equal only with no weight on the second, and the weighted
    indices give back the clamped index:
    [index_0 * weight_0 + index_1 * weight_1 = clamp(index, 0, max_index)]. *)
Theorem ComputeInterpolationValues_reconstructs (index : R) (max_index : Z) :
  0 <= max_index ->
  let '(index_0, index_1, weight_0, weight_1) :=
    ComputeInterpolationValues index max_index in
  (index_1 = index_0 + 1 \/ (index_1 = index_0 /\ weight_1 = 0%R)) /\
  (IZR index_0 * weight_0 + IZR index_1 * weight_1
   = clamp index 0 (IZR max_index))%R.
Proof.
  intros Hmax. unfold ComputeInterpolationValues.
  assert (Hhi : (0 <= IZR max_index)%R) by (apply IZR_le; lia).
  set (c := clamp index 0 (IZR max_index)).
  assert (Hc : (0 <= c <= IZR max_index)%R) by (apply clamp_bounds; exact Hhi).
  pose proof (Zfloor_bound c) as Hfl.
  assert (H1 : Zfloor c <= max_index).
  { rewrite <- (ZfloorZ max_index). apply Zfloor_le. lra. }
  destruct (Z_lt_le_dec (Zfloor c) max_index) as [Hlt | Hge].
  - rewrite Z.min_l by lia. split; [left; reflexivity|].
    rewrite plus_IZR. simpl. ring.
  - assert (Heq : Zfloor c = max_index) by lia.
    rewrite Z.min_r by lia.
    assert (Hcm : c = IZR max_index).
    { rewrite Heq in Hfl. lra. }
    rewrite Heq, Hcm. split; [right; split; [reflexivity | lra] | ring].
Qed.

Lemma ComputeInterpolationValues_reconstructs_witness :
  0 <= 3 /\
  let '(index_0, index_1, weight_0, weight_1) :=
    ComputeInterpolationValues (5 / 2) 3 in
  (IZR index_0 * weight_0 + IZR index_1 * weight_1 = clamp (5 / 2) 0 (IZR 3))%R.
Proof.
  split; [lia|].
  pose proof (ComputeInterpolationValues_reconstructs (5 / 2) 3 ltac:(lia)) as H.
  destruct (ComputeInterpolationValues (5 / 2) 3) as [[[i0 i1] w0] w1].
  destruct H as [_ H]. exact H.
Defined.

(** ** Goal controller *)

Lemma relocated_goal_is_far (m : mjModel) (d : mjData) (left_or_right : bool)
    (z : R) :
  let u := unit_heading m d in
  planar_distance
    ((vx (skateboard_position m d)
      + (fst u * 8.0 + (if left_or_right then - snd u * 2.0 else snd u * 2.0)))%R,
     (vy (skateboard_position m d)
      + (snd u * 8.0 + (if left_or_right then fst u * 2.0 else - fst u * 2.0)))%R,
     z)
    (skateboard_position m d)
  = sqrt (8.0 * 8.0 + 2.0 * 2.0).
Proof.
  cbv zeta. pose proof (unit_heading_unit m d) as Hunit.
  destruct (skateboard_position m d) as [[sx sy] sz].
  rewrite <- (planar_distance_relocated sx sy (fst (unit_heading m d))
                (snd (unit_heading m d)) (side_sign left_or_right) z sz Hunit
                (side_sign_square left_or_right)).
  unfold planar_distance, vx, vy, side_sign. cbn [fst snd].
  f_equal. destruct left_or_right; ring.
Qed.

(** X2. A second call of [move_goal] on the data the first call returned
    changes nothing, whatever the two draws are: a goal that was relocated
    lies further than the threshold from the board, and a goal that was not
    relocated is still not. *)
Theorem move_goal_settles (m : mjModel) (d : mjData) (p : array R) (md : Z)
    (draw1 draw2 : bool) :
  goal_declared m ->
  exists d' : mjData,
    move_goal m d p md draw1 = Done d' /\
    move_goal m d' p md draw2 = Done d'.
Proof.
  intros [Hg Hm].
  rewrite (move_goal_runs m d p md draw1 Hg Hm).
  destruct (Rlt_dec (planar_distance (goal_position m d)
                                     (skateboard_position m d)) 0.5)
    as [Hnear | Hfar].
  - cbv zeta.
    pose proof (relocated_goal_is_far m d draw1 (vz (goal_position m d)))
      as Hdist.
    cbv zeta in Hdist.
    match goal with
    | |- context [mju_store3 (mocap_pos d) ?off ?v] =>
      set (new_goal := v) in *; set (d1 := set_mocap_pos d (mju_store3 (mocap_pos d) off v))
    end.
    exists d1. split; [reflexivity|].
    rewrite (move_goal_runs m d1 p md draw2 Hg Hm).
    assert (Hgoal : goal_position m d1 = new_goal).
    { unfold goal_position, d1. cbn [mocap_pos set_mocap_pos].
      apply mju_copy3_store3. }
    assert (Hboard : skateboard_position m d1 = skateboard_position m d)
      by reflexivity.
    rewrite Hgoal, Hboard, Hdist.
    destruct (Rlt_dec (sqrt (8.0 * 8.0 + 2.0 * 2.0)) 0.5) as [Hcontra | _];
      [pose proof half_lt_sqrt68; lra | reflexivity].
  - exists d. split; [reflexivity|].
    rewrite (move_goal_runs m d p md draw2 Hg Hm).
    destruct (Rlt_dec _ _) as [Hcontra | _]; [contradiction | reflexivity].
Qed.

Lemma move_goal_settles_witness :
  goal_declared sample_model /\
  exists d' : mjData,
    move_goal sample_model sample_data (fun _ => 0%R) 0 true = Done d' /\
    move_goal sample_model d' (fun _ => 0%R) 0 false = Done d'.
Proof.
  split; [exact sample_goal_declared|].
  apply (move_goal_settles sample_model sample_data (fun _ => 0%R) 0 true false
           sample_goal_declared).
Defined.

(** ** Task reset *)

(** X3. [ResetLocked] completes exactly when the model has an xbody and a
    body named "skateboard" and a mocap body named "goal"; it then stores
    the four ids, all non-negative, and leaves the mode, the parameters, the
    stored motion and the reference time as they were.  Otherwise it stops
    in [mju_error]. *)
Theorem ResetLocked_ids (self : Pushing) (m : mjModel) :
  match ResetLocked self m with
  | Done self' =>
    skateboard_xbody_id_ (residual_ self') = mj_name2id m mjOBJ_XBODY "skateboard" /\
    skateboard_body_id_ (residual_ self') = mj_name2id m mjOBJ_BODY "skateboard" /\
    goal_body_id_ (residual_ self') = mj_name2id m mjOBJ_XBODY "goal" /\
    goal_body_mocap_id_ (residual_ self') = goal_mocapid m /\
    0 <= skateboard_xbody_id_ (residual_ self') /\
    0 <= skateboard_body_id_ (residual_ self') /\
    0 <= goal_body_id_ (residual_ self') /\
    0 <= goal_body_mocap_id_ (residual_ self') /\
    mode self' = mode self /\ parameters self' = parameters self /\
    parameters_ (residual_ self') = parameters_ (residual_ self) /\
    current_mode_ (residual_ self') = current_mode_ (residual_ self) /\
    reference_time_ (residual_ self') = reference_time_ (residual_ self)
  | Fatal _ =>
    mj_name2id m mjOBJ_XBODY "skateboard" < 0 \/
    mj_name2id m mjOBJ_BODY "skateboard" < 0 \/
    mj_name2id m mjOBJ_XBODY "goal" < 0 \/
    goal_mocapid m < 0
  | Invalid _ => False
  end.
Proof.
  unfold ResetLocked, goal_mocapid.
  destruct (Z.ltb_spec (mj_name2id m mjOBJ_XBODY "skateboard") 0) as [H1 | H1];
    cbn [error_if mju_error bind]; [left; exact H1|].
  destruct (Z.ltb_spec (mj_name2id m mjOBJ_BODY "skateboard") 0) as [H2 | H2];
    cbn [error_if mju_error bind]; [right; left; exact H2|].
  destruct (Z.ltb_spec (mj_name2id m mjOBJ_XBODY "goal") 0) as [H3 | H3];
    cbn [error_if mju_error bind]; [right; right; left; exact H3|].
  destruct (Z.ltb_spec (body_mocapid m (mj_name2id m mjOBJ_XBODY "goal")) 0)
    as [H4 | H4];
    cbn [error_if mju_error bind]; [right; right; right; exact H4|].
  cbn. repeat split; assumption.
Qed.

(** ** Control step *)

(** The synthesizer reads the time, the board position and heading and the
    planar goal position, and nothing else of the data. *)
Lemma move_mocap_poses_reads (result : array R) (m : mjModel) (p : array R)
    (md : Z) (d1 d2 : mjData) :
  time d1 = time d2 ->
  skateboard_position m d1 = skateboard_position m d2 ->
  heading_of m d1 = heading_of m d2 ->
  goal_xy m d1 = goal_xy m d2 ->
  move_mocap_poses result m d1 p md = move_mocap_poses result m d2 p md.
Proof.
  intros Htime Hpos Hhead Hgoal.
  pose proof (f_equal vx Hpos) as Hx. pose proof (f_equal vy Hpos) as Hy.
  pose proof (f_equal vz Hpos) as Hz.
  pose proof (f_equal fst Hhead) as Hh0. pose proof (f_equal snd Hhead) as Hh3.
  pose proof (f_equal fst Hgoal) as Hg0. pose proof (f_equal snd Hgoal) as Hg1.
  unfold skateboard_position, skateboard_id, mju_copy3, shift, vx, vy, vz
    in Hx, Hy, Hz.
  unfold heading_of, skateboard_id in Hh0, Hh3.
  unfold goal_xy, goal_mocapid in Hg0, Hg1.
  cbn [fst snd] in Hx, Hy, Hz, Hh0, Hh3, Hg0, Hg1.
  unfold move_mocap_poses, mju_copy3, shift.
  rewrite Htime, Hx, Hy, Hz, Hh0, Hh3, Hg0, Hg1.
  reflexivity.
Qed.

Lemma goal_position_store3 (m : mjModel) (d : mjData) (v : vec3) :
  goal_position m
    (set_mocap_pos d (mju_store3 (mocap_pos d) (3 * goal_mocapid m) v)) = v.
Proof.
  unfold goal_position. cbn [mocap_pos set_mocap_pos]. apply mju_copy3_store3.
Qed.

(** What [move_goal] does to the goal depends on the goal, the board
    position and the board heading only. *)
Lemma move_goal_reads (m : mjModel) (d1 d2 : mjData) (p : array R) (md : Z)
    (left_or_right : bool) :
  goal_declared m ->
  goal_position m d1 = goal_position m d2 ->
  skateboard_position m d1 = skateboard_position m d2 ->
  heading_of m d1 = heading_of m d2 ->
  exists d1' d2' : mjData,
    move_goal m d1 p md left_or_right = Done d1' /\
    move_goal m d2 p md left_or_right = Done d2' /\
    goal_position m d1' = goal_position m d2'.
Proof.
  intros [Hg Hm] Hgoal Hpos Hhead.
  rewrite (move_goal_runs m d1 p md left_or_right Hg Hm).
  rewrite (move_goal_runs m d2 p md left_or_right Hg Hm).
  unfold unit_heading. rewrite Hgoal, Hpos, Hhead.
  destruct (Rlt_dec _ _) as [Hnear | Hfar].
  - cbv zeta. eexists. eexists. split; [reflexivity|]. split; [reflexivity|].
    match goal with
    | |- goal_position m (set_mocap_pos d1 (mju_store3 _ _ ?v)) = _ =>
      rewrite (goal_position_store3 m d1 v), (goal_position_store3 m d2 v)
    end.
    reflexivity.
  - exists d1, d2. split; [reflexivity|]. split; [reflexivity | exact Hgoal].
Qed.

(** The shape of a completed step: the marker cells of the pose buffer are
    first filled from the keyframes, which leaves every other field and
    every other cell alone ([d_i]); the synthesizer runs on that, its output
    replaces the marker cells ([d_s]), and [move_goal] runs last. *)
Lemma TransitionLocked_runs (self : Pushing) (m : mjModel) (d : mjData)
    (left_or_right : bool) :
  0 <= skateboard_body_id_ (residual_ self) ->
  parameters_declared m synthesizer_parameters ->
  goal_declared m ->
  exists (d_i : mjData) (out : array R) (d' : mjData),
    same_surroundings d d_i /\
    (forall i : Z, ~ marker_cell m i -> mocap_pos d_i i = mocap_pos d i) /\
    move_mocap_poses (fun _ => 0%R) m d_i (parameters self) (mode self)
      = Done out /\
    move_goal m
      (set_mocap_pos d_i (mju_copy (mocap_pos d_i) 0 out (3 * (nmocap m - 1))))
      (parameters self) (mode self) left_or_right = Done d' /\
    TransitionLocked self m d left_or_right
      = Done (if motion_switch self d
              then set_motion self (mode self) (time d) else self, d').
Proof.
  intros Hboard Hparams Hgoal. unfold TransitionLocked.
  replace (0 <=? skateboard_body_id_ (residual_ self)) with true
    by (symmetry; apply Z.leb_le; exact Hboard).
  cbn [assert bind].
  destruct (motion_switch self d);
    unfold ComputeInterpolationValues; cbv zeta; cbv iota;
    cbn [mode parameters set_motion];
    match goal with
    | |- context [move_mocap_poses ?r ?mm ?dd ?pp ?md] =>
      destruct (move_mocap_poses_done r mm dd pp md Hparams Hgoal) as [out Hout];
      exists dd, out
    end;
    match goal with
    | |- context [move_goal ?mm ?dd ?pp ?md ?lr] =>
      destruct (move_goal_done mm dd pp md lr Hgoal) as [d' [Hrun _]];
      exists d'
    end;
    (split; [unfold same_surroundings; repeat split; reflexivity|]);
    (split; [intros i Hi; unfold marker_cell in Hi;
             cbn [mocap_pos set_mocap_pos set_qpos set_qvel];
             unfold mju_addTo, mju_copy, in_range;
             destruct (Z.leb_spec 0 i);
             destruct (Z.ltb_spec i (0 + 3 * (nmocap m - 1)));
             cbn [andb]; try reflexivity; exfalso; apply Hi; lia|]);
    (split; [exact Hout|]);
    (split; [exact Hrun|]);
    rewrite Hout; cbn [bind]; rewrite Hrun; reflexivity.
Qed.

Lemma only_goal_moved_surroundings (m : mjModel) (d d' : mjData) :
  only_goal_moved m d d' -> same_surroundings d d'.
Proof.
  intros [Ht [_ [_ [Hc [Hx [Hm [Hs [Hn [Hcon [Hf _]]]]]]]]]].
  unfold same_surroundings. repeat split; assumption.
Qed.

(** X4. A completed control step changes nothing of the physics data but
    [qpos], [qvel] and the pose buffer, and in the pose buffer only the
    marker cells and the goal's three cells: time, controls, body poses,
    sensor data and contacts are as before, and so is every mocap cell that
    belongs neither to a tracked marker nor to the goal. *)
Theorem TransitionLocked_frame (self : Pushing) (m : mjModel) (d : mjData)
    (left_or_right : bool) :
  0 <= skateboard_body_id_ (residual_ self) ->
  parameters_declared m synthesizer_parameters ->
  goal_declared m ->
  exists (self' : Pushing) (d' : mjData),
    TransitionLocked self m d left_or_right = Done (self', d') /\
    same_surroundings d d' /\
    forall i : Z, ~ marker_cell m i -> ~ goal_cell m i ->
      mocap_pos d' i = mocap_pos d i.
Proof.
  intros Hboard Hparams Hgoal.
  destruct (TransitionLocked_runs self m d left_or_right Hboard Hparams Hgoal)
    as [d_i [out [d' [Hsur [Hcells [Hsyn [Hmove Hrun]]]]]]].
  eexists. exists d'. split; [exact Hrun|].
  set (d_s := set_mocap_pos d_i
                (mju_copy (mocap_pos d_i) 0 out (3 * (nmocap m - 1)))) in *.
  destruct (move_goal_done m d_s (parameters self) (mode self) left_or_right
              Hgoal) as [d'' [Hmove' Hframe]].
  rewrite Hmove in Hmove'. injection Hmove' as <-.
  pose proof (only_goal_moved_surroundings m d_s d' Hframe) as Hsur'.
  unfold d_s in Hsur'.
  split.
  - unfold same_surroundings in *. cbn [time ctrl xpos xmat sensordata ncon
      contact contact_frc set_mocap_pos] in Hsur'.
    destruct Hsur as [H1 [H2 [H3 [H4 [H5 [H6 [H7 H8]]]]]]].
    destruct Hsur' as [G1 [G2 [G3 [G4 [G5 [G6 [G7 G8]]]]]]].
    repeat split; congruence.
  - intros i Hmarker Hgoalcell.
    destruct Hframe as [_ [_ [_ [_ [_ [_ [_ [_ [_ [_ Hother]]]]]]]]]].
    rewrite (Hother i Hgoalcell). unfold d_s. cbn [mocap_pos set_mocap_pos].
    rewrite mju_copy_outside by (unfold marker_cell in Hmarker; lia).
    apply Hcells. exact Hmarker.
Qed.

Lemma TransitionLocked_frame_witness :
  0 <= skateboard_body_id_ (residual_ sample_task) /\
  parameters_declared sample_model synthesizer_parameters /\
  goal_declared sample_model /\
  exists (self' : Pushing) (d' : mjData),
    TransitionLocked sample_task sample_model sample_data true
      = Done (self', d') /\
    same_surroundings sample_data d'.
Proof.
  assert (Hboard : 0 <= skateboard_body_id_ (residual_ sample_task))
    by (vm_compute; discriminate).
  split; [exact Hboard|].
  split; [apply sample_parameters_declared|].
  split; [exact sample_goal_declared|].
  destruct (TransitionLocked_frame sample_task sample_model sample_data true
              Hboard (sample_parameters_declared synthesizer_parameters)
              sample_goal_declared)
    as [self' [d' [Hrun [Hsur _]]]].
  exists self', d'. split; [exact Hrun | exact Hsur].
Defined.

(** X5. When the goal has the last mocap slot, a completed control step
    leaves in the pose buffer exactly what the synthesizer and [move_goal]
    make of the data the step started from: the marker cells hold the
    output of [move_mocap_poses] on the initial data, so the keyframe
    interpolation of the step has no effect on them, and the goal is where
    [move_goal] on the initial data puts it. *)
Theorem TransitionLocked_pose (self : Pushing) (m : mjModel) (d : mjData)
    (left_or_right : bool) :
  0 <= skateboard_body_id_ (residual_ self) ->
  parameters_declared m synthesizer_parameters ->
  goal_declared m ->
  goal_mocapid m = nmocap m - 1 ->
  exists (self' : Pushing) (d' : mjData) (out : array R) (d_g : mjData),
    TransitionLocked self m d left_or_right = Done (self', d') /\
    move_mocap_poses (fun _ => 0%R) m d (parameters self) (mode self)
      = Done out /\
    move_goal m d (parameters self) (mode self) left_or_right = Done d_g /\
    (forall i : Z, marker_cell m i -> mocap_pos d' i = out i) /\
    goal_position m d' = goal_position m d_g.
Proof.
  intros Hboard Hparams Hgoal Hlast.
  destruct (TransitionLocked_runs self m d left_or_right Hboard Hparams Hgoal)
    as [d_i [out [d' [Hsur [Hcells [Hsyn [Hmove Hrun]]]]]]].
  destruct Hsur as [Ht [_ [Hx [Hm _]]]].
  assert (Hgoal_i : forall i : Z, goal_cell m i -> mocap_pos d_i i = mocap_pos d i).
  { intros i Hi. apply Hcells. unfold goal_cell, marker_cell in *. lia. }
  assert (Hpos : skateboard_position m d_i = skateboard_position m d)
    by (unfold skateboard_position; rewrite Hx; reflexivity).
  assert (Hhead : heading_of m d_i = heading_of m d)
    by (unfold heading_of; rewrite Hm; reflexivity).
  assert (Hgp : goal_position m d_i = goal_position m d).
  { unfold goal_position, mju_copy3, shift.
    rewrite !Hgoal_i by (unfold goal_cell; lia). reflexivity. }
  assert (Hxy : goal_xy m d_i = goal_xy m d).
  { unfold goal_xy. rewrite !Hgoal_i by (unfold goal_cell; lia). reflexivity. }
  rewrite (move_mocap_poses_reads _ m (parameters self) (mode self) d_i d
             Ht Hpos Hhead Hxy) in Hsyn.
  set (d_s := set_mocap_pos d_i
                (mju_copy (mocap_pos d_i) 0 out (3 * (nmocap m - 1)))) in *.
  assert (Hgp_s : goal_position m d_s = goal_position m d).
  { rewrite <- Hgp. unfold goal_position, mju_copy3, shift, d_s.
    cbn [mocap_pos set_mocap_pos].
    rewrite !mju_copy_outside by lia. reflexivity. }
  destruct (move_goal_reads m d_s d (parameters self) (mode self) left_or_right
              Hgoal Hgp_s Hpos Hhead)
    as [d1' [d_g [Hmove1 [Hmove2 Hsame]]]].
  rewrite Hmove in Hmove1. injection Hmove1 as <-.
  eexists. exists d', out, d_g.
  split; [exact Hrun|]. split; [exact Hsyn|]. split; [exact Hmove2|].
  split; [|exact Hsame].
  intros i Hi.
  destruct (move_goal_done m d_s (parameters self) (mode self) left_or_right
              Hgoal) as [d'' [Hmove' Hframe]].
  rewrite Hmove in Hmove'. injection Hmove' as <-.
  destruct Hframe as [_ [_ [_ [_ [_ [_ [_ [_ [_ [_ Hother]]]]]]]]]].
  rewrite Hother by (unfold goal_cell, marker_cell in *; lia).
  unfold d_s. cbn [mocap_pos set_mocap_pos].
  apply mju_copy_inside. exact Hi.
Qed.

Lemma TransitionLocked_pose_witness :
  0 <= skateboard_body_id_ (residual_ sample_task) /\
  parameters_declared sample_model synthesizer_parameters /\
  goal_declared sample_model /\
  goal_mocapid sample_model = nmocap sample_model - 1 /\
  exists (self' : Pushing) (d' : mjData) (d_g : mjData),
    TransitionLocked sample_task sample_model sample_data true
      = Done (self', d') /\
    move_goal sample_model sample_data (parameters sample_task)
      (mode sample_task) true = Done d_g /\
    goal_position sample_model d' = goal_position sample_model d_g.
Proof.
  assert (Hboard : 0 <= skateboard_body_id_ (residual_ sample_task))
    by (vm_compute; discriminate).
  split; [exact Hboard|].
  split; [apply sample_parameters_declared|].
  split; [exact sample_goal_declared|].
  split; [reflexivity|].
  destruct (TransitionLocked_pose sample_task sample_model sample_data true
              Hboard (sample_parameters_declared synthesizer_parameters)
              sample_goal_declared eq_refl)
    as [self' [d' [out [d_g [Hrun [_ [Hmove [_ Hgoal]]]]]]]].
  exists self', d', d_g. split; [exact Hrun|]. split; [exact Hmove | exact Hgoal].
Defined.

(** *** Reset, then step *)





(** ** Board heading residual *)

Lemma mju_normalize_regular (a b : R) :
  (mjMINVAL <= sqrt (a * a + b * b))%R ->
  mju_normalize (data_of [a; b]) 2 0 = (a * (1 / sqrt (a * a + b * b)))%R /\
  mju_normalize (data_of [a; b]) 2 1 = (b * (1 / sqrt (a * a + b * b)))%R.
Proof.
  intros Hbig. unfold mju_normalize. rewrite mju_norm_pair.
  destruct (Rlt_dec (sqrt (a * a + b * b)) mjMINVAL) as [Hsmall | _]; [lra|].
  unfold data_of. cbn. rewrite Pos2Nat.inj_1. split; reflexivity.
Qed.

Lemma mju_normalize_null :
  mju_normalize (data_of [0%R; 0%R]) 2 0 = 1%R /\
  mju_normalize (data_of [0%R; 0%R]) 2 1 = 0%R.
Proof.
  unfold mju_normalize. rewrite mju_norm_pair.
  replace (0 * 0 + 0 * 0)%R with 0%R by ring. rewrite sqrt_0.
  destruct (Rlt_dec 0 mjMINVAL) as [_ | H]; [|pose proof mjMINVAL_pos; lra].
  split; reflexivity.
Qed.

(** X7. The board heading residual is the difference of two vectors of
    length one, so its squared length never exceeds 4, for every state. *)
Theorem ComputeBoardHeadingResidual_bounded (self : ResidualFn) (m : mjModel)
    (d : mjData) :
  exists a b : R,
    ComputeBoardHeadingResidual self m d = [a; b] /\ (a * a + b * b <= 4)%R.
Proof.
  unfold ComputeBoardHeadingResidual. cbv zeta.
  match goal with
  | |- context [(mju_normalize (data_of [?h0; ?h1]) 2 0%Z
                 - mju_normalize (data_of [?g0; ?g1]) 2 0%Z)%R] =>
    pose proof (mju_normalize_unit h0 h1) as Hu;
    pose proof (mju_normalize_unit g0 g1) as Hv;
    cbv zeta in Hu, Hv;
    set (u := mju_normalize (data_of [h0; h1]) 2) in *;
    set (v := mju_normalize (data_of [g0; g1]) 2) in *
  end.
  eexists. eexists. split; [reflexivity|].
  generalize dependent (u 0). generalize dependent (u 1).
  generalize dependent (v 0). generalize dependent (v 1).
  intros v1 v0 Hv u1 u0 Hu.
  pose proof (Rle_0_sqr (u0 + v0)) as H0. pose proof (Rle_0_sqr (u1 + v1)) as H1.
  unfold Rsqr in H0, H1. lra.
Qed.

(** X8. When the goal lies straight ahead of the board, at [t] times the
    heading vector for some [t > 0] (neither vector being shorter than
    [mjMINVAL]), the board heading residual is [(0, 0)]. *)
Theorem ComputeBoardHeadingResidual_aligned (self : ResidualFn) (m : mjModel)
    (d : mjData) (t : R) :
  let h0 := xmat d (9 * skateboard_body_id_ self + 0) in
  let h1 := xmat d (9 * skateboard_body_id_ self + 3) in
  let gx := mocap_pos d (3 * goal_body_mocap_id_ self + 0) in
  let gy := mocap_pos d (3 * goal_body_mocap_id_ self + 1) in
  let sx := xpos d (3 * skateboard_body_id_ self + 0) in
  let sy := xpos d (3 * skateboard_body_id_ self + 1) in
  (0 < t)%R ->
  (gx - sx = t * h0)%R ->
  (gy - sy = t * h1)%R ->
  (mjMINVAL <= sqrt (h0 * h0 + h1 * h1))%R ->
  (mjMINVAL <= t * sqrt (h0 * h0 + h1 * h1))%R ->
  ComputeBoardHeadingResidual self m d = [0%R; 0%R].
Proof.
  intros h0 h1 gx gy sx sy Ht Hx Hy Hh Hg.
  unfold ComputeBoardHeadingResidual. cbv zeta.
  fold h0 h1 gx gy sx sy. rewrite Hx, Hy.
  assert (Hnorm : sqrt (t * h0 * (t * h0) + t * h1 * (t * h1))
                  = (t * sqrt (h0 * h0 + h1 * h1))%R).
  { replace (t * h0 * (t * h0) + t * h1 * (t * h1))%R
      with ((t * t) * (h0 * h0 + h1 * h1))%R by ring.
    rewrite sqrt_mult by nra. rewrite sqrt_square by lra. reflexivity. }
  destruct (mju_normalize_regular h0 h1 Hh) as [Eh0 Eh1].
  destruct (mju_normalize_regular (t * h0) (t * h1)) as [Eg0 Eg1].
  { rewrite Hnorm. exact Hg. }
  rewrite Eh0, Eh1, Eg0, Eg1, Hnorm.
  pose proof mjMINVAL_pos as Hmin.
  set (n := sqrt (h0 * h0 + h1 * h1)) in *.
  f_equal; [|f_equal]; field; lra.
Qed.

Lemma ComputeBoardHeadingResidual_aligned_witness :
  (0 < 0.3)%R /\
  ComputeBoardHeadingResidual sample_residual sample_model sample_data
  = [0%R; 0%R].
Proof.
  split; [lra|].
  apply (ComputeBoardHeadingResidual_aligned sample_residual sample_model
           sample_data 0.3); cbn.
  - lra.
  - lra.
  - lra.
  - replace (1 * 1 + 0 * 0)%R with 1%R by lra. rewrite sqrt_1.
    unfold mjMINVAL. lra.
  - replace (1 * 1 + 0 * 0)%R with 1%R by lra. rewrite sqrt_1.
    unfold mjMINVAL. lra.
Defined.

Lemma mju_normalize_short (a b : R) :
  (sqrt (a * a + b * b) < mjMINVAL)%R ->
  mju_normalize (data_of [a; b]) 2 0 = 1%R /\
  mju_normalize (data_of [a; b]) 2 1 = 0%R.
Proof.
  intros Hsmall. unfold mju_normalize. rewrite mju_norm_pair.
  destruct (Rlt_dec (sqrt (a * a + b * b)) mjMINVAL) as [_ | Hbig]; [|lra].
  split; reflexivity.
Qed.

(** X9. When the goal is exactly at the board's planar position the
    direction to the goal is taken to be the world x axis: the residual is
    the unit heading minus [(1, 0)], where the unit heading is the heading
    [(h0, h1)] divided by its length, and [(1, 0)] itself when the heading
    is shorter than [mjMINVAL]. *)
Theorem ComputeBoardHeadingResidual_goal_on_board (self : ResidualFn)
    (m : mjModel) (d : mjData) :
  let h0 := xmat d (9 * skateboard_body_id_ self + 0) in
  let h1 := xmat d (9 * skateboard_body_id_ self + 3) in
  mocap_pos d (3 * goal_body_mocap_id_ self + 0)
    = xpos d (3 * skateboard_body_id_ self + 0) ->
  mocap_pos d (3 * goal_body_mocap_id_ self + 1)
    = xpos d (3 * skateboard_body_id_ self + 1) ->
  ((mjMINVAL <= sqrt (h0 * h0 + h1 * h1))%R ->
   ComputeBoardHeadingResidual self m d
   = [(h0 / sqrt (h0 * h0 + h1 * h1) - 1)%R;
      (h1 / sqrt (h0 * h0 + h1 * h1) - 0)%R]) /\
  ((sqrt (h0 * h0 + h1 * h1) < mjMINVAL)%R ->
   ComputeBoardHeadingResidual self m d = [0%R; 0%R]).
Proof.
  intros h0 h1 Hx Hy. unfold ComputeBoardHeadingResidual. cbv zeta.
  fold h0 h1. rewrite Hx, Hy. rewrite !Rminus_diag.
  destruct mju_normalize_null as [E0 E1]. rewrite E0, E1.
  split.
  - intros Hbig. destruct (mju_normalize_regular h0 h1 Hbig) as [Eh0 Eh1].
    rewrite Eh0, Eh1. unfold Rdiv. rewrite !Rmult_1_l. reflexivity.
  - intros Hsmall. destruct (mju_normalize_short h0 h1 Hsmall) as [Eh0 Eh1].
    rewrite Eh0, Eh1. rewrite !Rminus_diag. reflexivity.
Qed.

Lemma ComputeBoardHeadingResidual_goal_on_board_witness :
  mocap_pos stray_contact_data (3 * goal_body_mocap_id_ sample_residual + 0)
    = xpos stray_contact_data (3 * skateboard_body_id_ sample_residual + 0) /\
  mocap_pos stray_contact_data (3 * goal_body_mocap_id_ sample_residual + 1)
    = xpos stray_contact_data (3 * skateboard_body_id_ sample_residual + 1) /\
  ComputeBoardHeadingResidual sample_residual sample_model stray_contact_data
  = [(1 / sqrt (1 * 1 + 0 * 0) - 1)%R; (0 / sqrt (1 * 1 + 0 * 0) - 0)%R].
Proof.
  split; [reflexivity|]. split; [reflexivity|].
  apply (ComputeBoardHeadingResidual_goal_on_board sample_residual
           sample_model stray_contact_data eq_refl eq_refl).
  change (mjMINVAL <= sqrt (1 * 1 + 0 * 0))%R.
  replace (1 * 1 + 0 * 0)%R with 1%R by lra. rewrite sqrt_1.
  unfold mjMINVAL. lra.
Defined.

(** ** Board velocity residual, level board *)

Lemma list3_eq (a b c a' b' c' : R) :
  a = a' -> b = b' -> c = c' -> [a; b; c] = [a'; b'; c'].
Proof. intros -> -> ->. reflexivity. Qed.

(** X10. When the board's z axis is the world z axis (the last column of its
    orientation matrix is (0, 0, 1)), the velocity residual is the target
    minus the board-frame velocity on all three axes, with the tolerance on
    the first. *)
Theorem ComputeBoardVelocityResidual_level (self : ResidualFn) (m : mjModel)
    (d : mjData) (i adr : Z) :
  parameter_index m "Velocity" = Some i ->
  sensor_adr m "skateboard_framelinvel" = Some adr ->
  xmat d (9 * skateboard_body_id_ self + 2) = 0%R ->
  xmat d (9 * skateboard_body_id_ self + 5) = 0%R ->
  xmat d (9 * skateboard_body_id_ self + 8) = 1%R ->
  ComputeBoardVelocityResidual self m d =
  Done (board_velocity_all_local (parameters_ self i)
          (mju_copy3 (shift (sensordata d) adr))
          (shift (xmat d) (9 * skateboard_body_id_ self))).
Proof.
  intros Hp Hs H2 H5 H8.
  unfold ComputeBoardVelocityResidual, parameter, ParameterIndex, SensorByName.
  rewrite Hp, Hs. cbn [bind]. unfold board_velocity_all_local.
  f_equal. apply list3_eq.
  - reflexivity.
  - unfold mju_rotVecMatT, mju_copy3, shift, vx, vy, vz. cbn [fst snd]. lra.
  - unfold mju_rotVecMatT, mju_copy3, shift, vx, vy, vz. cbn [fst snd].
    rewrite H2, H5, H8. lra.
Qed.

Lemma ComputeBoardVelocityResidual_level_witness :
  parameter_index sample_model "Velocity" = Some 0 /\
  sensor_adr sample_model "skateboard_framelinvel" = Some 0 /\
  xmat sample_data (9 * skateboard_body_id_ sample_residual + 2) = 0%R /\
  xmat sample_data (9 * skateboard_body_id_ sample_residual + 5) = 0%R /\
  xmat sample_data (9 * skateboard_body_id_ sample_residual + 8) = 1%R /\
  exists r : list R,
    ComputeBoardVelocityResidual sample_residual sample_model sample_data
    = Done r.
Proof.
  repeat (split; [reflexivity|]).
  eexists.
  apply (ComputeBoardVelocityResidual_level sample_residual sample_model
           sample_data 0 0); reflexivity.
Defined.

(** ** Contact search *)

Lemma mj_contactForce_active (m : mjModel) (d : mjData) (k : Z) :
  0 <= k < ncon d -> mj_contactForce m d k = Done (contact_frc d k).
Proof.
  intros Hk. unfold mj_contactForce.
  replace (0 <=? k) with true by (symmetry; apply Z.leb_le; lia).
  replace (k <? ncon d) with true by (symmetry; apply Z.ltb_lt; lia).
  cbn [andb]. rewrite contact_at_active by exact Hk. reflexivity.
Qed.

Lemma pair_with_floor (g1 g2 foot floor : Z) :
  (g1 =? foot) && (g2 =? floor) || (g2 =? foot) && (g1 =? floor) = true ->
  (g1 = foot /\ g2 = floor) \/ (g2 = foot /\ g1 = floor).
Proof.
  intros H. apply orb_true_iff in H. destruct H as [H | H];
    apply andb_true_iff in H; destruct H as [H1 H2];
    apply Z.eqb_eq in H1; apply Z.eqb_eq in H2; [left | right]; split; assumption.
Qed.

(** The search keeps in its slots only -1 or the index of an active contact
    of the geom it tests for, and counts at most two. *)
Lemma foot_contact_loop_slots (m : mjModel) (d : mjData) (heel toe floor : Z) :
  forall (n : nat) (i : Z) (st st' : Z * Z * Z),
    (forall k : Z, i <= k < i + Z.of_nat n -> 0 <= k < ncon d) ->
    slot_of d toe floor (fst (fst st)) ->
    slot_of d heel floor (snd (fst st)) ->
    0 <= snd st <= 1 ->
    foot_contact_loop m d heel toe floor n i st = Done st' ->
    slot_of d toe floor (fst (fst st')) /\
    slot_of d heel floor (snd (fst st')) /\
    0 <= snd st' <= 2.
Proof.
  induction n as [|n IH]; intros i st st' Hn Hh Ht Hf Hrun.
  - cbn [foot_contact_loop] in Hrun. injection Hrun as <-.
    split; [exact Hh | split; [exact Ht | lia]].
  - destruct st as [[h t] f]. cbn [fst snd] in Hh, Ht, Hf.
    cbn [foot_contact_loop] in Hrun.
    assert (Hi : 0 <= i < ncon d) by (apply Hn; lia).
    rewrite contact_at_active in Hrun by exact Hi. cbn [bind] in Hrun.
    destruct (std_string (mj_id2name m mjOBJ_XBODY (geom1 (contact d i))));
      cbn [bind] in Hrun; try discriminate.
    destruct (std_string (mj_id2name m mjOBJ_XBODY (geom2 (contact d i))));
      cbn [bind] in Hrun; try discriminate.
    destruct ((geom1 (contact d i) =? heel) && (geom2 (contact d i) =? floor)
              || (geom2 (contact d i) =? heel) && (geom1 (contact d i) =? floor))
      eqn:Hheel.
    + assert (Hslot : slot_of d heel floor i).
      { right. split; [exact Hi | apply pair_with_floor; exact Hheel]. }
      cbn [snd] in Hrun.
      destruct (f + 1 =? 2) eqn:Hfound.
      * injection Hrun as <-. cbn [fst snd].
        split; [exact Hh | split; [exact Hslot | lia]].
      * apply Z.eqb_neq in Hfound.
        apply (IH (i + 1) (h, i, f + 1) st'); cbn [fst snd];
          [intros k Hk; apply Hn; lia | exact Hh | exact Hslot | lia | exact Hrun].
    + destruct ((geom1 (contact d i) =? toe) && (geom2 (contact d i) =? floor)
                || (geom2 (contact d i) =? toe) && (geom1 (contact d i) =? floor))
        eqn:Htoe.
      * assert (Hslot : slot_of d toe floor i).
        { right. split; [exact Hi | apply pair_with_floor; exact Htoe]. }
        cbn [snd] in Hrun.
        destruct (f + 1 =? 2) eqn:Hfound.
        -- injection Hrun as <-. cbn [fst snd].
           split; [exact Hslot | split; [exact Ht | lia]].
        -- apply Z.eqb_neq in Hfound.
           apply (IH (i + 1) (i, t, f + 1) st'); cbn [fst snd];
             [intros k Hk; apply Hn; lia | exact Hslot | exact Ht | lia
             | exact Hrun].
      * cbn [snd] in Hrun.
        destruct (f =? 2) eqn:Hfound; [apply Z.eqb_eq in Hfound; lia|].
        apply (IH (i + 1) (h, t, f) st'); cbn [fst snd];
          [intros k Hk; apply Hn; lia | exact Hh | exact Ht | lia | exact Hrun].
Qed.

(** X11. When the contact search of [ComputeFootContactForceResidual]
    completes, each of the two ids it hands to [mj_contactForce] is -1 or the
    index of an active contact with the floor; the id called
    [left_toe_contact_id] is then a contact of the geom [foot1_left] and the
    id called [left_heel_contact_id] a contact of the geom [foot2_left]; and
    at most two contacts are counted. *)
Theorem foot_contact_search_slots (m : mjModel) (d : mjData)
    (left_heel_contact_id left_toe_contact_id found : Z) :
  foot_contact_loop m d (mj_name2id m mjOBJ_GEOM "foot1_left")
    (mj_name2id m mjOBJ_GEOM "foot2_left") (mj_name2id m mjOBJ_GEOM "floor")
    (Z.to_nat (ncon d)) 0 (-1, -1, 0)
  = Done (left_heel_contact_id, left_toe_contact_id, found) ->
  slot_of d (mj_name2id m mjOBJ_GEOM "foot2_left")
    (mj_name2id m mjOBJ_GEOM "floor") left_heel_contact_id /\
  slot_of d (mj_name2id m mjOBJ_GEOM "foot1_left")
    (mj_name2id m mjOBJ_GEOM "floor") left_toe_contact_id /\
  0 <= found <= 2.
Proof.
  intros Hrun.
  apply (foot_contact_loop_slots m d _ _ _ (Z.to_nat (ncon d)) 0 (-1, -1, 0)
           (left_heel_contact_id, left_toe_contact_id, found)).
  - intros k Hk. lia.
  - left. reflexivity.
  - left. reflexivity.
  - cbn [snd]. lia.
  - exact Hrun.
Qed.

Lemma foot_contact_search_slots_witness :
  foot_contact_loop sample_model toe_contact_data
    (mj_name2id sample_model mjOBJ_GEOM "foot1_left")
    (mj_name2id sample_model mjOBJ_GEOM "foot2_left")
    (mj_name2id sample_model mjOBJ_GEOM "floor")
    (Z.to_nat (ncon toe_contact_data)) 0 (-1, -1, 0)
  = Done (1, -1, 1) /\
  slot_of toe_contact_data (mj_name2id sample_model mjOBJ_GEOM "foot2_left")
    (mj_name2id sample_model mjOBJ_GEOM "floor") 1.
Proof.
  assert (Hrun : foot_contact_loop sample_model toe_contact_data
                   (mj_name2id sample_model mjOBJ_GEOM "foot1_left")
                   (mj_name2id sample_model mjOBJ_GEOM "foot2_left")
                   (mj_name2id sample_model mjOBJ_GEOM "floor")
                   (Z.to_nat (ncon toe_contact_data)) 0 (-1, -1, 0)
                 = Done (1, -1, 1)) by reflexivity.
  split; [exact Hrun|].
  apply (foot_contact_search_slots sample_model toe_contact_data 1 (-1) 1 Hrun).
Defined.

(** With a single left-foot contact in the list, at index [k], the search
    ends with [k] in one slot and -1 in the other. *)
Lemma foot_contact_loop_single (m : mjModel) (d : mjData) (k : Z) :
  contact_names_resolve m d ->
  left_foot_on_floor m (contact d k) = true ->
  forall (n : nat) (i : Z),
    i <= k < i + Z.of_nat n ->
    (forall j : Z, i <= j < i + Z.of_nat n ->
       0 <= j < ncon d /\
       (j <> k -> left_foot_on_floor m (contact d j) = false)) ->
    exists h t : Z,
      foot_contact_loop m d (mj_name2id m mjOBJ_GEOM "foot1_left")
        (mj_name2id m mjOBJ_GEOM "foot2_left") (mj_name2id m mjOBJ_GEOM "floor")
        n i (-1, -1, 0) = Done (h, t, 1) /\
      ((h = k /\ t = -1) \/ (h = -1 /\ t = k)).
Proof.
  intros Hnames Hk. induction n as [|n IH]; intros i Hik Hn; [lia|].
  cbn [foot_contact_loop].
  destruct (Hn i ltac:(lia)) as [Hi Hnone].
  rewrite contact_at_active by exact Hi. cbn [bind].
  destruct (Hnames i Hi) as [H1 H2].
  destruct (std_string_named _ H1) as [s1 E1].
  destruct (std_string_named _ H2) as [s2 E2].
  rewrite E1, E2. cbn [bind].
  destruct (Z.eq_dec i k) as [-> | Hne].
  - unfold left_foot_on_floor in Hk. cbv zeta in Hk.
    match goal with
    | |- context [if ?c then (-1, k, 0 + 1) else _] => destruct c eqn:Hheel
    end.
    + cbn [snd]. change (0 + 1 =? 2) with false. cbv iota.
      exists (-1), k. split; [|right; split; reflexivity].
      apply (foot_contact_loop_no_left_foot m d Hnames).
      * intros j Hj. destruct (Hn j ltac:(lia)) as [Hr Hf].
        split; [exact Hr | apply Hf; lia].
      * cbn. lia.
    + cbn [orb] in Hk. rewrite Hk.
      cbn [snd]. change (0 + 1 =? 2) with false. cbv iota.
      exists k, (-1). split; [|left; split; reflexivity].
      apply (foot_contact_loop_no_left_foot m d Hnames).
      * intros j Hj. destruct (Hn j ltac:(lia)) as [Hr Hf].
        split; [exact Hr | apply Hf; lia].
      * cbn. lia.
  - pose proof (Hnone Hne) as Hfalse.
    unfold left_foot_on_floor in Hfalse. cbv zeta in Hfalse.
    apply orb_false_iff in Hfalse. destruct Hfalse as [Hheel Htoe].
    rewrite Hheel, Htoe. cbn [snd]. change (0 =? 2) with false. cbv iota.
    apply IH; [lia|]. intros j Hj. apply Hn. lia.
Qed.

(** X12. With exactly one active contact between a left-foot geom and the
    floor, at index [k], the residual is the logistic value of the summed
    absolute force components of that contact, gated by the marker height,
    whichever of the two foot geoms is in contact and wherever the contact
    stands in the list. *)
Theorem ComputeFootContactForceResidual_single (self : ResidualFn)
    (m : mjModel) (d : mjData) (k : Z) :
  contact_names_resolve m d ->
  0 <= k < ncon d ->
  left_foot_on_floor m (contact d k) = true ->
  (forall j : Z, 0 <= j < ncon d -> j <> k ->
     left_foot_on_floor m (contact d j) = false) ->
  ComputeFootContactForceResidual self m d =
  Done [(logistic (Rabs (contact_frc d k 0%Z) + Rabs (contact_frc d k 1%Z)
                   + Rabs (contact_frc d k 2%Z))
         * R_of_bool (Rleb (ltoe_height m d) 0.05))%R].
Proof.
  intros Hnames Hk Hfoot Hothers. unfold ComputeFootContactForceResidual.
  destruct (foot_contact_loop_single m d k Hnames Hfoot (Z.to_nat (ncon d)) 0)
    as [h [t [Hloop Hslots]]]; [lia | |].
  { intros j Hj. split; [lia | intros Hne; apply Hothers; lia]. }
  rewrite Hloop. cbn [bind].
  fold (ltoe_height m d).
  destruct Hslots as [[-> ->] | [-> ->]];
    rewrite mj_contactForce_sentinel, (mj_contactForce_active m d k Hk);
    cbn [bind]; unfold mju_add3, mju_copy3, vx, vy, vz; cbn [fst snd];
    rewrite ?Rplus_0_l, ?Rplus_0_r; reflexivity.
Qed.

Lemma toe_contact_names_resolve :
  contact_names_resolve sample_model toe_contact_data.
Proof.
  intros i _. cbn [toe_contact_data contact].
  destruct (i =? 1); cbn; split; discriminate.
Qed.

Lemma ComputeFootContactForceResidual_single_witness :
  contact_names_resolve sample_model toe_contact_data /\
  0 <= 1 < ncon toe_contact_data /\
  left_foot_on_floor sample_model (contact toe_contact_data 1) = true /\
  exists r : R,
    ComputeFootContactForceResidual sample_residual sample_model
      toe_contact_data = Done [r].
Proof.
  assert (Hk : 0 <= 1 < ncon toe_contact_data) by (cbn; lia).
  split; [exact toe_contact_names_resolve|].
  split; [exact Hk|]. split; [reflexivity|].
  eexists.
  apply (ComputeFootContactForceResidual_single sample_residual sample_model
           toe_contact_data 1 toe_contact_names_resolve Hk eq_refl).
  intros j Hj Hne. cbn in Hj. assert (j = 0) by lia. subst j. reflexivity.
Defined.

(** ** Tracking residual in the single-frame motion *)

(** A loop whose step appends a block to a vector appends all the blocks. *)
Lemma for_each_append {A : Type} (l : list A)
    (body : A -> list R -> outcome (list R)) (g : A -> list R) :
  (forall (x : A) (r : list R), In x l -> body x r = Done (app r (g x))) ->
  forall r : list R, for_each l body r = Done (app r (flat_map g l)).
Proof.
  induction l as [|x l IH]; intros Hstep r.
  - cbn. rewrite app_nil_r. reflexivity.
  - cbn [for_each flat_map]. rewrite (Hstep x r (or_introl eq_refl)).
    cbn [bind]. rewrite IH by (intros y s Hy; apply Hstep; right; exact Hy).
    rewrite app_assoc. reflexivity.
Qed.

Lemma SensorByName_value (m : mjModel) (d : mjData) (name : string) :
  sensor_adr m name <> None ->
  exists s : array R,
    SensorByName m d name = Done s /\
    forall i : Z, s i = sensor_value m d name i.
Proof.
  intros H. unfold SensorByName, sensor_value.
  destruct (sensor_adr m name) as [adr|]; [|contradiction].
  eexists. split; [reflexivity|]. intros i. reflexivity.
Qed.

(** X13. In motion 0, whose segment has a single frame, the reference
    velocity of every track body is zero whatever the time and the
    reference time are: the tracking residual ends with the 33 negated
    readings of the linear-velocity sensors of the 11 track bodies, after 36
    position entries. *)
Theorem ComputeTrackingResidual_still_reference (self : ResidualFn)
    (m : mjModel) (d : mjData) :
  current_mode_ self = 0 ->
  parameters_declared m synthesizer_parameters ->
  goal_declared m ->
  markers_declared m ->
  sensors_declared m residual_sensors ->
  exists positions : list R,
    List.length positions = 36%nat /\
    ComputeTrackingResidual self m d =
    Done (app positions
            (flat_map
               (fun b =>
                  [(- sensor_value m d ("tracking_linvel[" ++ b ++ "]") 0)%R;
                   (- sensor_value m d ("tracking_linvel[" ++ b ++ "]") 1)%R;
                   (- sensor_value m d ("tracking_linvel[" ++ b ++ "]") 2)%R])
               track_body_names)).
Proof.
  intros Hmode Hp Hg Hm Hs. unfold ComputeTrackingResidual. rewrite Hmode.
  match goal with
  | |- context [move_mocap_poses ?r ?mm ?dd ?pp ?md] =>
    destruct (move_mocap_poses_done r mm dd pp md Hp Hg) as [translated Ht];
    rewrite Ht; cbn [bind]
  end.
  rewrite single_frame_interpolation.
  change (MotionStartIndex 0) with 0. cbv iota.
  (* marker and sensor averages *)
  match goal with
  | |- context [for_each body_names ?body ?init] =>
    destruct (for_each_invariant (fun _ _ => True) body_names body) with
      (k := 0%nat) (s := init) as [[[am asp] nb] [Eavg _]]
  end.
  { intros k b [[a1 a2] n] Hb _.
    destruct (mocap_index_done m Hm b Hb) as [id Eid]. rewrite Eid. cbn [bind].
    destruct (SensorByName_done m d _ (Hs _ (tracking_pos_sensor b Hb)))
      as [sp Esp].
    rewrite Esp. cbn [bind]. eexists. split; [reflexivity | exact I]. }
  { exact I. }
  rewrite Eavg. cbn [bind].
  (* positions of the track bodies *)
  match goal with
  | |- context [for_each track_body_names ?body ?init] =>
    destruct (for_each_invariant
                (fun k r => List.length r = (3 + 3 * k)%nat)
                track_body_names body) with
      (k := 0%nat) (s := init) as [positions [Epos Hpos]]
  end.
  { intros k b r Hb Hr.
    pose proof (track_body_names_incl b Hb) as Hb'.
    destruct (mocap_index_done m Hm b Hb') as [id Eid]. rewrite Eid. cbn [bind].
    destruct (SensorByName_done m d _ (Hs _ (tracking_pos_sensor b Hb')))
      as [sp Esp].
    rewrite Esp. cbn [bind]. eexists. split; [reflexivity|].
    rewrite !push_back_length, Hr. lia. }
  { rewrite !push_back_length. reflexivity. }
  rewrite Epos. cbn [bind].
  exists positions. split; [rewrite Hpos; reflexivity|].
  (* velocities of the track bodies *)
  apply for_each_append. intros b r Hb.
  pose proof (track_body_names_incl b Hb) as Hb'.
  destruct (mocap_index_done m Hm b Hb') as [id Eid]. rewrite Eid. cbn [bind].
  destruct (SensorByName_value m d _ (Hs _ (tracking_linvel_sensor b Hb)))
    as [sv [Esv Hsv]].
  rewrite Esv. cbn [bind].
  unfold for_range. change (Z.to_nat (3 - 0)) with 3%nat. cbn [for_loop].
  change (0 + 1) with 1. change (1 + 1) with 2.
  unfold push_back. rewrite <- !app_assoc. cbn [app].
  rewrite !Hsv. apply (f_equal Done). apply (f_equal (app r)).
  apply list3_eq; ring.
Qed.

Lemma ComputeTrackingResidual_still_reference_witness :
  current_mode_ sample_residual = 0 /\
  parameters_declared sample_model synthesizer_parameters /\
  goal_declared sample_model /\
  markers_declared sample_model /\
  sensors_declared sample_model residual_sensors /\
  exists v : list R,
    ComputeTrackingResidual sample_residual sample_model sample_data = Done v.
Proof.
  split; [reflexivity|].
  split; [apply sample_parameters_declared|].
  split; [exact sample_goal_declared|].
  split; [exact sample_markers_declared|].
  split; [apply sample_sensors_declared|].
  destruct (ComputeTrackingResidual_still_reference sample_residual sample_model
              sample_data eq_refl
              (sample_parameters_declared synthesizer_parameters)
              sample_goal_declared sample_markers_declared
              (sample_sensors_declared residual_sensors))
    as [positions [_ Hrun]].
  eexists. exact Hrun.
Defined.

(** ** The synthesizer follows the board *)

Lemma move_mocap_poses_stages (result : array R) (m : mjModel) (d : mjData)
    (p : array R) (md : Z) :
  move_mocap_poses result m d p md = move_mocap_poses_staged result m d p md.
Proof. reflexivity. Qed.

Lemma planar_shift_x (m : mjModel) (dx dy : R) (q : Z) :
  marker_slot m q -> planar_shift m dx dy (3 * q + 0) = dx.
Proof.
  intros Hq. unfold marker_slot in Hq. unfold planar_shift, in_range.
  replace (0 <=? 3 * q + 0) with true by (symmetry; apply Z.leb_le; lia).
  replace (3 * q + 0 <? 0 + 3 * (nmocap m - 1)) with true
    by (symmetry; apply Z.ltb_lt; lia).
  cbn [andb]. rewrite Z.add_comm, Z.mul_comm, Z.mod_add by lia. reflexivity.
Qed.

Lemma planar_shift_y (m : mjModel) (dx dy : R) (q : Z) :
  marker_slot m q -> planar_shift m dx dy (3 * q + 1) = dy.
Proof.
  intros Hq. unfold marker_slot in Hq. unfold planar_shift, in_range.
  replace (0 <=? 3 * q + 1) with true by (symmetry; apply Z.leb_le; lia).
  replace (3 * q + 1 <? 0 + 3 * (nmocap m - 1)) with true
    by (symmetry; apply Z.ltb_lt; lia).
  cbn [andb]. rewrite Z.add_comm, Z.mul_comm, Z.mod_add by lia. reflexivity.
Qed.

Lemma planar_shift_z (m : mjModel) (dx dy : R) (q : Z) :
  planar_shift m dx dy (3 * q + 2) = 0%R.
Proof.
  unfold planar_shift. destruct (in_range _ _ _); [|reflexivity].
  rewrite Z.add_comm, Z.mul_comm, Z.mod_add by lia. reflexivity.
Qed.

Lemma planar_shift_outside (m : mjModel) (dx dy : R) (i : Z) :
  ~ marker_cell m i -> planar_shift m dx dy i = 0%R.
Proof.
  intros Hi. unfold marker_cell in Hi. unfold planar_shift, in_range.
  destruct (Z.leb_spec 0 i); destruct (Z.ltb_spec i (0 + 3 * (nmocap m - 1)));
    cbn [andb]; try reflexivity.
  exfalso. apply Hi. lia.
Qed.

(** Two loops over the same range keep a relation between their states when
    each pair of steps does. *)
Lemma for_loop_rel {A B : Type} (P : Z -> A -> B -> Prop)
    (f : Z -> A -> A) (g : Z -> B -> B) :
  forall (n : nat) (i : Z) (s : A) (t : B),
    P i s t ->
    (forall (j : Z) (s : A) (t : B),
       i <= j < i + Z.of_nat n -> P j s t -> P (j + 1) (f j s) (g j t)) ->
    P (i + Z.of_nat n) (for_loop n i f s) (for_loop n i g t).
Proof.
  induction n as [|n IH]; intros i s t Hinit Hstep.
  - cbn [for_loop]. replace (i + Z.of_nat 0) with i by lia. exact Hinit.
  - cbn [for_loop]. replace (i + Z.of_nat (S n)) with (i + 1 + Z.of_nat n) by lia.
    apply IH.
    + apply Hstep; [lia | exact Hinit].
    + intros j s' t' Hj. apply Hstep. lia.
Qed.

Lemma shifted_frame_store (m : mjModel) (dx dy : R) (mp mq : array R) (k : Z)
    (v w : R) :
  shifted_frame m dx dy mp mq ->
  w = (v + planar_shift m dx dy k)%R ->
  shifted_frame m dx dy (store mp k v) (store mq k w).
Proof.
  intros Hs Hw i. unfold store. destruct (Z.eqb_spec i k) as [-> | _].
  - exact Hw.
  - apply Hs.
Qed.

(** A loop of in-place updates keeps two frames shifted when its step does. *)
Lemma shifted_frame_loop (m : mjModel) (dx dy : R) (lo hi : Z)
    (f g : Z -> array R -> array R) (mp mq : array R) :
  shifted_frame m dx dy mp mq ->
  (forall (j : Z) (mp mq : array R),
     lo <= j < hi -> shifted_frame m dx dy mp mq ->
     shifted_frame m dx dy (f j mp) (g j mq)) ->
  shifted_frame m dx dy (for_range lo hi f mp) (for_range lo hi g mq).
Proof.
  intros Hs Hstep. unfold for_range.
  apply (for_loop_rel (fun _ a b => shifted_frame m dx dy a b) f g
           (Z.to_nat (hi - lo)) lo mp mq Hs).
  intros j a b Hj Hab. apply Hstep; [lia | exact Hab].
Qed.

(** Moving the board by [(dx, dy)] moves the anchored keyframe by the same
    offset and leaves the sums for the averages alone. *)
Lemma anchor_frame_shift (m : mjModel) (md : Z) (c0 c1 c2 dx dy : R) :
  fst (fst (anchor_frame m md ((c0 + dx)%R, (c1 + dy)%R, c2)))
    = fst (fst (anchor_frame m md (c0, c1, c2))) /\
  snd (fst (anchor_frame m md ((c0 + dx)%R, (c1 + dy)%R, c2)))
    = snd (fst (anchor_frame m md (c0, c1, c2))) /\
  shifted_frame m dx dy (snd (anchor_frame m md (c0, c1, c2)))
    (snd (anchor_frame m md ((c0 + dx)%R, (c1 + dy)%R, c2))).
Proof.
  unfold anchor_frame, for_range. cbv zeta.
  set (P := fun (j : Z) (s t : R * R * array R) =>
              fst (fst t) = fst (fst s) /\ snd (fst t) = snd (fst s) /\
              forall i : Z,
                snd t i = (snd s i
                           + (if i <? 3 * j then planar_shift m dx dy i
                              else 0))%R).
  match goal with
  | |- context [for_loop ?n 0 ?g (?a, ?b, ?mp)] =>
    match goal with
    | |- context [for_loop n 0 ?f (a, b, mp)] =>
      lazymatch f with
      | g => fail
      | _ => pose proof (for_loop_rel P f g n 0 (a, b, mp) (a, b, mp)) as Hrel
      end
    end
  end.
  assert (Hfinal : forall i : Z,
            (if i <? 3 * (0 + Z.of_nat (Z.to_nat (nmocap m - 1 - 0)))
             then planar_shift m dx dy i else 0%R) = planar_shift m dx dy i).
  { intros i. destruct (Z.ltb_spec i (3 * (0 + Z.of_nat (Z.to_nat (nmocap m - 1 - 0)))));
      [reflexivity|].
    symmetry. apply planar_shift_outside. unfold marker_cell. lia. }
  destruct Hrel as [H0 [H1 Hmp]].
  - unfold P. cbn [fst snd]. split; [reflexivity|]. split; [reflexivity|].
    intros i. destruct (Z.ltb_spec i (3 * 0)); [|lra].
    rewrite planar_shift_outside by (unfold marker_cell; lia). lra.
  - intros j [[a0 a1] mp] [[b0 b1] mq] Hj [Ha [Hb Hcells]].
    cbn [fst snd] in Ha, Hb, Hcells. subst b0 b1.
    assert (Hslot : marker_slot m j) by (unfold marker_slot; lia).
    unfold P. cbn [fst snd]. unfold vx, vy, vz. cbn [fst snd].
    split; [|split].
    + rewrite (Hcells (3 * j + 0)).
      destruct (Z.ltb_spec (3 * j + 0) (3 * j)); [lia | lra].
    + rewrite (Hcells (3 * j + 1)).
      destruct (Z.ltb_spec (3 * j + 1) (3 * j)); [lia | lra].
    + intros i. unfold store.
      destruct (Z.eqb_spec i (3 * j + 2)) as [-> | N2].
      * destruct (Z.eqb_spec (3 * j + 2) (3 * j + 1)); [lia|].
        destruct (Z.eqb_spec (3 * j + 2) (3 * j + 0)); [lia|].
        rewrite (Hcells (3 * j + 2)).
        destruct (Z.ltb_spec (3 * j + 2) (3 * j)); [lia|].
        destruct (Z.ltb_spec (3 * j + 2) (3 * (j + 1))); [|lia].
        rewrite planar_shift_z. lra.
      * destruct (Z.eqb_spec i (3 * j + 1)) as [-> | N1].
        -- destruct (Z.eqb_spec (3 * j + 1) (3 * j + 0)); [lia|].
           rewrite (Hcells (3 * j + 1)).
           destruct (Z.ltb_spec (3 * j + 1) (3 * j)); [lia|].
           destruct (Z.ltb_spec (3 * j + 1) (3 * (j + 1))); [|lia].
           rewrite (planar_shift_y m dx dy j Hslot). lra.
        -- destruct (Z.eqb_spec i (3 * j + 0)) as [-> | N0].
           ++ rewrite (Hcells (3 * j + 0)).
              destruct (Z.ltb_spec (3 * j + 0) (3 * j)); [lia|].
              destruct (Z.ltb_spec (3 * j + 0) (3 * (j + 1))); [|lia].
              rewrite (planar_shift_x m dx dy j Hslot). lra.
           ++ rewrite (Hcells i).
              destruct (Z.ltb_spec i (3 * j));
                destruct (Z.ltb_spec i (3 * (j + 1))); try lia; reflexivity.
  - split; [exact H0|]. split; [exact H1|].
    intros i. specialize (Hmp i). rewrite Hfinal in Hmp. exact Hmp.
Qed.

Lemma center_frame_shift (m : mjModel) (dx dy a0 a1 : R) (mp mq : array R) :
  shifted_frame m dx dy mp mq ->
  shifted_frame m dx dy (center_frame m a0 a1 mp) (center_frame m a0 a1 mq).
Proof.
  intros Hs. unfold center_frame. cbv zeta.
  apply shifted_frame_loop.
  - apply shifted_frame_loop; [exact Hs|].
    intros j p q _ Hpq.
    apply shifted_frame_store.
    + apply shifted_frame_store; [exact Hpq|]. rewrite (Hpq (3 * j + 0)). ring.
    + unfold store.
      destruct (Z.eqb_spec (3 * j + 1) (3 * j + 0)); [lia|].
      rewrite (Hpq (3 * j + 1)). ring.
  - intros j p q _ Hpq.
    apply shifted_frame_store; [exact Hpq|]. rewrite (Hpq (3 * j + 0)). ring.
Qed.

Lemma pose_limbs_shift (m : mjModel) (dx dy : R)
    (az ay fz fy pz py oz oy t : R) (mp mq : array R) :
  marker_slot m (body_mocapid m (mj_name2id m mjOBJ_BODY "mocap[ltoe]")) ->
  marker_slot m (body_mocapid m (mj_name2id m mjOBJ_BODY "mocap[lheel]")) ->
  shifted_frame m dx dy mp mq ->
  shifted_frame m dx dy (pose_limbs m az ay fz fy pz py oz oy t mp)
    (pose_limbs m az ay fz fy pz py oz oy t mq).
Proof.
  intros Htoe Hheel Hs. unfold pose_limbs. cbv zeta.
  set (toe := body_mocapid m (mj_name2id m mjOBJ_BODY "mocap[ltoe]")) in *.
  set (heel := body_mocapid m (mj_name2id m mjOBJ_BODY "mocap[lheel]")) in *.
  apply shifted_frame_loop.
  - apply shifted_frame_store; [|rewrite planar_shift_z; ring].
    apply shifted_frame_store; [|rewrite planar_shift_z; ring].
    match goal with
    | |- shifted_frame _ _ _ (store ?a _ _) (store ?b _ _) =>
      assert (H1 : shifted_frame m dx dy a b)
    end.
    { apply shifted_frame_store; [exact Hs|]. rewrite (Hs (3 * toe + 1)). ring. }
    apply shifted_frame_store; [exact H1|].
    rewrite (H1 (3 * toe + 1)).
    rewrite (planar_shift_y m dx dy toe Htoe), (planar_shift_y m dx dy heel Hheel).
    ring.
  - intros j p q _ Hpq.
    match goal with
    | |- shifted_frame _ _ _ (store ?a ?k2 _) (store ?b _ _) =>
      assert (H1 : shifted_frame m dx dy a b); [|set (i2 := k2)]
    end.
    { match goal with
      | |- shifted_frame _ _ _ (store _ ?k1 _) _ =>
        apply shifted_frame_store; [exact Hpq|]; rewrite (Hpq k1); ring
      end. }
    apply shifted_frame_store; [exact H1|].
    rewrite (H1 i2). ring.
Qed.

Lemma rotate_frame_shift (m : mjModel) (dx dy c0 c1 c2 tilt heading : R)
    (mp mq : array R) :
  shifted_frame m dx dy mp mq ->
  shifted_frame m dx dy (rotate_frame m (c0, c1, c2) tilt heading mp)
    (rotate_frame m ((c0 + dx)%R, (c1 + dy)%R, c2) tilt heading mq).
Proof.
  intros Hs. unfold rotate_frame. apply shifted_frame_loop; [exact Hs|].
  intros j p q Hj Hpq. cbv zeta. unfold vx, vy. cbn [fst snd].
  assert (Hslot : marker_slot m j) by (unfold marker_slot; lia).
  pose proof (Hpq (3 * j + 0)) as Hx. pose proof (Hpq (3 * j + 1)) as Hy.
  pose proof (Hpq (3 * j + 2)) as Hz.
  rewrite (planar_shift_x m dx dy j Hslot) in Hx.
  rewrite (planar_shift_y m dx dy j Hslot) in Hy.
  rewrite planar_shift_z in Hz.
  apply shifted_frame_store; [apply shifted_frame_store;
                              [apply shifted_frame_store; [exact Hpq|]|]|].
  - rewrite (planar_shift_x m dx dy j Hslot), Hx, Hy, Hz. ring.
  - rewrite (planar_shift_y m dx dy j Hslot), Hx, Hy, Hz. ring.
  - rewrite planar_shift_z, Hx, Hz. ring.
Qed.

(** X14. The synthesized pose follows the board in the plane: when the board
    and the goal are both moved by [(dx, dy)], with the time and the
    board's heading and height unchanged, every marker target is moved by
    [(dx, dy)] and keeps its height, and the run stops on the same error if
    it stops.  The markers of the left toe and heel must have slots among
    the tracked markers. *)
Theorem move_mocap_poses_follows_board (m : mjModel) (p : array R) (md : Z)
    (d1 d2 : mjData) (result1 result2 : array R) (dx dy : R) :
  marker_slot m (body_mocapid m (mj_name2id m mjOBJ_BODY "mocap[ltoe]")) ->
  marker_slot m (body_mocapid m (mj_name2id m mjOBJ_BODY "mocap[lheel]")) ->
  time d2 = time d1 ->
  heading_of m d2 = heading_of m d1 ->
  skateboard_position m d2
    = ((vx (skateboard_position m d1) + dx)%R,
       (vy (skateboard_position m d1) + dy)%R,
       vz (skateboard_position m d1)) ->
  goal_xy m d2 = ((fst (goal_xy m d1) + dx)%R, (snd (goal_xy m d1) + dy)%R) ->
  shifted_markers m dx dy
    (move_mocap_poses result1 m d1 p md)
    (move_mocap_poses result2 m d2 p md).
Proof.
  intros Htoe Hheel Htime Hhead Hpos Hgoal.
  rewrite (move_mocap_poses_stages result1 m d1 p md),
    (move_mocap_poses_stages result2 m d2 p md).
  unfold move_mocap_poses_staged. cbv zeta.
  fold (skateboard_position m d1). fold (skateboard_position m d2).
  rewrite Hpos, Hgoal, Hhead, Htime. cbn [fst snd].
  destruct (skateboard_position m d1) as [[c0 c1] c2].
  unfold vx, vy, vz. cbn [fst snd].
  destruct (anchor_frame_shift m md c0 c1 c2 dx dy) as [Ha0 [Ha1 Hframe]].
  destruct (anchor_frame m md (c0, c1, c2)) as [[a0 a1] mp].
  destruct (anchor_frame m md ((c0 + dx)%R, (c1 + dy)%R, c2)) as [[b0 b1] mq].
  cbn [fst snd] in Ha0, Ha1, Hframe. subst b0 b1.
  repeat match goal with
  | |- context [parameter ?mm ?pp ?name] =>
    destruct (parameter mm pp name); cbn [bind shifted_markers]; try reflexivity
  | |- context [error_if ?c ?msg] =>
    destruct c; cbn [error_if mju_error bind shifted_markers]; try reflexivity
  end.
  unfold lean_angle, vx, vy. cbn [fst snd].
  replace (snd (goal_xy m d1) + dy - (c1 + dy))%R
    with (snd (goal_xy m d1) - c1)%R by ring.
  replace (fst (goal_xy m d1) + dx - (c0 + dx))%R
    with (fst (goal_xy m d1) - c0)%R by ring.
  intros q Hq.
  match goal with
  | |- context [rotate_frame m (c0, c1, c2) ?tilt ?heading (pose_limbs m ?az ?ay ?fz ?fy ?pz ?py ?oz ?oy ?t _)] =>
    pose proof (rotate_frame_shift m dx dy c0 c1 c2 tilt heading _ _
                  (pose_limbs_shift m dx dy az ay fz fy pz py oz oy t _ _
                     Htoe Hheel
                     (center_frame_shift m dx dy a0 a1 mp mq Hframe)))
      as Hout
  end.
  assert (Hx : marker_cell m (3 * q + 0)) by (unfold marker_cell, marker_slot in *; lia).
  assert (Hy : marker_cell m (3 * q + 1)) by (unfold marker_cell, marker_slot in *; lia).
  assert (Hz : marker_cell m (3 * q + 2)) by (unfold marker_cell, marker_slot in *; lia).
  rewrite !(mju_copy_inside _ _ _ _ Hx), !(mju_copy_inside _ _ _ _ Hy),
    !(mju_copy_inside _ _ _ _ Hz).
  rewrite (Hout (3 * q + 0)), (Hout (3 * q + 1)), (Hout (3 * q + 2)).
  rewrite (planar_shift_x m dx dy q Hq), (planar_shift_y m dx dy q Hq),
    planar_shift_z.
  repeat split; ring.
Qed.


Lemma move_mocap_poses_follows_board_witness :
  marker_slot sample_model
    (body_mocapid sample_model
       (mj_name2id sample_model mjOBJ_BODY "mocap[ltoe]")) /\
  marker_slot sample_model
    (body_mocapid sample_model
       (mj_name2id sample_model mjOBJ_BODY "mocap[lheel]")) /\
  time moved_sample_data = time sample_data /\
  heading_of sample_model moved_sample_data
    = heading_of sample_model sample_data /\
  skateboard_position sample_model moved_sample_data
    = ((vx (skateboard_position sample_model sample_data) + 2)%R,
       (vy (skateboard_position sample_model sample_data) + -1)%R,
       vz (skateboard_position sample_model sample_data)) /\
  goal_xy sample_model moved_sample_data
    = ((fst (goal_xy sample_model sample_data) + 2)%R,
       (snd (goal_xy sample_model sample_data) + -1)%R) /\
  shifted_markers sample_model 2 (-1)
    (move_mocap_poses (fun _ => 0%R) sample_model sample_data
       (fun _ => 1%R) 0)
    (move_mocap_poses (fun _ => 0%R) sample_model moved_sample_data
       (fun _ => 1%R) 0).
Proof.
  assert (Htoe : marker_slot sample_model
                   (body_mocapid sample_model
                      (mj_name2id sample_model mjOBJ_BODY "mocap[ltoe]")))
    by (unfold marker_slot; simpl; lia).
  assert (Hheel : marker_slot sample_model
                    (body_mocapid sample_model
                       (mj_name2id sample_model mjOBJ_BODY "mocap[lheel]")))
    by (unfold marker_slot; simpl; lia).
  assert (Hpos : skateboard_position sample_model moved_sample_data
                 = ((vx (skateboard_position sample_model sample_data) + 2)%R,
                    (vy (skateboard_position sample_model sample_data) + -1)%R,
                    vz (skateboard_position sample_model sample_data)))
    by reflexivity.
  assert (Hgoal : goal_xy sample_model moved_sample_data
                  = ((fst (goal_xy sample_model sample_data) + 2)%R,
                     (snd (goal_xy sample_model sample_data) + -1)%R))
    by reflexivity.
  split; [exact Htoe|]. split; [exact Hheel|].
  split; [reflexivity|]. split; [reflexivity|].
  split; [exact Hpos|]. split; [exact Hgoal|].
  exact (move_mocap_poses_follows_board sample_model (fun _ => 1%R) 0
           sample_data moved_sample_data (fun _ => 0%R) (fun _ => 0%R) 2 (-1)
           Htoe Hheel eq_refl eq_refl Hpos Hgoal).
Defined.


(** ** When the control step completes *)








(** ** The lean of the synthesized pose *)

(** X17. The clamp of the heading error to [-0.5, 0.5] never acts: the
    error is a sine divided by 3.  The lean angle is the sine of the
    difference of the goal bearing and the board heading, times
    [PI / 6] and the tilt ratio, so its size is at most [PI / 6] times the
    size of the tilt ratio. *)
Theorem lean_angle_unclamped (goal_x goal_y : R) (skateboard_center : vec3)
    (skateboard_heading mocap_tilt : R) :
  lean_angle goal_x goal_y skateboard_center skateboard_heading mocap_tilt
  = (sin (atan2 (goal_y - vy skateboard_center)
                (goal_x - vx skateboard_center) - PI / 2.0
          - skateboard_heading) * (PI / 6) * mocap_tilt)%R /\
  (Rabs (lean_angle goal_x goal_y skateboard_center skateboard_heading
           mocap_tilt)
   <= PI / 6 * Rabs mocap_tilt)%R.
Proof.
  unfold lean_angle. cbv zeta.
  set (s := sin (atan2 (goal_y - vy skateboard_center)
                       (goal_x - vx skateboard_center) - PI / 2.0
                 - skateboard_heading)).
  pose proof (SIN_bound (atan2 (goal_y - vy skateboard_center)
                               (goal_x - vx skateboard_center) - PI / 2.0
                         - skateboard_heading)) as Hs.
  fold s in Hs.
  rewrite (Rmax_right (-0.5) (s / 3)) by lra.
  rewrite (Rmin_right 0.5 (s / 3)) by lra.
  assert (Htwo : (2.0 = 2)%R) by lra.
  assert (Hvalue : (s / 3 * PI / 2.0 * mocap_tilt
                    = s * (PI / 6) * mocap_tilt)%R) by (rewrite Htwo; field).
  split; [exact Hvalue|].
  rewrite Hvalue, !Rabs_mult.
  pose proof PI_RGT_0 as Hpi.
  rewrite (Rabs_pos_eq (PI / 6)) by lra.
  assert (Habs : (Rabs s <= 1)%R) by (apply Rabs_le; lra).
  replace (PI / 6 * Rabs mocap_tilt)%R
    with (1 * (PI / 6) * Rabs mocap_tilt)%R by ring.
  apply Rmult_le_compat_r; [apply Rabs_pos|].
  apply Rmult_le_compat_r; [lra | exact Habs].
Qed.
